(** * Arrow device-array conversion of cudf tables

    A shallow embedding of [cpp/src/interop/to_arrow_device.cu]: the type
    mapper ([id_to_arrow_type], [decimals_to_arrow]), the schema builder
    ([dispatch_to_arrow_type], [to_arrow_schema]) and the array builder
    ([set_buffer], [dispatch_to_arrow_device], [to_arrow_device]).

    C++ exceptions ([CUDF_FAIL], [CUDF_EXPECTS]) are the [Throw] outcome of a
    state-and-error monad; nanoarrow status codes are ordinary [Z] results
    that the code inspects with [NANOARROW_RETURN_NOT_OK].  Pointers into a
    schema or array tree ([out->children[i]]) are modelled by reading the
    child, transforming it and writing it back at the same index. *)

From Stdlib Require Import ZArith Lia.
From stdpp Require Import base list strings.

Local Open Scope string_scope.
Local Open Scope list_scope.
Set Warnings "-register-all".

(** ** Outcomes and the state-and-error monad *)

(** What a C++ call can raise.  [logic_error] is [cudf::logic_error] with its
    message and [bad_alloc] is what the memory resource throws for a request
    it cannot serve; [undefined_behaviour] marks an access the C++ standard
    leaves undefined (indexing a vector past its end, reading memory nobody
    initialised, writing past the end of a buffer). *)
Inductive exception : Type :=
| logic_error (what : string)
| bad_alloc
| undefined_behaviour (what : string).

Inductive outcome (A : Type) : Type :=
| Ok (a : A)
| Throw (e : exception).
Arguments Ok {A} a.
Arguments Throw {A} e.

Definition M (S A : Type) : Type := S -> outcome A * S.

Definition ret {S A} (a : A) : M S A := fun s => (Ok a, s).
Definition throw {S A} (e : exception) : M S A := fun s => (Throw e, s).
Definition bind {S A B} (m : M S A) (k : A -> M S B) : M S B :=
  fun s => match m s with
           | (Ok a, s') => k a s'
           | (Throw e, s') => (Throw e, s')
           end.
Definition modify {S} (f : S -> S) : M S unit := fun s => (Ok tt, f s).
Definition lift_outcome {S A} (o : outcome A) : M S A := fun s => (o, s).

Notation "'let*' p ':=' c 'in' k" := (bind c (fun p => k))
  (at level 10, p pattern, c at level 100, k at level 200,
   format "'[v' 'let*'  p  ':='  c  'in' '/' k ']'").

(** [CUDF_FAIL(msg)] and [CUDF_EXPECTS(cond, msg)]. *)
Definition CUDF_FAIL {S A} (msg : string) : M S A := throw (logic_error msg).
Definition CUDF_EXPECTS {S} (cond : bool) (msg : string) : M S unit :=
  if cond then ret tt else throw (logic_error msg).

(** ** cudf types *)

(** [cudf::type_id]. *)
Inductive type_id : Type :=
| EMPTY
| INT8 | INT16 | INT32 | INT64
| UINT8 | UINT16 | UINT32 | UINT64
| FLOAT32 | FLOAT64
| BOOL8
| TIMESTAMP_DAYS | TIMESTAMP_SECONDS | TIMESTAMP_MILLISECONDS
| TIMESTAMP_MICROSECONDS | TIMESTAMP_NANOSECONDS
| DURATION_DAYS | DURATION_SECONDS | DURATION_MILLISECONDS
| DURATION_MICROSECONDS | DURATION_NANOSECONDS
| DICTIONARY32
| STRING
| LIST
| DECIMAL32 | DECIMAL64 | DECIMAL128
| STRUCT.

Global Instance type_id_eq_dec : EqDecision type_id.
Proof. solve_decision. Defined.

Definition INT32_MAX : Z := 2147483647.

(** A 32-bit signed result, with its wrap-around. *)
Definition wrap32 (z : Z) : Z := ((z + 2 ^ 31) mod 2 ^ 32 - 2 ^ 31)%Z.

(** [std::string::c_str()] as a C string: a [const char*] into the bytes of
    the string, which a reader of C strings follows up to the first NUL. *)
Fixpoint c_str (s : string) : string :=
  match s with
  | EmptyString => EmptyString
  | String c s' => if Ascii.eqb c Ascii.zero then EmptyString else String c (c_str s')
  end.

(** [cudf::data_type]: a type id and, for fixed-point types, a scale, which
    is an [int32_t]. *)
Record data_type : Type := Build_data_type {
  dt_id : type_id;
  dt_scale : Z
}.

(** [cudf::column_view]: a non-owning view of a column and of its children. *)
Inductive column_view : Type := Build_column_view {
  cv_type : data_type;
  cv_size : Z;
  cv_null_count : Z;
  cv_nullable : bool;
  cv_children : list column_view
}.

Definition num_children (input : column_view) : nat := length (cv_children input).

(** [cudf::table_view]. *)
Record table_view : Type := Build_table_view {
  tv_columns : list column_view
}.

Definition num_columns (input : table_view) : nat := length (tv_columns input).

(** [cudf::column_metadata]: a name and the metadata of the children. *)
Inductive column_metadata : Type := Build_column_metadata {
  name : string;
  children_meta : list column_metadata
}.

Global Instance column_metadata_inhabited : Inhabited column_metadata :=
  populate (Build_column_metadata "" []).

(** The storage type [DeviceType] of a fixed-point column. *)
Inductive DeviceType : Type := int32_t | int64_t | int128_t.

(** ** nanoarrow types *)

(** The members of nanoarrow's [enum ArrowType] that the file uses. *)
Inductive ArrowType : Type :=
| NANOARROW_TYPE_NA
| NANOARROW_TYPE_BOOL
| NANOARROW_TYPE_INT8 | NANOARROW_TYPE_INT16
| NANOARROW_TYPE_INT32 | NANOARROW_TYPE_INT64
| NANOARROW_TYPE_UINT8 | NANOARROW_TYPE_UINT16
| NANOARROW_TYPE_UINT32 | NANOARROW_TYPE_UINT64
| NANOARROW_TYPE_FLOAT | NANOARROW_TYPE_DOUBLE
| NANOARROW_TYPE_DATE32
| NANOARROW_TYPE_TIMESTAMP
| NANOARROW_TYPE_DURATION
| NANOARROW_TYPE_DECIMAL128
| NANOARROW_TYPE_STRING
| NANOARROW_TYPE_LIST
| NANOARROW_TYPE_STRUCT.

Global Instance ArrowType_eq_dec : EqDecision ArrowType.
Proof. solve_decision. Defined.

Inductive ArrowTimeUnit : Type :=
| NANOARROW_TIME_UNIT_SECOND
| NANOARROW_TIME_UNIT_MILLI
| NANOARROW_TIME_UNIT_MICRO
| NANOARROW_TIME_UNIT_NANO.

Definition NANOARROW_OK : Z := 0.
Definition ARROW_FLAG_NULLABLE : Z := 2.

(** What a schema node's format string encodes: nothing yet, a plain type, a
    date-time type with its unit, or a decimal with precision and scale. *)
Inductive schema_format : Type :=
| format_unset
| format_type (t : ArrowType)
| format_datetime (t : ArrowType) (u : ArrowTimeUnit)
| format_decimal (t : ArrowType) (precision scale : Z).

(** [struct ArrowSchema].  [sch_initialized] tells whether the members
    hold what [ArrowSchemaInit] or a later call wrote; the members of a node
    that was only allocated are indeterminate. *)
Inductive ArrowSchema : Type := Build_ArrowSchema {
  sch_format : schema_format;
  sch_name : option string;
  sch_flags : Z;
  sch_children : list ArrowSchema;
  sch_dictionary : option ArrowSchema;
  sch_initialized : bool
}.

(** [ArrowSchemaInit]: a node with no format, no name, the nullable flag and
    no children. *)
Definition ArrowSchemaInit : ArrowSchema :=
  Build_ArrowSchema format_unset None ARROW_FLAG_NULLABLE [] None true.

(** A node that was allocated ([ArrowMalloc]) and never initialised. *)
Definition ArrowSchema_allocated : ArrowSchema :=
  Build_ArrowSchema format_unset None 0 [] None false.

Global Instance ArrowSchema_inhabited : Inhabited ArrowSchema :=
  populate ArrowSchemaInit.

Definition set_format (f : schema_format) (s : ArrowSchema) : ArrowSchema :=
  Build_ArrowSchema f (sch_name s) (sch_flags s) (sch_children s) (sch_dictionary s)
    (sch_initialized s).
Definition set_name (n : string) (s : ArrowSchema) : ArrowSchema :=
  Build_ArrowSchema (sch_format s) (Some n) (sch_flags s) (sch_children s) (sch_dictionary s)
    (sch_initialized s).
Definition set_flags (f : Z) (s : ArrowSchema) : ArrowSchema :=
  Build_ArrowSchema (sch_format s) (sch_name s) f (sch_children s) (sch_dictionary s)
    (sch_initialized s).
Definition set_children (c : list ArrowSchema) (s : ArrowSchema) : ArrowSchema :=
  Build_ArrowSchema (sch_format s) (sch_name s) (sch_flags s) c (sch_dictionary s)
    (sch_initialized s).
Definition set_dictionary (d : option ArrowSchema) (s : ArrowSchema) : ArrowSchema :=
  Build_ArrowSchema (sch_format s) (sch_name s) (sch_flags s) (sch_children s) d
    (sch_initialized s).

(** [out->children[i]] read and written back. *)
Definition child_at (i : nat) (s : ArrowSchema) : ArrowSchema := sch_children s !!! i.
Definition set_child (i : nat) (c : ArrowSchema) (s : ArrowSchema) : ArrowSchema :=
  set_children (<[i := c]> (sch_children s)) s.

(** The nanoarrow calls of the file that report a status.  The status each
    one reports is a parameter of the development ([na_status] below): the
    library is not part of the repository. *)
Inductive na_call : Type :=
| SchemaSetType (t : ArrowType)
| SchemaSetTypeDateTime (t : ArrowType) (u : ArrowTimeUnit)
| SchemaSetTypeDecimal (t : ArrowType) (precision scale : Z)
| SchemaSetTypeStruct (n_children : nat)
| SchemaSetName (n : string)
| SchemaAllocateDictionary
| ArrayInitFromType (t : ArrowType)
| ArrayAllocateChildren (n_children : nat)
| ArrayFinishBuilding.

Definition is_ok (status : Z) : bool := bool_decide (status = NANOARROW_OK).

(** [EINVAL], as nanoarrow reports it. *)
Definition EINVAL : Z := 22.

(** ** The type mapper and the schema builder *)

Section SchemaBuilder.

(** The status every nanoarrow call reports. *)
Variable na_status : na_call -> Z.

(** [cudf::detail::max_precision<DeviceType>()], declared in
    [cudf/detail/interop.hpp]. *)
Variable max_precision : DeviceType -> Z.

(** The state threaded through schema construction is the number of schema
    nodes allocated so far. *)
Definition schema_M (A : Type) : Type := M nat A.

Definition allocate_schema_nodes (n : nat) : schema_M unit :=
  modify (fun allocated => allocated + n).

(** Every call of nanoarrow on a schema node starts by reading members of
    the node (the format and name it frees, the dictionary pointer it
    tests); on a node that was never initialised that read is undefined. *)
Definition on_initialized {A : Type} (schema : ArrowSchema) (call : schema_M A)
  : schema_M A :=
  if sch_initialized schema then call
  else throw (undefined_behaviour "uninitialised ArrowSchema").

(** [ArrowSchemaSetType]: on success the node takes the type; a list type
    also allocates and initialises its single child, which nanoarrow names
    "item". *)
Definition ArrowSchemaSetType (schema : ArrowSchema) (t : ArrowType)
  : schema_M (Z * ArrowSchema) :=
  on_initialized schema
    (let status := na_status (SchemaSetType t) in
     if is_ok status then
       match t with
       | NANOARROW_TYPE_LIST =>
           let* _ := allocate_schema_nodes 1 in
           ret (status, set_children [set_name "item" ArrowSchemaInit]
                          (set_format (format_type t) schema))
       | _ => ret (status, set_format (format_type t) schema)
       end
     else ret (status, schema)).

Definition ArrowSchemaSetTypeDateTime (schema : ArrowSchema) (t : ArrowType)
    (u : ArrowTimeUnit) : schema_M (Z * ArrowSchema) :=
  on_initialized schema
    (let status := na_status (SchemaSetTypeDateTime t u) in
     if is_ok status then ret (status, set_format (format_datetime t u) schema)
     else ret (status, schema)).

Definition ArrowSchemaSetTypeDecimal (schema : ArrowSchema) (t : ArrowType)
    (precision scale : Z) : schema_M (Z * ArrowSchema) :=
  on_initialized schema
    (let status := na_status (SchemaSetTypeDecimal t precision scale) in
     if is_ok status then ret (status, set_format (format_decimal t precision scale) schema)
     else ret (status, schema)).

(** [ArrowSchemaSetTypeStruct]: the struct type and [n_children] allocated,
    initialised children. *)
Definition ArrowSchemaSetTypeStruct (schema : ArrowSchema) (n_children : nat)
  : schema_M (Z * ArrowSchema) :=
  on_initialized schema
    (let status := na_status (SchemaSetTypeStruct n_children) in
     if is_ok status then
       let* _ := allocate_schema_nodes n_children in
       ret (status, set_children (replicate n_children ArrowSchemaInit)
                      (set_format (format_type NANOARROW_TYPE_STRUCT) schema))
     else ret (status, schema)).

(** [ArrowSchemaSetName(schema, name)]: [name] is a C string, of which
    nanoarrow copies the characters up to the first NUL. *)
Definition ArrowSchemaSetName (schema : ArrowSchema) (n : string)
  : schema_M (Z * ArrowSchema) :=
  on_initialized schema
    (let status := na_status (SchemaSetName (c_str n)) in
     if is_ok status then ret (status, set_name (c_str n) schema)
     else ret (status, schema)).

(** [ArrowSchemaAllocateDictionary]: on success [schema->dictionary] points
    to a newly allocated node, which the call does not initialise. *)
Definition ArrowSchemaAllocateDictionary (schema : ArrowSchema)
  : schema_M (Z * ArrowSchema) :=
  on_initialized schema
    (let status := na_status SchemaAllocateDictionary in
     if is_ok status then
       let* _ := allocate_schema_nodes 1 in
       ret (status, set_dictionary (Some ArrowSchema_allocated) schema)
     else ret (status, schema)).

Definition id_to_arrow_type (id : type_id) : outcome ArrowType :=
  match id with
  | BOOL8 => Ok NANOARROW_TYPE_BOOL
  | INT8 => Ok NANOARROW_TYPE_INT8
  | INT16 => Ok NANOARROW_TYPE_INT16
  | INT32 => Ok NANOARROW_TYPE_INT32
  | INT64 => Ok NANOARROW_TYPE_INT64
  | UINT8 => Ok NANOARROW_TYPE_UINT8
  | UINT16 => Ok NANOARROW_TYPE_UINT16
  | UINT32 => Ok NANOARROW_TYPE_UINT32
  | UINT64 => Ok NANOARROW_TYPE_UINT64
  | FLOAT32 => Ok NANOARROW_TYPE_FLOAT
  | FLOAT64 => Ok NANOARROW_TYPE_DOUBLE
  | TIMESTAMP_DAYS => Ok NANOARROW_TYPE_DATE32
  | _ => Throw (logic_error "Unsupported type_id conversion to arrow type")
  end.

(** [dispatch_to_arrow_type::operator()] for a [T] that is not
    representation-layout compatible.  Every such type (string, list,
    dictionary, struct) has a specialisation, so no type id reaches it. *)
Definition dispatch_to_arrow_type_not_rep_layout_compatible
  : schema_M (Z * ArrowSchema) :=
  CUDF_FAIL "Unsupported type for to_arrow_schema".

(** [dispatch_to_arrow_type::operator()] for a representation-layout
    compatible [T]: the numeric and chrono types that have no
    specialisation of their own. *)
Definition dispatch_to_arrow_type_rep_layout_compatible (id : type_id)
    (out : ArrowSchema) : schema_M (Z * ArrowSchema) :=
  match id with
  | TIMESTAMP_SECONDS =>
      ArrowSchemaSetTypeDateTime out NANOARROW_TYPE_TIMESTAMP NANOARROW_TIME_UNIT_SECOND
  | TIMESTAMP_MILLISECONDS =>
      ArrowSchemaSetTypeDateTime out NANOARROW_TYPE_TIMESTAMP NANOARROW_TIME_UNIT_MILLI
  | TIMESTAMP_MICROSECONDS =>
      ArrowSchemaSetTypeDateTime out NANOARROW_TYPE_TIMESTAMP NANOARROW_TIME_UNIT_MICRO
  | TIMESTAMP_NANOSECONDS =>
      ArrowSchemaSetTypeDateTime out NANOARROW_TYPE_TIMESTAMP NANOARROW_TIME_UNIT_NANO
  | DURATION_SECONDS =>
      ArrowSchemaSetTypeDateTime out NANOARROW_TYPE_DURATION NANOARROW_TIME_UNIT_SECOND
  | DURATION_MILLISECONDS =>
      ArrowSchemaSetTypeDateTime out NANOARROW_TYPE_DURATION NANOARROW_TIME_UNIT_MILLI
  | DURATION_MICROSECONDS =>
      ArrowSchemaSetTypeDateTime out NANOARROW_TYPE_DURATION NANOARROW_TIME_UNIT_MICRO
  | DURATION_NANOSECONDS =>
      ArrowSchemaSetTypeDateTime out NANOARROW_TYPE_DURATION NANOARROW_TIME_UNIT_NANO
  | _ =>
      let* t := lift_outcome (id_to_arrow_type id) in
      ArrowSchemaSetType out t
  end.

(** The scale is an [int32_t] and so is its negation, which wraps around
    at the least value. *)
Definition decimals_to_arrow (T : DeviceType) (input : column_view)
    (out : ArrowSchema) : schema_M (Z * ArrowSchema) :=
  ArrowSchemaSetTypeDecimal out NANOARROW_TYPE_DECIMAL128
    (max_precision T) (wrap32 (- dt_scale (cv_type input))).

(** The loop of the struct operator over the children of the column, from
    child [i] on; [dispatch] is the recursive call through
    [cudf::type_dispatcher]. *)
Section StructChildren.

Variable dispatch :
  column_view -> type_id -> column_metadata -> ArrowSchema -> schema_M (Z * ArrowSchema).
Variable metadata : column_metadata.

Fixpoint struct_children (cols : list column_view) (i : nat) (out : ArrowSchema)
    {struct cols} : schema_M (Z * ArrowSchema) :=
  match cols with
  | [] => ret (NANOARROW_OK, out)
  | col :: cols' =>
      let child := child_at i out in
      let* (status, child) := ArrowSchemaSetName child (name metadata) in
      if negb (is_ok status) then ret (status, set_child i child out) else
      let child := set_flags (if cv_nullable col then ARROW_FLAG_NULLABLE else 0%Z) child in
      if bool_decide (dt_id (cv_type col) = EMPTY) then
        let* (status, child) := ArrowSchemaSetType child NANOARROW_TYPE_NA in
        if negb (is_ok status) then ret (status, set_child i child out) else
        struct_children cols' (S i) (set_child i child out)
      else
        let* (status, child) :=
          dispatch col (dt_id (cv_type col)) (children_meta metadata !!! i) child in
        if negb (is_ok status) then ret (status, set_child i child out) else
        struct_children cols' (S i) (set_child i child out)
  end.

End StructChildren.

(** [cudf::type_dispatcher(col.type(), dispatch_to_arrow_type{}, col,
    col.type().id(), metadata, out)]: the operator is chosen by the type id
    of [input]; [EMPTY] has no C++ type and the dispatcher rejects it. *)
Fixpoint dispatch_to_arrow_type (input : column_view) (id : type_id)
    (metadata : column_metadata) (out : ArrowSchema) {struct input}
  : schema_M (Z * ArrowSchema) :=
  match dt_id (cv_type input) with
  | EMPTY => CUDF_FAIL "Invalid type_id."
  | DECIMAL32 => decimals_to_arrow int32_t input out
  | DECIMAL64 => decimals_to_arrow int64_t input out
  | DECIMAL128 => decimals_to_arrow int128_t input out
  | BOOL8 => ArrowSchemaSetType out NANOARROW_TYPE_BOOL
  | STRING => ArrowSchemaSetType out NANOARROW_TYPE_STRING
  | STRUCT =>
      let* _ := CUDF_EXPECTS
                  (bool_decide (length (children_meta metadata) = num_children input))
                  "Number of field names and number of children doesn't match
" in
      let* (status, out) := ArrowSchemaSetTypeStruct out (num_children input) in
      if negb (is_ok status) then ret (status, out) else
      struct_children dispatch_to_arrow_type metadata (cv_children input) 0 out
  | LIST =>
      let* (status, out) := ArrowSchemaSetType out NANOARROW_TYPE_LIST in
      if negb (is_ok status) then ret (status, out) else
      match cv_children input with
      | [] => throw (undefined_behaviour "column_view::child(0)")
      | child :: _ =>
          if bool_decide (dt_id (cv_type child) = EMPTY) then
            let* (status, c) := ArrowSchemaSetType (child_at 0 out) NANOARROW_TYPE_NA in
            ret (status, set_child 0 c out)
          else
            let out := set_flags (if cv_nullable child then ARROW_FLAG_NULLABLE else 0%Z) out in
            let child_meta :=
              match children_meta metadata with
              | [] => Build_column_metadata "element" []
              | m :: _ => m
              end in
            let* (status, c) :=
              dispatch_to_arrow_type child (dt_id (cv_type child)) child_meta
                (child_at 0 out) in
            ret (status, set_child 0 c out)
      end
  | DICTIONARY32 =>
      match cv_children input with
      | indices :: dict_keys :: _ =>
          let* (status, out) := ArrowSchemaAllocateDictionary out in
          if negb (is_ok status) then ret (status, out) else
          let* t := lift_outcome (id_to_arrow_type (dt_id (cv_type indices))) in
          let* (status, out) := ArrowSchemaSetType out t in
          if negb (is_ok status) then ret (status, out) else
          let child_meta :=
            match children_meta metadata with
            | [] => Build_column_metadata "keys" []
            | m :: _ => m
            end in
          let* (status, d) :=
            dispatch_to_arrow_type dict_keys (dt_id (cv_type dict_keys)) child_meta
              (default ArrowSchema_allocated (sch_dictionary out)) in
          ret (status, set_dictionary (Some d) out)
      | _ => throw (undefined_behaviour "dictionary_column_view")
      end
  | _ => dispatch_to_arrow_type_rep_layout_compatible id out
  end.

(** The loop of [to_arrow_schema] over the columns of the table, from
    column [i] on. *)
Fixpoint to_arrow_schema_columns (cols : list column_view)
    (metadata : list column_metadata) (i : nat) (result : ArrowSchema)
    {struct cols} : schema_M ArrowSchema :=
  match cols with
  | [] => ret result
  | col :: cols' =>
      let child := child_at i result in
      let* (_, child) := ArrowSchemaSetName child (name (metadata !!! i)) in
      let child := set_flags (if cv_nullable col then ARROW_FLAG_NULLABLE else 0%Z) child in
      if bool_decide (dt_id (cv_type col) = EMPTY) then
        let* (_, child) := ArrowSchemaSetType child NANOARROW_TYPE_NA in
        to_arrow_schema_columns cols' metadata (S i) (set_child i child result)
      else
        let* (status, child) :=
          dispatch_to_arrow_type col (dt_id (cv_type col)) (metadata !!! i) child in
        let* _ := CUDF_EXPECTS (is_ok status)
                    "type dispatcher failed to determine column type" in
        to_arrow_schema_columns cols' metadata (S i) (set_child i child result)
  end.

Definition to_arrow_schema (input : table_view) (metadata : list column_metadata)
  : schema_M ArrowSchema :=
  let* _ := CUDF_EXPECTS (bool_decide (length metadata = num_columns input))
              "columns' metadata should be equal to the number of columns in table" in
  let result := ArrowSchemaInit in
  let* (status, result) := ArrowSchemaSetTypeStruct result (num_columns input) in
  if negb (is_ok status) then CUDF_FAIL "failed to initialize ArrowSchema children" else
  to_arrow_schema_columns (tv_columns input) metadata 0 result.

(** The node an [EMPTY] column leaves at a child that was [c0]: the name and
    the type are set when nanoarrow accepts them, the flag follows the
    nullability of the column, and nothing is added below the node. *)
Definition null_leaf (n : string) (nullable : bool) (c0 : ArrowSchema) : ArrowSchema :=
  let c1 := if is_ok (na_status (SchemaSetName (c_str n))) then set_name (c_str n) c0
            else c0 in
  let c2 := set_flags (if nullable then ARROW_FLAG_NULLABLE else 0%Z) c1 in
  if is_ok (na_status (SchemaSetType NANOARROW_TYPE_NA))
  then set_format (format_type NANOARROW_TYPE_NA) c2 else c2.

End SchemaBuilder.

(** ** Columns, tables and device memory *)

(** [rmm::device_buffer] and [rmm::device_uvector<T>]: a device allocation,
    by its address ([data()], 0 being [nullptr]) and its contents, one [Z]
    per element. *)
Record device_buffer : Type := Build_device_buffer {
  db_data : Z;
  db_words : list Z
}.

Global Instance device_buffer_eq_dec : EqDecision device_buffer.
Proof. solve_decision. Defined.

(** A moved-from buffer, and any buffer of size zero: no address, no
    contents. *)
Definition moved_from_buffer : device_buffer := Build_device_buffer 0 [].

(** [cudf::column]: the owner of a data buffer, of an optional null mask and
    of its child columns. *)
Inductive column : Type := Build_column {
  col_type : data_type;
  col_size : Z;
  col_null_count : Z;
  col_data : device_buffer;
  col_null_mask : option device_buffer;
  col_children : list column
}.

(** [cudf::column::contents]. *)
Record contents : Type := Build_contents {
  c_data : device_buffer;
  c_null_mask : option device_buffer;
  c_children : list column
}.

(** Modelled from the spec: [cudf::column::release] is declared in
    [cudf/column/column.hpp] and is not part of the sources at hand.  "A
    column exclusively owns its data buffer and validity buffer until
    explicitly released", and a consumed column is "moved-from, emptied":
    the buffers and the children leave the column, which is left with zero
    length.  Both buffers are handed out behind owning pointers made by
    [std::make_unique]: the pointer to the null mask is never null, and for
    a column without a null mask it points to a buffer of size zero. *)
Definition column_release (c : column) : contents * column :=
  (Build_contents (col_data c) (Some (default moved_from_buffer (col_null_mask c)))
     (col_children c),
   Build_column (Build_data_type EMPTY 0) 0 0 moved_from_buffer None []).

(** [cudf::table]: the owner of its columns. *)
Record table : Type := Build_table {
  tbl_num_rows : Z;
  tbl_columns : list column
}.

(** Modelled from the spec: [cudf::table::release] is declared in
    [cudf/table/table.hpp] and is not part of the sources at hand.  A table
    "exclusively owns its columns" and is "consumed (moved-from, emptied)":
    the columns leave the table, which is left empty. *)
Definition table_release (t : table) : list column * table :=
  (tbl_columns t, Build_table 0 []).

(** ** Arrow arrays *)

(** The two deallocator callbacks of the file: [device_buffer_finalize<T>]
    and the lambda that destroys the synchronisation event. *)
Inductive finalizer : Type :=
| device_buffer_finalize
| event_finalize.

(** What a deallocator owns through [allocator->private_data]: the
    heap-allocated [std::unique_ptr<T>] a buffer was moved into, or the
    [cudaEvent_t] of the synchronisation handle. *)
Inductive private_data : Type :=
| owned_buffer (b : device_buffer)
| owned_event (e : Z).

(** [struct ArrowBufferAllocator]: nanoarrow's default allocator, or the
    result of [ArrowBufferDeallocator(custom_free, private_data)]. *)
Inductive ArrowBufferAllocator : Type :=
| ArrowBufferAllocatorDefault
| ArrowBufferDeallocator (custom_free : finalizer) (data : private_data).

(** [struct ArrowBuffer]: the data pointer (0 is [nullptr]) and the
    allocator that frees it. *)
Record ArrowBuffer : Type := Build_ArrowBuffer {
  buf_data : Z;
  buf_allocator : ArrowBufferAllocator
}.

Definition ArrowBufferInit : ArrowBuffer := Build_ArrowBuffer 0 ArrowBufferAllocatorDefault.

(** [struct ArrowArray]: the storage type it was initialised with (none
    before initialisation), length, null count, the buffer slots that
    [ArrowArrayBuffer(array, i)] addresses, and the children. *)
Inductive ArrowArray : Type := Build_ArrowArray {
  arr_storage_type : option ArrowType;
  arr_length : Z;
  arr_null_count : Z;
  arr_buffers : list ArrowBuffer;
  arr_children : list ArrowArray
}.

(** A default-constructed [nanoarrow::UniqueArray], and an allocated but not
    yet initialised child. *)
Definition ArrowArray_uninitialized : ArrowArray := Build_ArrowArray None 0 0 [] [].

Definition set_length (n : Z) (a : ArrowArray) : ArrowArray :=
  Build_ArrowArray (arr_storage_type a) n (arr_null_count a) (arr_buffers a) (arr_children a).
Definition set_null_count (n : Z) (a : ArrowArray) : ArrowArray :=
  Build_ArrowArray (arr_storage_type a) (arr_length a) n (arr_buffers a) (arr_children a).
Definition set_buffers (b : list ArrowBuffer) (a : ArrowArray) : ArrowArray :=
  Build_ArrowArray (arr_storage_type a) (arr_length a) (arr_null_count a) b (arr_children a).
Definition set_array_children (c : list ArrowArray) (a : ArrowArray) : ArrowArray :=
  Build_ArrowArray (arr_storage_type a) (arr_length a) (arr_null_count a) (arr_buffers a) c.

Definition ARROW_DEVICE_CUDA : Z := 2.
Definition cudaSuccess : Z := 0.

(** [struct ArrowDeviceArray]. *)
Record ArrowDeviceArray : Type := Build_ArrowDeviceArray {
  array : ArrowArray;
  device_id : Z;
  device_type : Z;
  sync_event : Z
}.

(** ** The device *)

(** What the conversion does to the device, in program order. *)
Inductive effect : Type :=
| device_allocate (address : Z) (n_words : Z)
| device_free (b : device_buffer)
| buffer_attached (slot : nat) (b : device_buffer)
| event_create (e : Z)
| event_record (e : Z) (stream : Z)
| event_destroy (e : Z).

Global Instance effect_eq_dec : EqDecision effect.
Proof. solve_decision. Defined.

(** The state of the device runtime: the effects so far, the next free
    address of the memory resource, which is never [nullptr], the next event
    handle and the current device ([rmm::get_current_cuda_device()]). *)
Record device : Type := Build_device {
  d_trace : list effect;
  d_next_address : positive;
  d_next_event : Z;
  d_current_device : Z
}.

Definition log (e : effect) : M device unit :=
  modify (fun d => Build_device (d_trace d ++ [e]) (d_next_address d)
                     (d_next_event d) (d_current_device d)).

(** The CUDA runtime calls of the file that report a status. *)
Inductive cuda_call : Type :=
| EventCreate
| EventRecord (stream : Z).

(** ** The array builder *)

Section ArrayBuilder.

Variable na_status : na_call -> Z.

(** The status every CUDA runtime call reports. *)
Variable cuda_status : cuda_call -> Z.

Variable max_precision : DeviceType -> Z.

(** The packed bitmask [cudf::detail::bools_to_mask] computes from the
    values of a boolean column. *)
Variable bools_to_mask_words : list Z -> list Z.

(** The contents of freshly allocated, not yet written device memory. *)
Variable uninitialized : Z -> Z.

(** [ArrowArrayInitFromType]: on success an empty array of that storage
    type, with the three buffer slots of nanoarrow's private data. *)
Definition ArrowArrayInitFromType (a : ArrowArray) (t : ArrowType) : Z * ArrowArray :=
  let status := na_status (ArrayInitFromType t) in
  if is_ok status
  then (status, Build_ArrowArray (Some t) 0 0 (replicate 3 ArrowBufferInit) [])
  else (status, a).

Definition ArrowArrayAllocateChildren (a : ArrowArray) (n_children : nat) : Z * ArrowArray :=
  let status := na_status (ArrayAllocateChildren n_children) in
  if is_ok status
  then (status, set_array_children (replicate n_children ArrowArray_uninitialized) a)
  else (status, a).

(** [ArrowArrayFinishBuilding] at [NANOARROW_VALIDATION_LEVEL_NONE]: length,
    null count, slots and children stay as they are. *)
Definition ArrowArrayFinishBuilding (a : ArrowArray) : Z * ArrowArray :=
  (na_status ArrayFinishBuilding, a).

(** [ArrowBufferSetAllocator]: nanoarrow installs the allocator in a buffer
    that holds no data yet and reports [EINVAL] for one whose data pointer
    is set, which it leaves as it is. *)
Definition ArrowBufferSetAllocator (buf : ArrowBuffer) (allocator : ArrowBufferAllocator)
  : Z * ArrowBuffer :=
  if bool_decide (buf_data buf = 0%Z)
  then (NANOARROW_OK, Build_ArrowBuffer (buf_data buf) allocator)
  else (EINVAL, buf).

(** The two deallocator callbacks, run on [allocator->private_data]:
    [device_buffer_finalize] deletes the [std::unique_ptr<T>], which frees
    the device buffer; the event lambda destroys the event. *)
Definition run_finalizer (f : finalizer) (p : private_data) : M device unit :=
  match f, p with
  | device_buffer_finalize, owned_buffer b => log (device_free b)
  | event_finalize, owned_event e => log (event_destroy e)
  | _, _ => throw (undefined_behaviour "reinterpret_cast of private_data")
  end.

(** [ArrowBufferReset], which releases a slot: the allocator's callback
    runs and the slot is empty again.  The default allocator hands the data
    pointer to [free], which is defined for [nullptr] and for what [malloc]
    returned, not for a device address. *)
Definition ArrowBufferReset (buf : ArrowBuffer) : M device ArrowBuffer :=
  let* _ := match buf_allocator buf with
            | ArrowBufferAllocatorDefault =>
                if bool_decide (buf_data buf = 0%Z) then ret tt
                else throw (undefined_behaviour "free of a device address")
            | ArrowBufferDeallocator custom_free data => run_finalizer custom_free data
            end in
  ret ArrowBufferInit.

Definition set_buffer (device_buf : device_buffer) (i : nat) (out : ArrowArray)
  : M device ArrowArray :=
  match arr_buffers out !! i with
  | None => throw (undefined_behaviour "ArrowArrayBuffer")
  | Some buf =>
      let buf := Build_ArrowBuffer (db_data device_buf) (buf_allocator buf) in
      let buf := (ArrowBufferSetAllocator buf
                    (ArrowBufferDeallocator device_buffer_finalize
                       (owned_buffer device_buf))).2 in
      let* _ := log (buffer_attached i device_buf) in
      ret (set_buffers (<[i := buf]> (arr_buffers out)) out)
  end.

(** [if (contents.null_mask) { set_buffer(contents.null_mask, 0, tmp.get()); }] *)
Definition set_null_mask_buffer (null_mask : option device_buffer) (tmp : ArrowArray)
  : M device ArrowArray :=
  match null_mask with
  | Some m => set_buffer m 0 tmp
  | None => ret tmp
  end.

(** [rmm::device_uvector<T>(n, stream, mr)] and [rmm::device_buffer]: a
    request for no element allocates nothing and [data()] is [nullptr];
    the element count is a [std::size_t], so a negative [n] asks for more
    than the address space holds and the memory resource throws; otherwise
    the buffer is a new allocation of [n] elements that nobody wrote yet. *)
Definition allocate (n : Z) : M device device_buffer :=
  if bool_decide (n = 0)%Z then ret moved_from_buffer
  else if bool_decide (n < 0)%Z then throw bad_alloc
  else fun d =>
    (Ok (Build_device_buffer (Z.pos (d_next_address d)) (uninitialized <$> seqZ 0 n)),
     Build_device (d_trace d ++ [device_allocate (Z.pos (d_next_address d)) n])
       (d_next_address d + Z.to_pos n) (d_next_event d) (d_current_device d)).

(** The storage type of the representation-layout compatible operator. *)
Definition storage_type_of (id : type_id) : outcome ArrowType :=
  match id with
  | TIMESTAMP_SECONDS | TIMESTAMP_MILLISECONDS
  | TIMESTAMP_MICROSECONDS | TIMESTAMP_NANOSECONDS => Ok NANOARROW_TYPE_TIMESTAMP
  | DURATION_SECONDS | DURATION_MILLISECONDS
  | DURATION_MICROSECONDS | DURATION_NANOSECONDS => Ok NANOARROW_TYPE_DURATION
  | _ => id_to_arrow_type id
  end.

(** [dispatch_to_arrow_device::operator()] for a [T] that is not
    representation-layout compatible.  Every such type has a specialisation,
    so no type id reaches it. *)
Definition dispatch_to_arrow_device_not_rep_layout_compatible
  : M device (Z * column * ArrowArray) :=
  CUDF_FAIL "Unsupportd type for to_arrow_device".

(** [dispatch_to_arrow_device::operator()] for a representation-layout
    compatible [T]. *)
Definition dispatch_to_arrow_device_rep_layout_compatible (col : column) (id : type_id)
    (stream mr : Z) (out : ArrowArray) : M device (Z * column * ArrowArray) :=
  let tmp := ArrowArray_uninitialized in
  let* storage_type := lift_outcome (storage_type_of id) in
  let '(status, tmp) := ArrowArrayInitFromType tmp storage_type in
  if negb (is_ok status) then ret (status, col, out) else
  let tmp := set_length (col_size col) tmp in
  let tmp := set_null_count (col_null_count col) tmp in
  let '(contents, col) := column_release col in
  let* tmp := set_null_mask_buffer (c_null_mask contents) tmp in
  let* tmp := set_buffer (c_data contents) 1 tmp in
  let '(status, tmp) := ArrowArrayFinishBuilding tmp in
  if negb (is_ok status) then ret (status, col, out) else
  ret (NANOARROW_OK, col, tmp).

Definition BIT_WIDTH_RATIO (T : DeviceType) : Z :=
  match T with
  | int32_t => 4
  | int64_t => 2
  | int128_t => 1
  end.

(** The kernel writes the [ratio] elements from [out_idx] on for every input
    index; the buffer holds [n] elements, and a write outside of it is
    undefined. *)
Definition widen_in_bounds (ratio : Z) (size : Z) (n : Z) : bool :=
  forallb (fun in_idx =>
             let out_idx := wrap32 (in_idx * ratio) in
             bool_decide (0 <= out_idx)%Z && bool_decide (out_idx + ratio <= n)%Z)
          (seqZ 0 size).

(** The body of the widening kernel for one input index. *)
Definition widen_element (ratio : Z) (inp : list Z) (out : list Z) (in_idx : Z) : list Z :=
  let out_idx := wrap32 (in_idx * ratio) in
  let out := <[Z.to_nat out_idx := inp !!! Z.to_nat in_idx]> out in
  foldl (fun out i =>
           <[Z.to_nat (wrap32 (out_idx + i)) :=
               if (inp !!! Z.to_nat in_idx <? 0)%Z then (-1)%Z else 0%Z]> out)
        out (seqZ 1 (ratio - 1)).

(** [thrust::for_each] over [count, count + input.size()). *)
Definition widen (ratio : Z) (size : Z) (inp : list Z) (out : list Z) : list Z :=
  foldl (widen_element ratio inp) out (seqZ 0 size).

Definition unsupported_decimals_to_arrow (T : DeviceType) (input : column)
    (precision : Z) (stream mr : Z) (out : ArrowArray)
  : M device (Z * column * ArrowArray) :=
  let tmp := ArrowArray_uninitialized in
  let '(status, tmp) := ArrowArrayInitFromType tmp NANOARROW_TYPE_DECIMAL128 in
  if negb (is_ok status) then ret (status, input, out) else
  let n := wrap32 (col_size input * BIT_WIDTH_RATIO T) in
  let* buf := allocate n in
  let* _ := if widen_in_bounds (BIT_WIDTH_RATIO T) (col_size input) n then ret tt
            else throw (undefined_behaviour "write past the end of the buffer") in
  let buf := Build_device_buffer (db_data buf)
               (widen (BIT_WIDTH_RATIO T) (col_size input)
                  (db_words (col_data input)) (db_words buf)) in
  let tmp := set_length (col_size input) tmp in
  let tmp := set_null_count (col_null_count input) tmp in
  let '(contents, input) := column_release input in
  let* tmp := set_null_mask_buffer (c_null_mask contents) tmp in
  let* tmp := set_buffer buf 1 tmp in
  let '(status, tmp) := ArrowArrayFinishBuilding tmp in
  if negb (is_ok status) then ret (status, input, out) else
  ret (NANOARROW_OK, input, tmp).

Definition dispatch_to_arrow_device_decimal128 (col : column) (id : type_id)
    (stream mr : Z) (out : ArrowArray) : M device (Z * column * ArrowArray) :=
  let tmp := ArrowArray_uninitialized in
  let '(status, tmp) := ArrowArrayInitFromType tmp NANOARROW_TYPE_DECIMAL128 in
  if negb (is_ok status) then ret (status, col, out) else
  let tmp := set_length (col_size col) tmp in
  let tmp := set_null_count (col_null_count col) tmp in
  let '(contents, col) := column_release col in
  let* tmp := set_null_mask_buffer (c_null_mask contents) tmp in
  let* tmp := set_buffer (c_data contents) 1 tmp in
  let '(status, tmp) := ArrowArrayFinishBuilding tmp in
  if negb (is_ok status) then ret (status, col, out) else
  ret (NANOARROW_OK, col, tmp).

(** [bools_to_mask(column.view(), stream, mr)]: a new buffer that holds the
    packed bitmask. *)
Definition bools_to_mask (col : column) : M device device_buffer :=
  let words := bools_to_mask_words (db_words (col_data col)) in
  let* buf := allocate (Z.of_nat (length words)) in
  ret (Build_device_buffer (db_data buf) words).

Definition dispatch_to_arrow_device_bool (col : column) (id : type_id)
    (stream mr : Z) (out : ArrowArray) : M device (Z * column * ArrowArray) :=
  let tmp := ArrowArray_uninitialized in
  let '(status, tmp) := ArrowArrayInitFromType tmp NANOARROW_TYPE_BOOL in
  if negb (is_ok status) then ret (status, col, out) else
  let tmp := set_length (col_size col) tmp in
  let tmp := set_null_count (col_null_count col) tmp in
  let* bitmask := bools_to_mask col in
  let '(contents, col) := column_release col in
  let* tmp := set_null_mask_buffer (c_null_mask contents) tmp in
  let* tmp := set_buffer bitmask 1 tmp in
  let '(status, tmp) := ArrowArrayFinishBuilding tmp in
  if negb (is_ok status) then ret (status, col, out) else
  ret (NANOARROW_OK, col, tmp).

(** [cudf::type_dispatcher(col->type(), dispatch_to_arrow_device{}, *col,
    col->type().id(), stream, mr, child)]. *)
Definition dispatch_to_arrow_device (col : column) (id : type_id) (stream mr : Z)
    (out : ArrowArray) : M device (Z * column * ArrowArray) :=
  match dt_id (col_type col) with
  | EMPTY => CUDF_FAIL "Invalid type_id."
  | DECIMAL32 =>
      unsupported_decimals_to_arrow int32_t col (max_precision int32_t) stream mr out
  | DECIMAL64 =>
      unsupported_decimals_to_arrow int64_t col (max_precision int64_t) stream mr out
  | DECIMAL128 => dispatch_to_arrow_device_decimal128 col id stream mr out
  | BOOL8 => dispatch_to_arrow_device_bool col id stream mr out
  | STRING => CUDF_FAIL "Unsupported type for to_arrow_device"
  | LIST => CUDF_FAIL "Unsupported type for to_arrow_device"
  | DICTIONARY32 => CUDF_FAIL "Unsupported type for to_arrow_device"
  | STRUCT => CUDF_FAIL "Unsupported type for to_arrow_device"
  | _ => dispatch_to_arrow_device_rep_layout_compatible col id stream mr out
  end.

Definition set_array_child (i : nat) (c : ArrowArray) (a : ArrowArray) : ArrowArray :=
  set_array_children (<[i := c]> (arr_children a)) a.

(** The loop of [to_arrow_device] over the released columns, from column
    [i] on. *)
Fixpoint to_arrow_device_columns (cols : list column) (stream mr : Z) (i : nat)
    (tmp : ArrowArray) {struct cols} : M device ArrowArray :=
  match cols with
  | [] => ret tmp
  | col :: cols' =>
      match arr_children tmp !! i with
      | None => throw (undefined_behaviour "tmp->children[i]")
      | Some child =>
          if bool_decide (dt_id (col_type col) = EMPTY) then
            let child := (ArrowArrayInitFromType child NANOARROW_TYPE_NA).2 in
            let child := set_length (col_size col) child in
            let child := set_null_count (col_size col) child in
            to_arrow_device_columns cols' stream mr (S i) (set_array_child i child tmp)
          else
            let* (status, _, child) :=
              dispatch_to_arrow_device col (dt_id (col_type col)) stream mr child in
            let* _ := CUDF_EXPECTS (is_ok status)
                        "type dispatcher failed to convert to ArrowArray" in
            to_arrow_device_columns cols' stream mr (S i) (set_array_child i child tmp)
      end
  end.

(** [std::make_unique<cudaEvent_t>()] and [cudaEventCreate]: a new event
    handle; the status of the creation is not looked at. *)
Definition cudaEventCreate : M device Z :=
  fun d =>
    let e := d_next_event d in
    (Ok e,
     Build_device
       (if bool_decide (cuda_status EventCreate = cudaSuccess)
        then d_trace d ++ [event_create e] else d_trace d)
       (d_next_address d) (d_next_event d + 1) (d_current_device d)).

(** [cudaEventRecord]: the event is recorded on the stream when the runtime
    reports success. *)
Definition cudaEventRecord (e : Z) (stream : Z) : M device Z :=
  let status := cuda_status (EventRecord stream) in
  if bool_decide (status = cudaSuccess)
  then let* _ := log (event_record e stream) in ret status
  else ret status.

(** The end of [to_arrow_device]: the event is stored behind slot 0 of the
    top-level array, with a deallocator that destroys it. *)
Definition attach_sync_event (sync_event : Z) (tmp : ArrowArray) : M device ArrowArray :=
  match arr_buffers tmp !! 0 with
  | None => throw (undefined_behaviour "ArrowArrayBuffer")
  | Some buf =>
      let buf := Build_ArrowBuffer 0 (buf_allocator buf) in
      let buf := (ArrowBufferSetAllocator buf
                    (ArrowBufferDeallocator event_finalize (owned_event sync_event))).2 in
      ret (set_buffers (<[0 := buf]> (arr_buffers tmp)) tmp)
  end.

Definition get_current_cuda_device : M device Z :=
  fun d => (Ok (d_current_device d), d).

(** [to_arrow_device(table, stream, mr)].  The table is the caller's object,
    passed by reference: the function also returns what is left of it. *)
Definition to_arrow_device (tbl : table) (stream mr : Z) (d : device)
  : outcome ArrowDeviceArray * table * device :=
  let tmp := ArrowArray_uninitialized in
  let tmp := (ArrowArrayInitFromType tmp NANOARROW_TYPE_STRUCT).2 in
  let tmp := (ArrowArrayAllocateChildren tmp (length (tbl_columns tbl))).2 in
  let tmp := set_length (tbl_num_rows tbl) tmp in
  let tmp := set_null_count 0 tmp in
  let '(cols, tbl) := table_release tbl in
  let '(result, d) :=
    (let* tmp := to_arrow_device_columns cols stream mr 0 tmp in
     let* event := cudaEventCreate in
     let* status := cudaEventRecord event stream in
     let* _ := CUDF_EXPECTS (bool_decide (status = cudaSuccess))
                 "could not create event to sync on" in
     let sync_event := event in
     let* tmp := attach_sync_event sync_event tmp in
     let* device_id := get_current_cuda_device in
     ret (Build_ArrowDeviceArray tmp device_id ARROW_DEVICE_CUDA sync_event)) d in
  (result, tbl, d).

(** *** What the operators build *)

(** The slot [set_buffer] leaves for a device buffer: the deallocator that
    owns the buffer is installed when the buffer has no address, and is
    dropped otherwise. *)
Definition attached_slot (b : device_buffer) : ArrowBuffer :=
  (ArrowBufferSetAllocator (Build_ArrowBuffer (db_data b) ArrowBufferAllocatorDefault)
     (ArrowBufferDeallocator device_buffer_finalize (owned_buffer b))).2.

Definition null_mask_slot (m : option device_buffer) : ArrowBuffer :=
  match m with
  | Some b => attached_slot b
  | None => ArrowBufferInit
  end.

Definition null_mask_effects (m : option device_buffer) : list effect :=
  match m with
  | Some b => [buffer_attached 0 b]
  | None => []
  end.

(** The null mask [column::release] hands out. *)
Definition released_null_mask (col : column) : device_buffer :=
  default moved_from_buffer (col_null_mask col).

(** The array node an operator builds for a column, given the storage type
    and the buffer that goes to slot 1. *)
Definition converted (t : ArrowType) (col : column) (data : device_buffer) : ArrowArray :=
  Build_ArrowArray (Some t) (col_size col) (col_null_count col)
    [attached_slot (released_null_mask col); attached_slot data; ArrowBufferInit] [].

(** The buffer that a successful [allocate n] returns on device [d], and
    what the allocation does to the device. *)
Definition allocated (n : Z) (d : device) : device_buffer :=
  if bool_decide (n = 0)%Z then moved_from_buffer
  else Build_device_buffer (Z.pos (d_next_address d)) (uninitialized <$> seqZ 0 n).

Definition allocation_effects (n : Z) (d : device) : list effect :=
  if bool_decide (n = 0)%Z then []
  else [device_allocate (Z.pos (d_next_address d)) n].

(** The number of elements of the buffer the kernel of a decimal column
    writes to. *)
Definition widened_size (T : DeviceType) (col : column) : Z :=
  wrap32 (col_size col * BIT_WIDTH_RATIO T).

(** The buffer the widening kernel fills for a decimal column on device
    [d]. *)
Definition widened (T : DeviceType) (col : column) (d : device) : device_buffer :=
  Build_device_buffer (db_data (allocated (widened_size T col) d))
    (widen (BIT_WIDTH_RATIO T) (col_size col) (db_words (col_data col))
       (db_words (allocated (widened_size T col) d))).

(** What an operator converts a column to when it starts on device [d]: the
    storage type [t], the buffer [data] that goes to slot 1 and the effects
    [pre] that precede the attachment of the buffers. *)
Definition conversion_of (col : column) (id : type_id) (d : device)
    (t : ArrowType) (data : device_buffer) (pre : list effect) : Prop :=
  match dt_id (col_type col) with
  | DECIMAL32 =>
      t = NANOARROW_TYPE_DECIMAL128
      /\ data = widened int32_t col d
      /\ pre = allocation_effects (widened_size int32_t col) d
      /\ (0 <= widened_size int32_t col)%Z
      /\ widen_in_bounds (BIT_WIDTH_RATIO int32_t) (col_size col)
           (widened_size int32_t col) = true
  | DECIMAL64 =>
      t = NANOARROW_TYPE_DECIMAL128
      /\ data = widened int64_t col d
      /\ pre = allocation_effects (widened_size int64_t col) d
      /\ (0 <= widened_size int64_t col)%Z
      /\ widen_in_bounds (BIT_WIDTH_RATIO int64_t) (col_size col)
           (widened_size int64_t col) = true
  | DECIMAL128 =>
      t = NANOARROW_TYPE_DECIMAL128 /\ data = col_data col /\ pre = []
  | BOOL8 =>
      let words := bools_to_mask_words (db_words (col_data col)) in
      t = NANOARROW_TYPE_BOOL
      /\ data = Build_device_buffer
                  (db_data (allocated (Z.of_nat (length words)) d)) words
      /\ pre = allocation_effects (Z.of_nat (length words)) d
  | _ => storage_type_of id = Ok t /\ data = col_data col /\ pre = []
  end.

(** What the loop of [to_arrow_device] leaves at the child of a column: for
    an [EMPTY] column the child [c0] initialised as a null array with length
    and null count equal to the size of the column; otherwise what the
    operator of the column built, whose data buffer was attached to slot 1
    in [trace]. *)
Definition column_node (col : column) (c0 child : ArrowArray) (trace : list effect)
  : Prop :=
  if bool_decide (dt_id (col_type col) = EMPTY) then
    child = set_null_count (col_size col)
              (set_length (col_size col)
                 (ArrowArrayInitFromType c0 NANOARROW_TYPE_NA).2)
  else
    exists d t data pre,
      conversion_of col (dt_id (col_type col)) d t data pre
      /\ child = converted t col data
      /\ buffer_attached 1 data ∈ trace.

(** The top-level node of [to_arrow_device] before the loop over the
    columns. *)
Definition root_node (tbl : table) : ArrowArray :=
  set_null_count 0
    (set_length (tbl_num_rows tbl)
       (ArrowArrayAllocateChildren
          (ArrowArrayInitFromType ArrowArray_uninitialized NANOARROW_TYPE_STRUCT).2
          (length (tbl_columns tbl))).2).

(** The slot that holds the synchronisation event. *)
Definition sync_slot (slot0 : ArrowBuffer) (e : Z) : ArrowBuffer :=
  (ArrowBufferSetAllocator (Build_ArrowBuffer 0 (buf_allocator slot0))
     (ArrowBufferDeallocator event_finalize (owned_event e))).2.

End ArrayBuilder.

(** Effects on device memory, as opposed to effects on events. *)
Definition memory_effect (e : effect) : bool :=
  match e with
  | device_allocate _ _ | device_free _ | buffer_attached _ _ => true
  | event_create _ | event_record _ _ | event_destroy _ => false
  end.

(** [d'] is [d] after the memory effects [effs]: events and the current
    device are as they were. *)
Definition memory_step (d : device) (effs : list effect) (d' : device) : Prop :=
  d_trace d' = d_trace d ++ effs
  /\ forallb memory_effect effs = true
  /\ d_next_event d' = d_next_event d
  /\ d_current_device d' = d_current_device d.

(** The type ids whose C++ type is representation-layout compatible and has
    no operator of its own: the numeric and the chrono types.  They are the
    ids that [dispatch_to_arrow_device] sends to the generic operator. *)
Definition is_rep_layout_compatible_primitive (id : type_id) : bool :=
  match id with
  | INT8 | INT16 | INT32 | INT64 | UINT8 | UINT16 | UINT32 | UINT64
  | FLOAT32 | FLOAT64
  | TIMESTAMP_DAYS | TIMESTAMP_SECONDS | TIMESTAMP_MILLISECONDS
  | TIMESTAMP_MICROSECONDS | TIMESTAMP_NANOSECONDS
  | DURATION_DAYS | DURATION_SECONDS | DURATION_MILLISECONDS
  | DURATION_MICROSECONDS | DURATION_NANOSECONDS => true
  | _ => false
  end.




(** ** Kinds, formats and counts *)

(** The nested kinds: the columns whose schema has nodes below it. *)
Definition is_nested_kind (id : type_id) : bool :=
  match id with
  | LIST | STRUCT | DICTIONARY32 => true
  | _ => false
  end.

Definition is_fixed_point (id : type_id) : bool :=
  match id with
  | DECIMAL32 | DECIMAL64 | DECIMAL128 => true
  | _ => false
  end.

(** The format the schema builder gives a column that is neither nested nor
    fixed-point, read off the operators. *)
Definition schema_format_of (id : type_id) : option schema_format :=
  match id with
  | INT8 => Some (format_type NANOARROW_TYPE_INT8)
  | INT16 => Some (format_type NANOARROW_TYPE_INT16)
  | INT32 => Some (format_type NANOARROW_TYPE_INT32)
  | INT64 => Some (format_type NANOARROW_TYPE_INT64)
  | UINT8 => Some (format_type NANOARROW_TYPE_UINT8)
  | UINT16 => Some (format_type NANOARROW_TYPE_UINT16)
  | UINT32 => Some (format_type NANOARROW_TYPE_UINT32)
  | UINT64 => Some (format_type NANOARROW_TYPE_UINT64)
  | FLOAT32 => Some (format_type NANOARROW_TYPE_FLOAT)
  | FLOAT64 => Some (format_type NANOARROW_TYPE_DOUBLE)
  | BOOL8 => Some (format_type NANOARROW_TYPE_BOOL)
  | STRING => Some (format_type NANOARROW_TYPE_STRING)
  | TIMESTAMP_DAYS => Some (format_type NANOARROW_TYPE_DATE32)
  | TIMESTAMP_SECONDS =>
      Some (format_datetime NANOARROW_TYPE_TIMESTAMP NANOARROW_TIME_UNIT_SECOND)
  | TIMESTAMP_MILLISECONDS =>
      Some (format_datetime NANOARROW_TYPE_TIMESTAMP NANOARROW_TIME_UNIT_MILLI)
  | TIMESTAMP_MICROSECONDS =>
      Some (format_datetime NANOARROW_TYPE_TIMESTAMP NANOARROW_TIME_UNIT_MICRO)
  | TIMESTAMP_NANOSECONDS =>
      Some (format_datetime NANOARROW_TYPE_TIMESTAMP NANOARROW_TIME_UNIT_NANO)
  | DURATION_SECONDS =>
      Some (format_datetime NANOARROW_TYPE_DURATION NANOARROW_TIME_UNIT_SECOND)
  | DURATION_MILLISECONDS =>
      Some (format_datetime NANOARROW_TYPE_DURATION NANOARROW_TIME_UNIT_MILLI)
  | DURATION_MICROSECONDS =>
      Some (format_datetime NANOARROW_TYPE_DURATION NANOARROW_TIME_UNIT_MICRO)
  | DURATION_NANOSECONDS =>
      Some (format_datetime NANOARROW_TYPE_DURATION NANOARROW_TIME_UNIT_NANO)
  | _ => None
  end.

(** The column whose nullability ends up in the flags of a column's schema
    node: the list operator overwrites the flags of the list node with the
    nullability of the list's first child. *)
Definition nullability_source (col : column_view) : bool :=
  match dt_id (cv_type col), cv_children col with
  | LIST, child :: _ =>
      if bool_decide (dt_id (cv_type child) = EMPTY) then cv_nullable col
      else cv_nullable child
  | _, _ => cv_nullable col
  end.

(** The node [to_arrow_schema] hands to the operator of a column: the name
    from the metadata when nanoarrow accepts it, and the flag of the
    column's own nullability. *)
Definition prepared_child (na_status : na_call -> Z) (n : string) (nullable : bool)
    (c0 : ArrowSchema) : ArrowSchema :=
  set_flags (if nullable then ARROW_FLAG_NULLABLE else 0%Z)
    (if is_ok (na_status (SchemaSetName (c_str n))) then set_name (c_str n) c0 else c0).

Local Open Scope Z_scope.

(** The width in bits of a storage type. *)
Definition word_bits (T : DeviceType) : Z :=
  match T with
  | int32_t => 32
  | int64_t => 64
  | int128_t => 128
  end.

(** The unsigned number a sequence of [bits]-wide two's complement words
    spells, lowest word first. *)
Fixpoint little_endian (bits : Z) (words : list Z) : Z :=
  match words with
  | [] => 0
  | w :: ws => w mod 2 ^ bits + 2 ^ bits * little_endian bits ws
  end.

(** The signed reading of an unsigned 128-bit number. *)
Definition signed128 (u : Z) : Z := if u <? 2 ^ 127 then u else u - 2 ^ 128.

(** The words of the 128-bit slot of element [in_idx] in a widened buffer. *)
Definition slot_words (ratio : nat) (in_idx : nat) (buf : list Z) : list Z :=
  take ratio (drop (in_idx * ratio) buf).





(** The storage type an operator initialises its array with. *)
Definition operator_storage_type (col : column) (id : type_id) : option ArrowType :=
  match dt_id (col_type col) with
  | DECIMAL32 | DECIMAL64 | DECIMAL128 => Some NANOARROW_TYPE_DECIMAL128
  | BOOL8 => Some NANOARROW_TYPE_BOOL
  | EMPTY | STRING | LIST | DICTIONARY32 | STRUCT => None
  | _ => match storage_type_of id with
         | Ok t => Some t
         | Throw _ => None
         end
  end.

Local Close Scope Z_scope.


(** ** Sample inputs *)

(** A nanoarrow and a CUDA runtime that report success for every call. *)
Definition na_all_ok : na_call -> Z := fun _ => NANOARROW_OK.
Definition cuda_all_ok : cuda_call -> Z := fun _ => cudaSuccess.

Definition sample_max_precision (T : DeviceType) : Z :=
  match T with
  | int32_t => 9
  | int64_t => 18
  | int128_t => 38
  end.

Definition sample_leaf (id : type_id) : column_view :=
  Build_column_view (Build_data_type id 0) 3 0 false [].

(** A struct column with an [INT32] and a [FLOAT64] field, and metadata that
    names the column "s" and its fields "a" and "b". *)
Definition sample_struct : column_view :=
  Build_column_view (Build_data_type STRUCT 0) 3 0 false
    [sample_leaf INT32; sample_leaf FLOAT64].
Definition sample_struct_metadata : column_metadata :=
  Build_column_metadata "s" [Build_column_metadata "a" []; Build_column_metadata "b" []].

(** A list column whose first child is an [INT32] column. *)
Definition sample_list : column_view :=
  Build_column_view (Build_data_type LIST 0) 3 0 false [sample_leaf INT32].

(** A decimal column of scale -2. *)
Definition sample_decimal (id : type_id) : column_view :=
  Build_column_view (Build_data_type id (-2)) 3 0 false [].

(** A column of type [EMPTY] that nevertheless carries a child, and
    metadata with a child entry. *)
Definition sample_empty : column_view :=
  Build_column_view (Build_data_type EMPTY 5) 3 3 true [sample_leaf INT32].
Definition sample_empty_metadata : column_metadata :=
  Build_column_metadata "e" [Build_column_metadata "x" []].

(** A struct column whose second field is of type [EMPTY]. *)
Definition sample_struct_with_empty : column_view :=
  Build_column_view (Build_data_type STRUCT 0) 3 0 false [sample_leaf INT32; sample_empty].

(** A device with nothing on it yet, device 7 being current. *)
Definition sample_device : device := Build_device [] 1000 1 7.

Definition sample_int32_column : column :=
  Build_column (Build_data_type INT32 0) 3 1
    (Build_device_buffer 100 [1; 2; 3]%Z) (Some (Build_device_buffer 200 [5%Z])) [].
Definition sample_decimal32_column : column :=
  Build_column (Build_data_type DECIMAL32 (-2)) 3 0
    (Build_device_buffer 300 [1; -2; 3]%Z) None [].
Definition sample_bool_column : column :=
  Build_column (Build_data_type BOOL8 0) 3 0
    (Build_device_buffer 500 [1; 0; 1]%Z) None [].
Definition sample_empty_column : column :=
  Build_column (Build_data_type EMPTY 0) 3 3 moved_from_buffer None [].

(** A table the array builder converts, and one it rejects. *)
Definition sample_table : table :=
  Build_table 3 [sample_int32_column; sample_decimal32_column; sample_bool_column;
                 sample_empty_column].

(** [to_arrow_device] on a stream 5 and a memory resource 6, with nanoarrow
    and CUDA reporting success. *)
Definition sample_to_arrow_device (tbl : table)
  : outcome ArrowDeviceArray * table * device :=
  to_arrow_device na_all_ok cuda_all_ok sample_max_precision (fun _ => [])
    (fun _ => 77%Z) tbl 5 6 sample_device.




(** A list column that is not nullable, with a nullable first child. *)
Definition sample_nullable_list : column_view :=
  Build_column_view (Build_data_type LIST 0) 3 0 false
    [Build_column_view (Build_data_type INT32 0) 3 1 true []].


Definition sample_duration_days_column : column :=
  Build_column (Build_data_type DURATION_DAYS 0) 3 0
    (Build_device_buffer 600 [1; 2; 3]%Z) None [].

(** A nanoarrow that rejects every array initialisation, and a CUDA runtime
    that does not record events. *)
Definition na_rejects_arrays : na_call -> Z :=
  fun c => match c with
           | ArrayInitFromType _ => 22%Z
           | _ => NANOARROW_OK
           end.

(** ** The state-and-error monad *)

Lemma bind_Ok {S A B} (m : M S A) (k : A -> M S B) s a s' :
  m s = (Ok a, s') -> bind m k s = k a s'.
Proof. intros H. unfold bind. now rewrite H. Qed.

Lemma bind_Throw {S A B} (m : M S A) (k : A -> M S B) s e s' :
  m s = (Throw e, s') -> bind m k s = (Throw e, s').
Proof. intros H. unfold bind. now rewrite H. Qed.

Lemma bind_Ok_inv {S A B} (m : M S A) (k : A -> M S B) s b s' :
  bind m k s = (Ok b, s') ->
  exists a s1, m s = (Ok a, s1) /\ k a s1 = (Ok b, s').
Proof.
  unfold bind. destruct (m s) as [[a|e] s1]; intros H; [eauto | discriminate].
Qed.

Lemma bind_ret_l {S A B} (a : A) (k : A -> M S B) s : bind (ret a) k s = k a s.
Proof. reflexivity. Qed.

Lemma bind_assoc {S A B C} (m : M S A) (k : A -> M S B) (h : B -> M S C) s :
  bind (bind m k) h s = bind m (fun a => bind (k a) h) s.
Proof. unfold bind. now destruct (m s) as [[a|e] s1]. Qed.

Lemma CUDF_EXPECTS_Ok_inv {S} cond msg (s s' : S) u :
  CUDF_EXPECTS cond msg s = (Ok u, s') -> cond = true /\ s' = s.
Proof. unfold CUDF_EXPECTS. destruct cond; cbv; intros H; inversion H; auto. Qed.

Lemma is_ok_true status : is_ok status = true <-> status = NANOARROW_OK.
Proof. unfold is_ok. apply bool_decide_eq_true. Qed.

(** ** The type mapper *)

Lemma wrap32_small (z : Z) : (- 2 ^ 31 <= z <= INT32_MAX)%Z -> wrap32 z = z.
Proof.
  unfold wrap32, INT32_MAX. intros H.
  rewrite Z.mod_small by lia. lia.
Qed.

Lemma on_initialized_true {A} (schema : ArrowSchema) (call : schema_M A) :
  sch_initialized schema = true -> on_initialized schema call = call.
Proof. unfold on_initialized. now intros ->. Qed.

Lemma on_initialized_Ok_inv {A} (schema : ArrowSchema) (call : schema_M A) a r a' :
  on_initialized schema call a = (Ok r, a') ->
  sch_initialized schema = true /\ call a = (Ok r, a').
Proof.
  unfold on_initialized. destruct (sch_initialized schema); [auto | discriminate].
Qed.


(** C7. A decimal column of 32-bit, 64-bit or 128-bit storage is mapped by
    one call that sets the 128-bit decimal type on the initialised node it
    is given, with the maximum precision of the storage type and the 32-bit
    negation of the scale of the column type; when nanoarrow accepts the
    call, that is the format of the schema node.  No narrower decimal type
    is ever requested.  The 32-bit negation is the negation of every scale
    but the least 32-bit integer. *)
Theorem decimals_map_to_decimal128 (na_status : na_call -> Z)
    (max_precision : DeviceType -> Z) (T : DeviceType) (input : column_view)
    (id : type_id) (metadata : column_metadata) (out : ArrowSchema) (allocated : nat) :
  (dt_id (cv_type input), T) ∈ [(DECIMAL32, int32_t); (DECIMAL64, int64_t);
                                 (DECIMAL128, int128_t)] ->
  sch_initialized out = true ->
  let precision := max_precision T in
  let scale := wrap32 (- dt_scale (cv_type input)) in
  let status := na_status (SchemaSetTypeDecimal NANOARROW_TYPE_DECIMAL128 precision scale) in
  dispatch_to_arrow_type na_status max_precision input id metadata out allocated =
    (Ok (status,
         if is_ok status
         then set_format (format_decimal NANOARROW_TYPE_DECIMAL128 precision scale) out
         else out),
     allocated)
  /\ ((- INT32_MAX <= dt_scale (cv_type input) <= INT32_MAX)%Z ->
      scale = (- dt_scale (cv_type input))%Z).
Proof.
  intros Hin Hinit. destruct input as [[tid sc] sz nc nl ch]. simpl in *. split.
  - repeat (apply elem_of_cons in Hin as [Hin | Hin];
            [injection Hin as -> ->; simpl;
             unfold decimals_to_arrow, ArrowSchemaSetTypeDecimal; simpl;
             rewrite on_initialized_true by exact Hinit;
             destruct (is_ok _); reflexivity |]).
    inversion Hin.
  - intros Hrange. apply wrap32_small. unfold INT32_MAX in *. lia.
Qed.

Lemma decimals_map_to_decimal128_witness :
  dispatch_to_arrow_type na_all_ok sample_max_precision (sample_decimal DECIMAL64)
    DECIMAL64 (Build_column_metadata "d" []) ArrowSchemaInit 0 =
  (Ok (NANOARROW_OK,
       set_format (format_decimal NANOARROW_TYPE_DECIMAL128 18 2) ArrowSchemaInit), 0).
Proof.
  apply (decimals_map_to_decimal128 na_all_ok sample_max_precision int64_t
           (sample_decimal DECIMAL64) DECIMAL64 (Build_column_metadata "d" [])
           ArrowSchemaInit 0).
  - simpl. apply list_elem_of_further, list_elem_of_here.
  - reflexivity.
Defined.

(** C7, as stated, fails on a decimal column of scale -2147483648: the
    negation of the scale is not a 32-bit integer, and the scale that
    reaches nanoarrow is -2147483648 again. *)
Lemma decimal_scale_negation_wraps :
  let input := Build_column_view (Build_data_type DECIMAL32 (-2147483648)) 3 0 false [] in
  exists out' allocated,
    dispatch_to_arrow_type na_all_ok sample_max_precision input DECIMAL32
      (Build_column_metadata "d" []) ArrowSchemaInit 0 = (Ok (NANOARROW_OK, out'), allocated)
    /\ sch_format out' = format_decimal NANOARROW_TYPE_DECIMAL128 9 (-2147483648)
    /\ sch_format out' <>
         format_decimal NANOARROW_TYPE_DECIMAL128 9 (- dt_scale (cv_type input)).
Proof.
  eexists _, _. split; [vm_compute; reflexivity |]. split; [reflexivity |].
  simpl. discriminate.
Qed.

(** ** The schema builder *)

(** C4. Metadata whose shape differs from the column hierarchy is rejected:
    [to_arrow_schema] fails when the number of metadata entries differs from
    the number of columns, and the struct operator fails when the number of
    child metadata entries differs from the number of children.  In both
    cases the failure comes first: the count of allocated schema nodes is
    what it was on entry. *)
Theorem metadata_shape_mismatch_fails (na_status : na_call -> Z)
    (max_precision : DeviceType -> Z) (input : table_view)
    (metadata : list column_metadata) (col : column_view) (id : type_id)
    (col_metadata : column_metadata) (out : ArrowSchema) (allocated : nat) :
  (length metadata <> num_columns input ->
   to_arrow_schema na_status max_precision input metadata allocated =
     (Throw (logic_error
               "columns' metadata should be equal to the number of columns in table"),
      allocated))
  /\ (dt_id (cv_type col) = STRUCT ->
      length (children_meta col_metadata) <> num_children col ->
      dispatch_to_arrow_type na_status max_precision col id col_metadata out allocated =
        (Throw (logic_error "Number of field names and number of children doesn't match
"),
         allocated)).
Proof.
  split.
  - intros Hne. unfold to_arrow_schema.
    erewrite bind_Throw; [reflexivity |].
    unfold CUDF_EXPECTS. now rewrite bool_decide_eq_false_2.
  - intros Hid Hne. destruct col as [ty sz nc nl ch]. simpl in *. rewrite Hid.
    erewrite bind_Throw; [reflexivity |].
    unfold CUDF_EXPECTS. now rewrite bool_decide_eq_false_2.
Qed.

Lemma metadata_shape_mismatch_fails_witness :
  to_arrow_schema na_all_ok sample_max_precision (Build_table_view [sample_struct]) [] 5 =
    (Throw (logic_error
              "columns' metadata should be equal to the number of columns in table"), 5)
  /\ dispatch_to_arrow_type na_all_ok sample_max_precision sample_struct STRUCT
       (Build_column_metadata "s" [Build_column_metadata "a" []]) ArrowSchemaInit 5 =
     (Throw (logic_error "Number of field names and number of children doesn't match
"), 5).
Proof.
  destruct (metadata_shape_mismatch_fails na_all_ok sample_max_precision
              (Build_table_view [sample_struct]) [] sample_struct STRUCT
              (Build_column_metadata "s" [Build_column_metadata "a" []])
              ArrowSchemaInit 5) as [Htable Hstruct].
  split.
  - apply Htable. vm_compute. lia.
  - apply Hstruct; [reflexivity | vm_compute; lia].
Defined.

(** C3. On a struct column with fields named "a" and "b" by the metadata of
    the column named "s", the schema builder names both field nodes "s": the
    struct operator passes the name of the struct's own metadata to
    [ArrowSchemaSetName], not the name of the i-th child metadata. *)
Theorem struct_fields_take_the_struct_name :
  exists result allocated,
    to_arrow_schema na_all_ok sample_max_precision
      (Build_table_view [sample_struct]) [sample_struct_metadata] 0 = (Ok result, allocated)
    /\ sch_name <$> sch_children (child_at 0 result) = [Some "s"; Some "s"]
    /\ name <$> children_meta sample_struct_metadata = ["a"; "b"].
Proof. eexists _, _. split; [vm_compute; reflexivity | split; reflexivity]. Qed.

(** C8. The schema of a list column has one child, built on the first child
    column, and the name of that child does not depend on the metadata: with
    child metadata named "x" and with no child metadata the schema is the
    same, and the child keeps the name that the list initialisation of
    nanoarrow gave it.  The child metadata, or its default "element", is
    only handed to the recursive call. *)
Theorem list_child_name_ignores_metadata :
  let run := fun metadata =>
    to_arrow_schema na_all_ok sample_max_precision
      (Build_table_view [sample_list]) [metadata] 0 in
  run (Build_column_metadata "l" [Build_column_metadata "x" []]) =
    run (Build_column_metadata "l" [])
  /\ exists result allocated,
       run (Build_column_metadata "l" [Build_column_metadata "x" []]) =
         (Ok result, allocated)
       /\ sch_format <$> sch_children (child_at 0 result) =
            [format_type NANOARROW_TYPE_INT32]
       /\ sch_name <$> sch_children (child_at 0 result) = [Some "item"].
Proof.
  split; [vm_compute; reflexivity |].
  eexists _, _. split; [vm_compute; reflexivity | split; reflexivity].
Qed.

Section SchemaBuilderFacts.

Variable na_status : na_call -> Z.
Variable max_precision : DeviceType -> Z.

Lemma ArrowSchemaSetName_run (schema : ArrowSchema) (n : string) (allocated : nat) :
  sch_initialized schema = true ->
  ArrowSchemaSetName na_status schema n allocated =
    (Ok (na_status (SchemaSetName (c_str n)),
         if is_ok (na_status (SchemaSetName (c_str n)))
         then set_name (c_str n) schema else schema),
     allocated).
Proof.
  intros Hinit. unfold ArrowSchemaSetName. rewrite on_initialized_true by exact Hinit.
  now destruct (is_ok _).
Qed.

Lemma ArrowSchemaSetName_Ok_inv (schema : ArrowSchema) (n : string) (a : nat)
    (status : Z) (schema' : ArrowSchema) (a' : nat) :
  ArrowSchemaSetName na_status schema n a = (Ok (status, schema'), a') ->
  sch_initialized schema = true
  /\ status = na_status (SchemaSetName (c_str n))
  /\ schema' = (if is_ok (na_status (SchemaSetName (c_str n)))
                then set_name (c_str n) schema else schema)
  /\ a' = a.
Proof.
  intros Hrun. pose proof Hrun as Hrun'.
  apply on_initialized_Ok_inv in Hrun' as [Hinit _].
  rewrite ArrowSchemaSetName_run in Hrun by exact Hinit.
  injection Hrun as <- <- <-. auto.
Qed.

Lemma bind_SetName_Ok {B} (schema : ArrowSchema) (n : string)
    (k : Z * ArrowSchema -> schema_M B) (a : nat) (r : B) (a' : nat) :
  bind (ArrowSchemaSetName na_status schema n) k a = (Ok r, a') ->
  k (na_status (SchemaSetName (c_str n)),
     if is_ok (na_status (SchemaSetName (c_str n)))
     then set_name (c_str n) schema else schema) a = (Ok r, a').
Proof.
  intros Hrun. apply bind_Ok_inv in Hrun as ([st c] & a1 & Hname & Hrun).
  now apply ArrowSchemaSetName_Ok_inv in Hname as (_ & -> & -> & ->).
Qed.

Lemma ArrowSchemaSetType_NA_run (schema : ArrowSchema) (allocated : nat) :
  sch_initialized schema = true ->
  ArrowSchemaSetType na_status schema NANOARROW_TYPE_NA allocated =
    (Ok (na_status (SchemaSetType NANOARROW_TYPE_NA),
         if is_ok (na_status (SchemaSetType NANOARROW_TYPE_NA))
         then set_format (format_type NANOARROW_TYPE_NA) schema else schema),
     allocated).
Proof.
  intros Hinit. unfold ArrowSchemaSetType. rewrite on_initialized_true by exact Hinit.
  now destruct (is_ok _).
Qed.

Lemma ArrowSchemaSetType_NA_Ok_inv (schema : ArrowSchema) (a : nat)
    (status : Z) (schema' : ArrowSchema) (a' : nat) :
  ArrowSchemaSetType na_status schema NANOARROW_TYPE_NA a = (Ok (status, schema'), a') ->
  sch_initialized schema = true
  /\ status = na_status (SchemaSetType NANOARROW_TYPE_NA)
  /\ schema' = (if is_ok (na_status (SchemaSetType NANOARROW_TYPE_NA))
                then set_format (format_type NANOARROW_TYPE_NA) schema else schema)
  /\ a' = a.
Proof.
  intros Hrun. pose proof Hrun as Hrun'.
  apply on_initialized_Ok_inv in Hrun' as [Hinit _].
  rewrite ArrowSchemaSetType_NA_run in Hrun by exact Hinit.
  injection Hrun as <- <- <-. auto.
Qed.

Lemma bind_SetType_NA_Ok {B} (schema : ArrowSchema)
    (k : Z * ArrowSchema -> schema_M B) (a : nat) (r : B) (a' : nat) :
  bind (ArrowSchemaSetType na_status schema NANOARROW_TYPE_NA) k a = (Ok r, a') ->
  k (na_status (SchemaSetType NANOARROW_TYPE_NA),
     if is_ok (na_status (SchemaSetType NANOARROW_TYPE_NA))
     then set_format (format_type NANOARROW_TYPE_NA) schema else schema) a = (Ok r, a').
Proof.
  intros Hrun. apply bind_Ok_inv in Hrun as ([st c] & a1 & Hna & Hrun).
  now apply ArrowSchemaSetType_NA_Ok_inv in Hna as (_ & -> & -> & ->).
Qed.

Lemma null_leaf_children n nullable c0 :
  sch_children (null_leaf na_status n nullable c0) = sch_children c0
  /\ sch_dictionary (null_leaf na_status n nullable c0) = sch_dictionary c0
  /\ sch_flags (null_leaf na_status n nullable c0) = (if nullable then ARROW_FLAG_NULLABLE else 0%Z).
Proof. unfold null_leaf. repeat destruct (is_ok _); auto. Qed.

Lemma set_child_children i c s :
  sch_children (set_child i c s) = <[i := c]> (sch_children s).
Proof. reflexivity. Qed.

Lemma child_at_set_child_ne i j c s :
  i <> j -> child_at j (set_child i c s) = child_at j s.
Proof.
  intros Hne. unfold child_at. rewrite set_child_children.
  rewrite !list_lookup_total_alt, list_lookup_insert_ne by done. reflexivity.
Qed.

(** The loop of [to_arrow_schema]: the children before [i] are left alone,
    the number of children is kept, and an [EMPTY] column at offset [j]
    leaves a null leaf at child [i + j]. *)
Lemma to_arrow_schema_columns_spec (cols : list column_view)
    (metadata : list column_metadata) :
  forall (i : nat) (result : ArrowSchema) (a : nat) (result' : ArrowSchema) (a' : nat),
    to_arrow_schema_columns na_status max_precision cols metadata i result a =
      (Ok result', a') ->
    length (sch_children result') = length (sch_children result)
    /\ (forall j, j < i -> sch_children result' !! j = sch_children result !! j)
    /\ (forall j col,
          cols !! j = Some col -> dt_id (cv_type col) = EMPTY ->
          i + j < length (sch_children result) ->
          sch_children result' !! (i + j) =
            Some (null_leaf na_status (name (metadata !!! (i + j))) (cv_nullable col)
                    (child_at (i + j) result))).
Proof.
  induction cols as [|col cols IH]; intros i result a result' a' Hrun.
  - simpl in Hrun. injection Hrun as <- <-.
    split; [reflexivity | split; [reflexivity |]]. intros j c Hj. discriminate.
  - simpl in Hrun. apply bind_SetName_Ok in Hrun.
    simpl in Hrun.
    case_bool_decide as Hid.
    + apply bind_SetType_NA_Ok in Hrun.
      apply IH in Hrun as (Hlen & Hbefore & Hempty).
      rewrite set_child_children, length_insert in Hlen, Hempty.
      split; [exact Hlen | split].
      * intros j Hj. rewrite Hbefore by lia. rewrite set_child_children.
        apply list_lookup_insert_ne. lia.
      * intros [|j] c Hj Hc Hlt.
        -- injection Hj as ->. rewrite Nat.add_0_r in *.
           rewrite Hbefore by lia. rewrite set_child_children.
           rewrite list_lookup_insert_eq by lia. reflexivity.
        -- simpl in Hj. replace (i + S j) with (S i + j) in * by lia.
           rewrite (Hempty j c Hj Hc Hlt).
           rewrite child_at_set_child_ne by lia. reflexivity.
    + apply bind_Ok_inv in Hrun as ([status child] & a1 & _ & Hrun).
      apply bind_Ok_inv in Hrun as (u & a2 & Hexp & Hrun).
      apply CUDF_EXPECTS_Ok_inv in Hexp as [_ ->].
      apply IH in Hrun as (Hlen & Hbefore & Hempty).
      rewrite set_child_children, length_insert in Hlen, Hempty.
      split; [exact Hlen | split].
      * intros j Hj. rewrite Hbefore by lia. rewrite set_child_children.
        apply list_lookup_insert_ne. lia.
      * intros [|j] c Hj Hc Hlt.
        -- injection Hj as ->. contradiction.
        -- simpl in Hj. replace (i + S j) with (S i + j) in * by lia.
           rewrite (Hempty j c Hj Hc Hlt).
           rewrite child_at_set_child_ne by lia. reflexivity.
Qed.

Lemma ret_status_Ok_inv {A} (status : Z) (x y : A) (a a' : nat) :
  negb (is_ok status) = true -> ret (status, x) a = (Ok (NANOARROW_OK, y), a') -> False.
Proof.
  intros Hneg Hret. injection Hret as -> _ _. discriminate Hneg.
Qed.

(** The loop of the struct operator, when it reports success. *)
Lemma struct_children_spec
    (dispatch : column_view -> type_id -> column_metadata -> ArrowSchema ->
                schema_M (Z * ArrowSchema))
    (metadata : column_metadata) (cols : list column_view) :
  forall (i : nat) (out : ArrowSchema) (a : nat) (out' : ArrowSchema) (a' : nat),
    struct_children na_status dispatch metadata cols i out a =
      (Ok (NANOARROW_OK, out'), a') ->
    length (sch_children out') = length (sch_children out)
    /\ (forall j, j < i -> sch_children out' !! j = sch_children out !! j)
    /\ (forall j col,
          cols !! j = Some col -> dt_id (cv_type col) = EMPTY ->
          i + j < length (sch_children out) ->
          is_ok (na_status (SchemaSetType NANOARROW_TYPE_NA)) = true
          /\ sch_children out' !! (i + j) =
               Some (null_leaf na_status (name metadata) (cv_nullable col) (child_at (i + j) out))).
Proof.
  induction cols as [|col cols IH]; intros i out a out' a' Hrun.
  - simpl in Hrun. injection Hrun as <- <-.
    split; [reflexivity | split; [reflexivity |]]. intros j c Hj. discriminate.
  - simpl in Hrun. apply bind_SetName_Ok in Hrun.
    simpl in Hrun.
    destruct (negb (is_ok (na_status (SchemaSetName (c_str (name metadata)))))) eqn:Hname;
      [now apply ret_status_Ok_inv in Hrun |].
    apply negb_false_iff in Hname.
    case_bool_decide as Hid.
    + apply bind_SetType_NA_Ok in Hrun.
      simpl in Hrun.
      destruct (negb (is_ok (na_status (SchemaSetType NANOARROW_TYPE_NA)))) eqn:Hna;
        [now apply ret_status_Ok_inv in Hrun |].
      apply negb_false_iff in Hna.
      apply IH in Hrun as (Hlen & Hbefore & Hempty).
      rewrite set_child_children, length_insert in Hlen, Hempty.
      split; [exact Hlen | split].
      * intros j Hj. rewrite Hbefore by lia. rewrite set_child_children.
        apply list_lookup_insert_ne. lia.
      * intros [|j] c Hj Hc Hlt.
        -- injection Hj as ->. rewrite Nat.add_0_r in *. split; [exact Hna |].
           rewrite Hbefore by lia. rewrite set_child_children.
           rewrite list_lookup_insert_eq by lia. unfold null_leaf.
           rewrite Hna. reflexivity.
        -- simpl in Hj. replace (i + S j) with (S i + j) in * by lia.
           destruct (Hempty j c Hj Hc Hlt) as [Hok ->]. split; [exact Hok |].
           rewrite child_at_set_child_ne by lia. reflexivity.
    + apply bind_Ok_inv in Hrun as ([status child] & a1 & _ & Hrun).
      destruct (negb (is_ok status)) eqn:Hstatus;
        [now apply ret_status_Ok_inv in Hrun |].
      apply IH in Hrun as (Hlen & Hbefore & Hempty).
      rewrite set_child_children, length_insert in Hlen, Hempty.
      split; [exact Hlen | split].
      * intros j Hj. rewrite Hbefore by lia. rewrite set_child_children.
        apply list_lookup_insert_ne. lia.
      * intros [|j] c Hj Hc Hlt.
        -- injection Hj as ->. contradiction.
        -- simpl in Hj. replace (i + S j) with (S i + j) in * by lia.
           destruct (Hempty j c Hj Hc Hlt) as [Hok ->]. split; [exact Hok |].
           rewrite child_at_set_child_ne by lia. reflexivity.
Qed.

Lemma ArrowSchemaSetTypeStruct_Ok_inv (schema : ArrowSchema) (n : nat) (a : nat)
    (status : Z) (schema' : ArrowSchema) (a' : nat) :
  ArrowSchemaSetTypeStruct na_status schema n a = (Ok (status, schema'), a') ->
  negb (is_ok status) = false ->
  sch_children schema' = replicate n ArrowSchemaInit.
Proof.
  unfold ArrowSchemaSetTypeStruct. intros H. apply on_initialized_Ok_inv in H as [_ H].
  revert H. destruct (is_ok (na_status (SchemaSetTypeStruct n))) eqn:Hok.
  - intros H _. cbv [bind allocate_schema_nodes modify ret] in H.
    injection H as <- <- <-. reflexivity.
  - intros H Hneg. injection H as <- <- <-. now rewrite Hok in Hneg.
Qed.

Lemma dispatch_to_arrow_type_struct (input : column_view) (id : type_id)
    (metadata : column_metadata) (out : ArrowSchema) :
  dt_id (cv_type input) = STRUCT ->
  dispatch_to_arrow_type na_status max_precision input id metadata out =
    (let* _ := CUDF_EXPECTS
                 (bool_decide (length (children_meta metadata) = num_children input))
                 "Number of field names and number of children doesn't match
" in
     let* (status, out) := ArrowSchemaSetTypeStruct na_status out (num_children input) in
     if negb (is_ok status) then ret (status, out) else
     struct_children na_status (dispatch_to_arrow_type na_status max_precision)
       metadata (cv_children input) 0 out).
Proof. destruct input as [ty sz nc nl ch]. simpl. now intros ->. Qed.

Lemma null_leaf_of_init n nullable :
  is_ok (na_status (SchemaSetType NANOARROW_TYPE_NA)) = true ->
  sch_format (null_leaf na_status n nullable ArrowSchemaInit) = format_type NANOARROW_TYPE_NA
  /\ sch_children (null_leaf na_status n nullable ArrowSchemaInit) = []
  /\ sch_dictionary (null_leaf na_status n nullable ArrowSchemaInit) = None.
Proof.
  intros Hok. unfold null_leaf. rewrite Hok.
  destruct (is_ok (na_status (SchemaSetName (c_str n)))); repeat split.
Qed.

(** C9. A column whose type id is [EMPTY] becomes a null-type leaf: the
    child node that [to_arrow_schema] produces for it, and the field node
    that the struct operator produces for it, has the null type, no children
    and no dictionary, whatever children the column itself and its metadata
    carry.  At the top level the status of setting the type is not looked
    at, so this is stated for a nanoarrow that accepts the null type. *)
Theorem empty_columns_become_null_leaves
    (input : table_view) (metadata : list column_metadata) (a : nat)
    (result : ArrowSchema) (a' : nat)
    (struct_input : column_view) (id : type_id) (struct_metadata : column_metadata)
    (out out' : ArrowSchema) (b b' : nat) (i : nat) (col : column_view) :
  dt_id (cv_type col) = EMPTY ->
  (to_arrow_schema na_status max_precision input metadata a = (Ok result, a') ->
   tv_columns input !! i = Some col ->
   na_status (SchemaSetType NANOARROW_TYPE_NA) = NANOARROW_OK ->
   exists child,
     sch_children result !! i = Some child
     /\ sch_format child = format_type NANOARROW_TYPE_NA
     /\ sch_children child = [] /\ sch_dictionary child = None)
  /\ (dt_id (cv_type struct_input) = STRUCT ->
      dispatch_to_arrow_type na_status max_precision struct_input id struct_metadata out b =
        (Ok (NANOARROW_OK, out'), b') ->
      cv_children struct_input !! i = Some col ->
      exists child,
        sch_children out' !! i = Some child
        /\ sch_format child = format_type NANOARROW_TYPE_NA
        /\ sch_children child = [] /\ sch_dictionary child = None).
Proof.
  intros Hempty. split.
  - intros Hrun Hcol Hna. unfold to_arrow_schema in Hrun.
    apply bind_Ok_inv in Hrun as (u & a1 & Hexp & Hrun).
    apply CUDF_EXPECTS_Ok_inv in Hexp as [_ ->].
    apply bind_Ok_inv in Hrun as ([status root] & a2 & Hroot & Hrun).
    destruct (negb (is_ok status)) eqn:Hstatus; [discriminate Hrun |].
    apply ArrowSchemaSetTypeStruct_Ok_inv in Hroot as Hchildren; [| exact Hstatus].
    apply to_arrow_schema_columns_spec in Hrun as (_ & _ & Hleaf).
    pose proof (lookup_lt_Some _ _ _ Hcol) as Hlt.
    specialize (Hleaf i col Hcol Hempty).
    rewrite Hchildren, length_replicate in Hleaf. simpl in Hleaf.
    specialize (Hleaf Hlt). eexists. split; [exact Hleaf |].
    unfold child_at. rewrite Hchildren, lookup_total_replicate_2 by exact Hlt.
    apply null_leaf_of_init. now apply is_ok_true.
  - intros Hstruct Hrun Hcol. rewrite dispatch_to_arrow_type_struct in Hrun by exact Hstruct.
    apply bind_Ok_inv in Hrun as (u & b1 & Hexp & Hrun).
    apply CUDF_EXPECTS_Ok_inv in Hexp as [_ ->].
    apply bind_Ok_inv in Hrun as ([status root] & b2 & Hroot & Hrun).
    destruct (negb (is_ok status)) eqn:Hstatus;
      [now apply ret_status_Ok_inv in Hrun |].
    apply ArrowSchemaSetTypeStruct_Ok_inv in Hroot as Hchildren; [| exact Hstatus].
    apply struct_children_spec in Hrun as (_ & _ & Hleaf).
    pose proof (lookup_lt_Some _ _ _ Hcol) as Hlt.
    specialize (Hleaf i col Hcol Hempty).
    rewrite Hchildren, length_replicate in Hleaf. simpl in Hleaf.
    destruct (Hleaf Hlt) as [Hna Hchild]. eexists. split; [exact Hchild |].
    unfold child_at. rewrite Hchildren, lookup_total_replicate_2 by exact Hlt.
    now apply null_leaf_of_init.
Qed.

End SchemaBuilderFacts.

Lemma empty_columns_become_null_leaves_witness :
  (exists result a',
     to_arrow_schema na_all_ok sample_max_precision
       (Build_table_view [sample_leaf INT32; sample_empty])
       [Build_column_metadata "i" []; sample_empty_metadata] 0 = (Ok result, a')
     /\ exists child,
          sch_children result !! 1 = Some child
          /\ sch_format child = format_type NANOARROW_TYPE_NA
          /\ sch_children child = [] /\ sch_dictionary child = None)
  /\ (exists out' b',
        dispatch_to_arrow_type na_all_ok sample_max_precision sample_struct_with_empty
          STRUCT sample_struct_metadata ArrowSchemaInit 0 = (Ok (NANOARROW_OK, out'), b')
        /\ exists child,
             sch_children out' !! 1 = Some child
             /\ sch_format child = format_type NANOARROW_TYPE_NA
             /\ sch_children child = [] /\ sch_dictionary child = None).
Proof.
  split.
  - eexists _, _. split; [vm_compute; reflexivity |].
    eapply (proj1 (empty_columns_become_null_leaves na_all_ok sample_max_precision
                     (Build_table_view [sample_leaf INT32; sample_empty])
                     [Build_column_metadata "i" []; sample_empty_metadata] 0 _ _
                     sample_struct_with_empty STRUCT sample_struct_metadata
                     ArrowSchemaInit ArrowSchemaInit 0 0 1 sample_empty eq_refl));
      [vm_compute; reflexivity | reflexivity | reflexivity].
  - eexists _, _. split; [vm_compute; reflexivity |].
    eapply (proj2 (empty_columns_become_null_leaves na_all_ok sample_max_precision
                     (Build_table_view []) [] 0 ArrowSchemaInit 0
                     sample_struct_with_empty STRUCT sample_struct_metadata
                     ArrowSchemaInit _ 0 _ 1 sample_empty eq_refl));
      [reflexivity | vm_compute; reflexivity | reflexivity].
Defined.

(** ** Names in the schema tree *)

(** The naming seen on the sample columns holds for every struct and every
    list column. *)

Section SchemaNames.
Variable na_status : na_call -> Z.
Variable max_precision : DeviceType -> Z.

Lemma ArrowSchemaSetType_name schema t a status schema' a' :
  ArrowSchemaSetType na_status schema t a = (Ok (status, schema'), a') ->
  sch_name schema' = sch_name schema.
Proof.
  unfold ArrowSchemaSetType. intros H. apply on_initialized_Ok_inv in H as [_ H].
  revert H. destruct (is_ok _); [destruct t |];
    cbv [bind allocate_schema_nodes modify ret]; intros H; injection H as <- <- <-;
    reflexivity.
Qed.

(** The loop of the struct operator writes to the children of [out] only. *)
Lemma struct_children_name dispatch metadata cols :
  forall i out a status out' a',
    struct_children na_status dispatch metadata cols i out a = (Ok (status, out'), a') ->
    sch_name out' = sch_name out.
Proof.
  induction cols as [|col cols IH]; intros i out a status out' a' Hrun.
  - simpl in Hrun. injection Hrun as <- <- <-. reflexivity.
  - simpl in Hrun. apply bind_SetName_Ok in Hrun.
    simpl in Hrun.
    destruct (negb (is_ok (na_status (SchemaSetName (c_str (name metadata))))));
      [injection Hrun as <- <- <-; reflexivity |].
    case_bool_decide.
    + apply bind_SetType_NA_Ok in Hrun. simpl in Hrun.
      destruct (negb (is_ok (na_status (SchemaSetType NANOARROW_TYPE_NA))));
        [injection Hrun as <- <- <-; reflexivity |].
      now apply IH in Hrun.
    + apply bind_Ok_inv in Hrun as ([st child] & a1 & _ & Hrun).
      destruct (negb (is_ok st)); [injection Hrun as <- <- <-; reflexivity |].
      now apply IH in Hrun.
Qed.

(** An operator of the schema builder never names the node it is given. *)
Lemma dispatch_to_arrow_type_name input id metadata out a status out' a' :
  dispatch_to_arrow_type na_status max_precision input id metadata out a =
    (Ok (status, out'), a') ->
  sch_name out' = sch_name out.
Proof.
  destruct input as [[tid sc] sz nc nl ch]. simpl.
  destruct tid; intros Hrun; try discriminate Hrun.
  all: try (apply ArrowSchemaSetType_name in Hrun; exact Hrun).
  all: try (progress unfold decimals_to_arrow, ArrowSchemaSetTypeDecimal in Hrun;
            apply on_initialized_Ok_inv in Hrun as [_ Hrun];
            destruct (is_ok _); injection Hrun as <- <- <-; reflexivity).
  all: try (progress unfold dispatch_to_arrow_type_rep_layout_compatible in Hrun;
            destruct id;
            try (unfold ArrowSchemaSetTypeDateTime in Hrun;
                 apply on_initialized_Ok_inv in Hrun as [_ Hrun];
                 destruct (is_ok _); injection Hrun as <- <- <-; reflexivity);
            try (apply bind_Ok_inv in Hrun as (t & a1 & _ & Hrun);
                 apply ArrowSchemaSetType_name in Hrun; exact Hrun)).
  - (* DICTIONARY32 *)
    destruct ch as [|indices [|dict_keys ch]]; simpl in Hrun; try discriminate Hrun.
    apply bind_Ok_inv in Hrun as ([st1 out1] & a1 & Hdict & Hrun).
    assert (Hname1 : sch_name out1 = sch_name out).
    { unfold ArrowSchemaAllocateDictionary in Hdict.
      apply on_initialized_Ok_inv in Hdict as [_ Hdict]. destruct (is_ok _);
        cbv [bind allocate_schema_nodes modify ret] in Hdict;
        injection Hdict as <- <- <-; reflexivity. }
    destruct (negb (is_ok st1)); [injection Hrun as <- <- <-; exact Hname1 |].
    apply bind_Ok_inv in Hrun as (t & a2 & _ & Hrun).
    apply bind_Ok_inv in Hrun as ([st2 out2] & a3 & Htype & Hrun).
    apply ArrowSchemaSetType_name in Htype.
    destruct (negb (is_ok st2)); [injection Hrun as <- <- <-; congruence |].
    apply bind_Ok_inv in Hrun as ([st3 d] & a4 & _ & Hrun).
    injection Hrun as <- <- <-. simpl. congruence.
  - (* LIST *)
    apply bind_Ok_inv in Hrun as ([st1 out1] & a1 & Htype & Hrun).
    apply ArrowSchemaSetType_name in Htype.
    destruct (negb (is_ok st1)); [injection Hrun as <- <- <-; exact Htype |].
    destruct ch as [|child ch]; simpl in Hrun; [discriminate Hrun |].
    case_bool_decide.
    + apply bind_Ok_inv in Hrun as ([st2 c] & a2 & _ & Hrun).
      injection Hrun as <- <- <-. exact Htype.
    + apply bind_Ok_inv in Hrun as ([st2 c] & a2 & _ & Hrun).
      injection Hrun as <- <- <-. exact Htype.
  - (* STRUCT *)
    apply bind_Ok_inv in Hrun as (u & a1 & _ & Hrun).
    apply bind_Ok_inv in Hrun as ([st1 out1] & a2 & Hstruct & Hrun).
    assert (Hname1 : sch_name out1 = sch_name out).
    { unfold ArrowSchemaSetTypeStruct in Hstruct.
      apply on_initialized_Ok_inv in Hstruct as [_ Hstruct]. destruct (is_ok _);
        cbv [bind allocate_schema_nodes modify ret] in Hstruct;
        injection Hstruct as <- <- <-; reflexivity. }
    destruct (negb (is_ok st1)); [injection Hrun as <- <- <-; exact Hname1 |].
    apply struct_children_name in Hrun. congruence.
Qed.

(** The loop of the struct operator, when it reports success, has given
    every field node the name of the struct's own metadata. *)
Lemma struct_children_names metadata cols :
  forall i out a out' a',
    struct_children na_status (dispatch_to_arrow_type na_status max_precision)
      metadata cols i out a = (Ok (NANOARROW_OK, out'), a') ->
    forall j col,
      cols !! j = Some col -> i + j < length (sch_children out) ->
      sch_name <$> sch_children out' !! (i + j) = Some (Some (c_str (name metadata))).
Proof.
  induction cols as [|col cols IH]; intros i out a out' a' Hrun j c Hj Hlt;
    [discriminate Hj |].
  pose proof (struct_children_spec na_status _ _ _ _ _ _ _ _ Hrun) as (_ & Hbefore & _).
  simpl in Hrun. apply bind_SetName_Ok in Hrun.
  simpl in Hrun.
  destruct (negb (is_ok (na_status (SchemaSetName (c_str (name metadata)))))) eqn:Hname;
    [now apply ret_status_Ok_inv in Hrun |].
  apply negb_false_iff in Hname. rewrite Hname in Hrun.
  assert (Hstep : exists child a1,
             sch_name child = Some (c_str (name metadata))
             /\ struct_children na_status (dispatch_to_arrow_type na_status max_precision)
                  metadata cols (S i) (set_child i child out) a1 =
                (Ok (NANOARROW_OK, out'), a')).
  { case_bool_decide.
    - apply bind_SetType_NA_Ok in Hrun.
      simpl in Hrun.
      destruct (negb (is_ok (na_status (SchemaSetType NANOARROW_TYPE_NA)))) eqn:Hna;
        [now apply ret_status_Ok_inv in Hrun |].
      apply negb_false_iff in Hna. rewrite Hna in Hrun.
      eexists _, _. split; [| exact Hrun]. reflexivity.
    - apply bind_Ok_inv in Hrun as ([st child] & a1 & Hdispatch & Hrun).
      destruct (negb (is_ok st)) eqn:Hst; [now apply ret_status_Ok_inv in Hrun |].
      apply dispatch_to_arrow_type_name in Hdispatch.
      eexists _, _. split; [| exact Hrun]. rewrite Hdispatch. reflexivity. }
  destruct Hstep as (child & a1 & Hchild & Hrest).
  destruct j as [|j].
  - rewrite Nat.add_0_r in *.
    pose proof (struct_children_spec na_status _ _ _ _ _ _ _ _ Hrest) as (_ & Hkeep & _).
    rewrite Hkeep by lia. rewrite set_child_children, list_lookup_insert_eq by lia.
    simpl. now rewrite Hchild.
  - simpl in Hj. replace (i + S j) with (S i + j) in * by lia.
    eapply IH; [exact Hrest | exact Hj |].
    rewrite set_child_children, length_insert. exact Hlt.
Qed.

(** Every field node of a struct schema carries the name of the struct's own
    metadata, whatever the names in the child metadata. *)
Lemma struct_field_names input id metadata out a out' a' i col :
  dt_id (cv_type input) = STRUCT ->
  dispatch_to_arrow_type na_status max_precision input id metadata out a =
    (Ok (NANOARROW_OK, out'), a') ->
  cv_children input !! i = Some col ->
  sch_name <$> sch_children out' !! i = Some (Some (c_str (name metadata))).
Proof.
  intros Hstruct Hrun Hcol.
  rewrite dispatch_to_arrow_type_struct in Hrun by exact Hstruct.
  apply bind_Ok_inv in Hrun as (u & b1 & Hexp & Hrun).
  apply CUDF_EXPECTS_Ok_inv in Hexp as [_ ->].
  apply bind_Ok_inv in Hrun as ([status root] & b2 & Hroot & Hrun).
  destruct (negb (is_ok status)) eqn:Hstatus; [now apply ret_status_Ok_inv in Hrun |].
  apply ArrowSchemaSetTypeStruct_Ok_inv in Hroot as Hchildren; [| exact Hstatus].
  apply (struct_children_names _ _ _ _ _ _ _ Hrun i col Hcol).
  rewrite Hchildren, length_replicate. simpl. now apply lookup_lt_Some in Hcol.
Qed.

(** The child node of a list schema keeps the name that the list
    initialisation gave it, whatever the metadata. *)
Lemma list_child_name input id metadata out a out' a' :
  dt_id (cv_type input) = LIST ->
  dispatch_to_arrow_type na_status max_precision input id metadata out a =
    (Ok (NANOARROW_OK, out'), a') ->
  sch_name <$> sch_children out' = [Some "item"].
Proof.
  destruct input as [[tid sc] sz nc nl ch]. simpl. intros -> Hrun.
  apply bind_Ok_inv in Hrun as ([st1 out1] & a1 & Htype & Hrun).
  destruct (negb (is_ok st1)) eqn:Hst1; [now apply ret_status_Ok_inv in Hrun |].
  assert (Hchildren : sch_children out1 = [set_name "item" ArrowSchemaInit]).
  { unfold ArrowSchemaSetType in Htype.
    apply on_initialized_Ok_inv in Htype as [_ Htype].
    destruct (is_ok (na_status (SchemaSetType NANOARROW_TYPE_LIST))) eqn:Hok.
    - cbv [bind allocate_schema_nodes modify ret] in Htype.
      injection Htype as <- <- <-. reflexivity.
    - injection Htype as <- <- <-. now rewrite Hok in Hst1. }
  destruct ch as [|child ch]; simpl in Hrun; [discriminate Hrun |].
  case_bool_decide.
  - apply bind_Ok_inv in Hrun as ([st2 c] & a2 & Hna & Hrun).
    apply ArrowSchemaSetType_name in Hna. injection Hrun as _ <- _.
    rewrite set_child_children, Hchildren. simpl. rewrite Hna.
    unfold child_at. now rewrite Hchildren.
  - apply bind_Ok_inv in Hrun as ([st2 c] & a2 & Hdispatch & Hrun).
    apply dispatch_to_arrow_type_name in Hdispatch. injection Hrun as _ <- _.
    rewrite set_child_children. simpl. rewrite Hchildren. simpl. rewrite Hdispatch.
    unfold child_at. simpl. now rewrite Hchildren.
Qed.

End SchemaNames.

(** ** The widening kernel *)

Local Open Scope Z_scope.

Lemma seqZ_snoc (m : Z) (n : nat) :
  seqZ m (Z.of_nat (S n)) = seqZ m (Z.of_nat n) ++ [m + Z.of_nat n].
Proof.
  replace (Z.of_nat (S n)) with (Z.of_nat n + 1) by lia.
  rewrite seqZ_app by lia. reflexivity.
Qed.

Lemma foldl_insert_length {A B} (f : B -> nat) (g : B -> A) (l : list B) :
  forall out : list A,
    length (foldl (fun out i => <[f i := g i]> out) out l) = length out.
Proof.
  induction l as [|x l IH]; intros out; simpl; [reflexivity |].
  rewrite IH. apply length_insert.
Qed.

Lemma widen_high_words (s : Z) (o : Z) (m : nat) :
  forall (out : list Z) (p : nat),
    0 <= o -> o + Z.of_nat m <= INT32_MAX ->
    (Z.to_nat o + m < length out)%nat ->
    foldl (fun out i => <[Z.to_nat (wrap32 (o + i)) := s]> out) out
          (seqZ 1 (Z.of_nat m)) !! p =
      if bool_decide (Z.to_nat o < p <= Z.to_nat o + m)%nat then Some s else out !! p.
Proof.
  induction m as [|m IH]; intros out p Ho Hmax Hlen.
  - simpl. rewrite bool_decide_eq_false_2 by lia. reflexivity.
  - rewrite seqZ_snoc, foldl_app. simpl.
    rewrite wrap32_small by (unfold INT32_MAX in *; lia).
    replace (Z.to_nat (o + (1 + Z.of_nat m))) with (Z.to_nat o + S m)%nat by lia.
    destruct (decide (p = Z.to_nat o + S m)%nat) as [-> | Hne].
    + rewrite list_lookup_insert_eq.
      * rewrite bool_decide_eq_true_2 by lia. reflexivity.
      * rewrite (foldl_insert_length (fun i => Z.to_nat (wrap32 (o + i))) (fun _ => s)). lia.
    + rewrite list_lookup_insert_ne by lia. rewrite IH by lia.
      repeat case_bool_decide; try lia; reflexivity.
Qed.

Lemma widen_element_length ratio inp out in_idx :
  length (widen_element ratio inp out in_idx) = length out.
Proof.
  unfold widen_element.
  rewrite (foldl_insert_length
             (fun i => Z.to_nat (wrap32 (wrap32 (in_idx * ratio) + i)))
             (fun _ => if inp !!! Z.to_nat in_idx <? 0 then -1 else 0)).
  apply length_insert.
Qed.

(** One step of the kernel: the [ratio] words of slot [in_idx] are written,
    the others are left alone. *)
Lemma widen_element_lookup (ratio : nat) (inp out : list Z) (in_idx : nat) (p : nat) :
  (0 < ratio)%nat ->
  Z.of_nat in_idx * Z.of_nat ratio + Z.of_nat ratio - 1 <= INT32_MAX ->
  (in_idx * ratio + ratio <= length out)%nat ->
  widen_element (Z.of_nat ratio) inp out (Z.of_nat in_idx) !! p =
    if bool_decide (p = in_idx * ratio)%nat then Some (inp !!! in_idx)
    else if bool_decide (in_idx * ratio < p < in_idx * ratio + ratio)%nat
         then Some (if inp !!! in_idx <? 0 then -1 else 0)
         else out !! p.
Proof.
  intros Hratio Hmax Hlen. unfold widen_element.
  rewrite Nat2Z.id.
  rewrite (wrap32_small (Z.of_nat in_idx * Z.of_nat ratio)) by (unfold INT32_MAX in *; lia).
  replace (Z.of_nat ratio - 1) with (Z.of_nat (ratio - 1)) by lia.
  rewrite widen_high_words; [| lia | lia | rewrite length_insert; lia].
  replace (Z.to_nat (Z.of_nat in_idx * Z.of_nat ratio)) with (in_idx * ratio)%nat by lia.
  destruct (decide (p = in_idx * ratio)%nat) as [-> | Hne].
  - rewrite bool_decide_eq_false_2 by lia. rewrite bool_decide_eq_true_2 by lia.
    apply list_lookup_insert_eq. lia.
  - rewrite list_lookup_insert_ne by lia.
    rewrite (bool_decide_eq_false_2 (p = _)) by lia.
    repeat case_bool_decide; try lia; reflexivity.
Qed.

Lemma widen_length ratio size inp out :
  length (widen ratio size inp out) = length out.
Proof.
  unfold widen. generalize (seqZ 0 size). intros l. revert out.
  induction l as [|x l IH]; intros out; simpl; [reflexivity |].
  rewrite IH. apply widen_element_length.
Qed.

Lemma widen_lookup (ratio : nat) (inp : list Z) (size : nat) :
  forall (out : list Z) (p : nat),
    (0 < ratio)%nat ->
    Z.of_nat size * Z.of_nat ratio <= INT32_MAX ->
    (size * ratio <= length out)%nat ->
    widen (Z.of_nat ratio) (Z.of_nat size) inp out !! p =
      if bool_decide (p < size * ratio)%nat then
        if bool_decide (p `mod` ratio = 0)%nat then Some (inp !!! (p `div` ratio)%nat)
        else Some (if inp !!! (p `div` ratio)%nat <? 0 then -1 else 0)
      else out !! p.
Proof.
  unfold widen. induction size as [|size IH]; intros out p Hratio Hmax Hlen.
  - simpl. reflexivity.
  - rewrite seqZ_snoc, foldl_app. simpl. rewrite Z.add_0_l.
    rewrite widen_element_lookup;
      [| exact Hratio | nia | fold (widen (Z.of_nat ratio) (Z.of_nat size) inp out);
                              rewrite widen_length; lia].
    rewrite IH by (try exact Hratio; nia).
    destruct (decide (p < size * ratio)%nat) as [Hlt | Hge].
    + rewrite (bool_decide_eq_false_2 (p = _)) by lia.
      rewrite (bool_decide_eq_false_2 (_ < p < _)%nat) by lia.
      rewrite (bool_decide_eq_true_2 (p < S size * ratio)%nat) by lia.
      rewrite (bool_decide_eq_true_2 (p < size * ratio)%nat) by lia. reflexivity.
    + rewrite (bool_decide_eq_false_2 (p < size * ratio)%nat) by lia.
      destruct (decide (p = size * ratio)%nat) as [-> | Hne].
      * rewrite (bool_decide_eq_true_2 (_ = _)) by lia.
        rewrite (bool_decide_eq_true_2 (_ < S size * ratio)%nat) by lia.
        rewrite Nat.Div0.mod_mul, Nat.div_mul by lia.
        rewrite bool_decide_eq_true_2 by reflexivity. reflexivity.
      * rewrite (bool_decide_eq_false_2 (p = _)) by lia.
        destruct (decide (p < size * ratio + ratio)%nat) as [Hin | Hout].
        -- rewrite (bool_decide_eq_true_2 (_ < p < _)%nat) by lia.
           rewrite (bool_decide_eq_true_2 (p < S size * ratio)%nat) by lia.
           assert (p `div` ratio = size /\ p `mod` ratio <> 0)%nat as [-> Hmod].
           { assert (Hp : p = (ratio * size + (p - size * ratio))%nat) by lia.
             split.
             - symmetry. apply (Nat.div_unique _ _ _ (p - size * ratio)%nat); lia.
             - rewrite <- (Nat.mod_unique p ratio size (p - size * ratio)%nat); lia. }
           rewrite bool_decide_eq_false_2 by exact Hmod. reflexivity.
        -- rewrite (bool_decide_eq_false_2 (_ < p < _)%nat) by lia.
           rewrite (bool_decide_eq_false_2 (p < S size * ratio)%nat) by lia. reflexivity.
Qed.

(** ** The array builder *)

Section ArrayBuilderFacts.
Variable na_status : na_call -> Z.
Variable cuda_status : cuda_call -> Z.
Variable max_precision : DeviceType -> Z.
Variable bools_to_mask_words : list Z -> list Z.
Variable uninitialized : Z -> Z.

Lemma ret_status_inv {A B} (status : Z) (x x' : A) (y y' : B) (d d' : device) :
  negb (is_ok status) = true ->
  ret (status, x, y) d = (Ok (NANOARROW_OK, x', y'), d') -> False.
Proof. intros Hneg Hret. injection Hret as -> _ _ _. discriminate Hneg. Qed.

(** The tail the four operators share, on an array with three fresh
    slots. *)
Lemma operator_tail_Ok (t : ArrowType) (sz nc : Z) (mask : option device_buffer)
    (data : device_buffer) (released : column) (out : ArrowArray) (d : device)
    (col' : column) (out' : ArrowArray) (d' : device) :
  (let* tmp := set_null_mask_buffer mask
                 (set_null_count nc (set_length sz
                    (Build_ArrowArray (Some t) 0 0 (replicate 3 ArrowBufferInit) []))) in
   let* tmp := set_buffer data 1 tmp in
   let '(status, tmp) := ArrowArrayFinishBuilding na_status tmp in
   if negb (is_ok status) then ret (status, released, out) else
   ret (NANOARROW_OK, released, tmp)) d = (Ok (NANOARROW_OK, col', out'), d') ->
  out' = Build_ArrowArray (Some t) sz nc
           [null_mask_slot mask; attached_slot data; ArrowBufferInit] []
  /\ col' = released
  /\ d' = Build_device (d_trace d ++ null_mask_effects mask ++ [buffer_attached 1%nat data])
            (d_next_address d) (d_next_event d) (d_current_device d).
Proof.
  intros Hrun.
  destruct mask as [m|];
    cbv [bind set_null_mask_buffer set_buffer log modify ret ArrowArrayFinishBuilding] in Hrun;
    simpl in Hrun;
    (destruct (is_ok (na_status ArrayFinishBuilding)) eqn:Hfinish; simpl in Hrun;
     [| injection Hrun as Hst _ _ _; rewrite Hst in Hfinish; discriminate Hfinish]);
    injection Hrun as <- <- <-; simpl; rewrite <- ?app_assoc; auto.
Qed.

Ltac init_from_type Hrun :=
  unfold ArrowArrayInitFromType in Hrun; simpl in Hrun;
  match type of Hrun with
  | context [is_ok (na_status (ArrayInitFromType ?t))] =>
      let Hinit := fresh "Hinit" in
      destruct (is_ok (na_status (ArrayInitFromType t))) eqn:Hinit;
      simpl in Hrun; rewrite ?Hinit in Hrun; simpl in Hrun;
      [| exfalso; apply ret_status_inv in Hrun; [exact Hrun | now rewrite Hinit]]
  end.

(** A successful allocation. *)
Lemma allocate_Ok_inv (n : Z) (d : device) (buf : device_buffer) (d1 : device) :
  allocate uninitialized n d = (Ok buf, d1) ->
  (0 <= n)%Z
  /\ buf = allocated uninitialized n d
  /\ d_trace d1 = d_trace d ++ allocation_effects n d
  /\ d_next_event d1 = d_next_event d
  /\ d_current_device d1 = d_current_device d.
Proof.
  unfold allocate, allocated, allocation_effects. case_bool_decide as Hzero.
  - intros H. injection H as <- <-. rewrite app_nil_r. repeat split; lia.
  - case_bool_decide as Hneg; [discriminate |].
    intros H. injection H as <- <-. simpl. repeat split; lia.
Qed.


Lemma allocation_effects_memory (n : Z) (d : device) :
  forallb memory_effect (allocation_effects n d) = true.
Proof. unfold allocation_effects. now case_bool_decide. Qed.

(** The tail of an operator after the allocation of the buffer it
    exports. *)
Lemma allocated_tail_Ok (t : ArrowType) (sz nc n : Z) (mask : option device_buffer)
    (tail : device_buffer -> M device (Z * column * ArrowArray))
    (data : device_buffer -> device_buffer)
    (d : device) (col' : column) (out' : ArrowArray) (d' : device) :
  (forall buf d1 col' out' d',
     tail buf d1 = (Ok (NANOARROW_OK, col', out'), d') ->
     out' = Build_ArrowArray (Some t) sz nc
              [null_mask_slot mask; attached_slot (data buf); ArrowBufferInit] []
     /\ d' = Build_device
               (d_trace d1 ++ null_mask_effects mask ++ [buffer_attached 1%nat (data buf)])
               (d_next_address d1) (d_next_event d1) (d_current_device d1)) ->
  (let* buf := allocate uninitialized n in tail buf) d = (Ok (NANOARROW_OK, col', out'), d') ->
  (0 <= n)%Z
  /\ out' = Build_ArrowArray (Some t) sz nc
              [null_mask_slot mask; attached_slot (data (allocated uninitialized n d));
               ArrowBufferInit] []
  /\ d_trace d' = d_trace d ++ allocation_effects n d ++ null_mask_effects mask
                    ++ [buffer_attached 1%nat (data (allocated uninitialized n d))]
  /\ d_next_event d' = d_next_event d
  /\ d_current_device d' = d_current_device d.
Proof.
  intros Htail Hrun.
  apply bind_Ok_inv in Hrun as (buf & d1 & Hbuf & Hrun).
  apply allocate_Ok_inv in Hbuf as (Hn & -> & Htrace & Hevent & Hdevice).
  apply Htail in Hrun as (-> & ->). simpl.
  rewrite Htrace, <- !app_assoc. auto.
Qed.

Lemma dispatch_to_arrow_device_Ok (col : column) (id : type_id) (stream mr : Z)
    (out : ArrowArray) (d : device) (col' : column) (out' : ArrowArray) (d' : device) :
  dispatch_to_arrow_device na_status max_precision bools_to_mask_words uninitialized
    col id stream mr out d = (Ok (NANOARROW_OK, col', out'), d') ->
  exists t data pre,
    conversion_of bools_to_mask_words uninitialized col id d t data pre
    /\ out' = converted t col data
    /\ d_trace d' = d_trace d ++ pre ++ [buffer_attached 0%nat (released_null_mask col);
                                         buffer_attached 1%nat data]
    /\ d_next_event d' = d_next_event d
    /\ d_current_device d' = d_current_device d.
Proof.
  intros Hrun. unfold dispatch_to_arrow_device, conversion_of in *.
  destruct (dt_id (col_type col)) eqn:Hid; try discriminate Hrun.
  all: try (unfold dispatch_to_arrow_device_rep_layout_compatible in Hrun;
            apply bind_Ok_inv in Hrun as (t & d1 & Ht & Hrun);
            unfold lift_outcome in Ht; injection Ht as Ht <-;
            init_from_type Hrun;
            apply (operator_tail_Ok _ _ _ (Some (released_null_mask col))) in Hrun as (-> & -> & ->);
            exists t, (col_data col), []; simpl; auto).
  - (* BOOL8 *)
    unfold dispatch_to_arrow_device_bool in Hrun. init_from_type Hrun.
    unfold bools_to_mask in Hrun. rewrite bind_assoc in Hrun.
    eapply (allocated_tail_Ok _ _ _ _ (Some (released_null_mask col)) _
              (fun buf => Build_device_buffer (db_data buf)
                            (bools_to_mask_words (db_words (col_data col))))) in Hrun.
    2:{ intros buf d1 c1 o1 d2 Htail. rewrite bind_ret_l in Htail. simpl in Htail.
        apply (operator_tail_Ok _ _ _ (Some (released_null_mask col))) in Htail as (-> & _ & ->). auto. }
    destruct Hrun as (_ & -> & Htrace & Hevent & Hdevice).
    eexists _, _, _. split; [repeat split |]. auto.
  - (* DECIMAL32 *)
    unfold unsupported_decimals_to_arrow in Hrun. init_from_type Hrun.
    destruct (widen_in_bounds _ _ _) eqn:Hbounds.
    2:{ apply bind_Ok_inv in Hrun as (buf & d1 & _ & Hrun). discriminate Hrun. }
    eapply (allocated_tail_Ok _ _ _ _ (Some (released_null_mask col)) _
              (fun buf => Build_device_buffer (db_data buf)
                            (widen (BIT_WIDTH_RATIO int32_t) (col_size col)
                               (db_words (col_data col)) (db_words buf)))) in Hrun.
    2:{ intros buf d1 c1 o1 d2 Htail. rewrite bind_ret_l in Htail. simpl in Htail.
        apply (operator_tail_Ok _ _ _ (Some (released_null_mask col))) in Htail as (-> & _ & ->). auto. }
    destruct Hrun as (Hn & -> & Htrace & Hevent & Hdevice).
    eexists _, _, _. split; [repeat split; exact Hn |]. auto.
  - (* DECIMAL64 *)
    unfold unsupported_decimals_to_arrow in Hrun. init_from_type Hrun.
    destruct (widen_in_bounds _ _ _) eqn:Hbounds.
    2:{ apply bind_Ok_inv in Hrun as (buf & d1 & _ & Hrun). discriminate Hrun. }
    eapply (allocated_tail_Ok _ _ _ _ (Some (released_null_mask col)) _
              (fun buf => Build_device_buffer (db_data buf)
                            (widen (BIT_WIDTH_RATIO int64_t) (col_size col)
                               (db_words (col_data col)) (db_words buf)))) in Hrun.
    2:{ intros buf d1 c1 o1 d2 Htail. rewrite bind_ret_l in Htail. simpl in Htail.
        apply (operator_tail_Ok _ _ _ (Some (released_null_mask col))) in Htail as (-> & _ & ->). auto. }
    destruct Hrun as (Hn & -> & Htrace & Hevent & Hdevice).
    eexists _, _, _. split; [repeat split; exact Hn |]. auto.
  - (* DECIMAL128 *)
    unfold dispatch_to_arrow_device_decimal128 in Hrun. init_from_type Hrun.
    apply (operator_tail_Ok _ _ _ (Some (released_null_mask col))) in Hrun as (-> & -> & ->).
    eexists _, _, _. split; [repeat split |]. simpl. auto.
Qed.


Lemma memory_step_refl d : memory_step d [] d.
Proof. unfold memory_step. rewrite app_nil_r. auto. Qed.

Lemma memory_step_trans d1 effs1 d2 effs2 d3 :
  memory_step d1 effs1 d2 -> memory_step d2 effs2 d3 ->
  memory_step d1 (effs1 ++ effs2) d3.
Proof.
  intros (Ht1 & Hm1 & He1 & Hc1) (Ht2 & Hm2 & He2 & Hc2). unfold memory_step.
  rewrite Ht2, Ht1, app_assoc, forallb_app, Hm1, Hm2. repeat split; congruence.
Qed.

Lemma null_mask_effects_memory m : forallb memory_effect (null_mask_effects m) = true.
Proof. now destruct m. Qed.

Lemma conversion_of_pre_memory col id d t data pre :
  conversion_of bools_to_mask_words uninitialized col id d t data pre ->
  forallb memory_effect pre = true.
Proof.
  unfold conversion_of.
  destruct (dt_id (col_type col)); intros (_ & _ & Hpre); try destruct Hpre as (Hpre & _);
    subst pre; try reflexivity; apply allocation_effects_memory.
Qed.

Lemma set_array_child_children i c a :
  arr_children (set_array_child i c a) = <[i := c]> (arr_children a).
Proof. reflexivity. Qed.

(** The loop of [to_arrow_device]: the top-level node keeps its own fields,
    the children before [i] are left alone, the device only sees memory
    effects, and the column at offset [j] leaves its node at child
    [i + j]. *)
Lemma to_arrow_device_columns_spec (cols : list column) (stream mr : Z) :
  forall (i : nat) (tmp : ArrowArray) (d : device) (tmp' : ArrowArray) (d' : device),
    to_arrow_device_columns na_status max_precision bools_to_mask_words uninitialized
      cols stream mr i tmp d = (Ok tmp', d') ->
    (arr_storage_type tmp' = arr_storage_type tmp
     /\ arr_length tmp' = arr_length tmp
     /\ arr_null_count tmp' = arr_null_count tmp
     /\ arr_buffers tmp' = arr_buffers tmp)
    /\ (forall j, (j < i)%nat -> arr_children tmp' !! j = arr_children tmp !! j)
    /\ (exists effs, memory_step d effs d')
    /\ (forall j col,
          cols !! j = Some col ->
          exists c0 child,
            arr_children tmp !! (i + j)%nat = Some c0
            /\ arr_children tmp' !! (i + j)%nat = Some child
            /\ column_node na_status bools_to_mask_words uninitialized
                 col c0 child (d_trace d')).
Proof.
  induction cols as [|col cols IH]; intros i tmp d tmp' d' Hrun.
  - simpl in Hrun. injection Hrun as <- <-.
    repeat split; auto; [exists []; apply memory_step_refl | intros j c Hj; discriminate].
  - simpl in Hrun. destruct (arr_children tmp !! i) as [c0|] eqn:Hc0; [| discriminate Hrun].
    pose proof (lookup_lt_Some _ _ _ Hc0) as Hlt.
    case_bool_decide as Hid.
    + apply IH in Hrun as (Hroot & Hbefore & (effs & Hstep) & Hcols).
      split; [exact Hroot | split; [| split; [eauto |]]].
      * intros j Hj. rewrite Hbefore by lia. rewrite set_array_child_children.
        apply list_lookup_insert_ne. lia.
      * intros [|j] c Hj.
        -- injection Hj as ->. rewrite Nat.add_0_r. eexists _, _.
           split; [exact Hc0 | split].
           ++ rewrite Hbefore by lia. rewrite set_array_child_children.
              apply list_lookup_insert_eq. lia.
           ++ unfold column_node. rewrite bool_decide_eq_true_2 by exact Hid. reflexivity.
        -- simpl in Hj. replace (i + S j)%nat with (S i + j)%nat by lia.
           destruct (Hcols j c Hj) as (c1 & child & Hc1 & Hchild & Hnode).
           rewrite set_array_child_children, list_lookup_insert_ne in Hc1 by lia. eauto.
    + apply bind_Ok_inv in Hrun as ([[status col'] child] & d1 & Hdispatch & Hrun).
      apply bind_Ok_inv in Hrun as (u & d2 & Hexp & Hrun).
      apply CUDF_EXPECTS_Ok_inv in Hexp as [Hstatus ->].
      apply is_ok_true in Hstatus as ->.
      apply dispatch_to_arrow_device_Ok in Hdispatch
        as (t & data & pre & Hconv & -> & Htrace & Hevent & Hdevice).
      apply IH in Hrun as (Hroot & Hbefore & (effs & Hstep) & Hcols).
      assert (Hstep1 : memory_step d
                (pre ++ [buffer_attached 0%nat (released_null_mask col);
                         buffer_attached 1%nat data])
                d1).
      { unfold memory_step. rewrite !forallb_app.
        rewrite (conversion_of_pre_memory _ _ _ _ _ _ Hconv). auto. }
      split; [exact Hroot | split; [| split]].
      * intros j Hj. rewrite Hbefore by lia. rewrite set_array_child_children.
        apply list_lookup_insert_ne. lia.
      * eexists. eapply memory_step_trans; eassumption.
      * intros [|j] c Hj.
        -- injection Hj as ->. rewrite Nat.add_0_r. eexists _, _.
           split; [exact Hc0 | split].
           ++ rewrite Hbefore by lia. rewrite set_array_child_children.
              apply list_lookup_insert_eq. lia.
           ++ unfold column_node. rewrite bool_decide_eq_false_2 by exact Hid.
              exists d, t, data, pre. split; [exact Hconv | split; [reflexivity |]].
              destruct Hstep as (-> & _). rewrite Htrace.
              rewrite !elem_of_app. left. right. right.
              apply list_elem_of_further, list_elem_of_here.
        -- simpl in Hj. replace (i + S j)%nat with (S i + j)%nat by lia.
           destruct (Hcols j c Hj) as (c1 & child & Hc1 & Hchild & Hnode).
           rewrite set_array_child_children, list_lookup_insert_ne in Hc1 by lia. eauto.
Qed.


Lemma to_arrow_device_Ok (tbl : table) (stream mr : Z) (d : device)
    (result : ArrowDeviceArray) (tbl' : table) (d' : device) :
  to_arrow_device na_status cuda_status max_precision bools_to_mask_words uninitialized
    tbl stream mr d = (Ok result, tbl', d') ->
  exists tmp' d1 slot0,
    to_arrow_device_columns na_status max_precision bools_to_mask_words uninitialized
      (tbl_columns tbl) stream mr 0 (root_node na_status tbl) d = (Ok tmp', d1)
    /\ tbl' = Build_table 0 []
    /\ arr_buffers tmp' !! 0%nat = Some slot0
    /\ result = Build_ArrowDeviceArray
                  (set_buffers (<[0%nat := sync_slot slot0 (d_next_event d1)]> (arr_buffers tmp'))
                     tmp')
                  (d_current_device d1) ARROW_DEVICE_CUDA (d_next_event d1)
    /\ d_trace d' = d_trace d1
                      ++ (if bool_decide (cuda_status EventCreate = cudaSuccess)
                          then [event_create (d_next_event d1)] else [])
                      ++ [event_record (d_next_event d1) stream].
Proof.
  unfold to_arrow_device. fold (root_node na_status tbl). simpl.
  destruct (bind _ _ d) as [o d2] eqn:Hbody. intros Hrun. injection Hrun as -> <- <-.
  apply bind_Ok_inv in Hbody as (tmp' & d1 & Hloop & Hbody).
  exists tmp', d1.
  apply bind_Ok_inv in Hbody as (e & d3 & Hcreate & Hbody).
  unfold cudaEventCreate in Hcreate. injection Hcreate as <- <-.
  apply bind_Ok_inv in Hbody as (status & d4 & Hrecord & Hbody).
  apply bind_Ok_inv in Hbody as (u & d5 & Hexp & Hbody).
  apply CUDF_EXPECTS_Ok_inv in Hexp as [Hstatus ->].
  apply bool_decide_eq_true in Hstatus as ->.
  unfold cudaEventRecord in Hrecord.
  destruct (bool_decide (cuda_status (EventRecord stream) = cudaSuccess)) eqn:Hrec.
  2:{ injection Hrecord as Hst _. rewrite Hst in Hrec. discriminate Hrec. }
  cbv [bind log modify ret] in Hrecord. injection Hrecord as _ <-.
  apply bind_Ok_inv in Hbody as (tmp2 & d6 & Hattach & Hbody).
  unfold attach_sync_event in Hattach.
  destruct (arr_buffers tmp' !! 0%nat) as [slot0|] eqn:Hslot0; [| discriminate Hattach].
  injection Hattach as <- <-. exists slot0.
  cbv [bind get_current_cuda_device ret] in Hbody. injection Hbody as <- <-.
  simpl. repeat split; try assumption; try reflexivity.
  destruct (bool_decide (cuda_status EventCreate = cudaSuccess)); simpl;
    rewrite <- ?app_assoc; reflexivity.
Qed.




(** The deallocator that owns the buffer is installed in the slot of a
    buffer without address, and only there. *)
Lemma attached_slot_null (b : device_buffer) :
  db_data b = 0%Z ->
  attached_slot b =
    Build_ArrowBuffer 0 (ArrowBufferDeallocator device_buffer_finalize (owned_buffer b)).
Proof.
  intros Hnull. unfold attached_slot, ArrowBufferSetAllocator. simpl.
  rewrite bool_decide_eq_true_2 by exact Hnull. simpl. now rewrite Hnull.
Qed.

Lemma attached_slot_not_null (b : device_buffer) :
  db_data b <> 0%Z ->
  attached_slot b = Build_ArrowBuffer (db_data b) ArrowBufferAllocatorDefault.
Proof.
  intros Hnull. unfold attached_slot, ArrowBufferSetAllocator. simpl.
  now rewrite bool_decide_eq_false_2 by exact Hnull.
Qed.

Lemma memory_effects_record_nothing (effs : list effect) (e stream : Z) :
  forallb memory_effect effs = true -> event_record e stream ∉ effs.
Proof.
  intros Hall Hin. apply list_elem_of_In in Hin.
  now apply (proj1 (forallb_forall _ _) Hall) in Hin.
Qed.

(** C10. In the device array that [to_arrow_device] returns, the top-level
    node has the row count of the table as its length and a null count of
    0, and the child of every column has the size of the column as its
    length.  The child of a column converted by an operator (layout
    compatible, decimal, boolean) has the null count of the column; the
    child of an [EMPTY] column has a null count equal to its length, and the
    null type when nanoarrow accepts it. *)
Theorem array_nodes_carry_lengths_and_null_counts (tbl : table) (stream mr : Z)
    (d : device) (result : ArrowDeviceArray) (tbl' : table) (d' : device) :
  to_arrow_device na_status cuda_status max_precision bools_to_mask_words uninitialized
    tbl stream mr d = (Ok result, tbl', d') ->
  arr_length (array result) = tbl_num_rows tbl
  /\ arr_null_count (array result) = 0
  /\ forall (i : nat) (col : column),
       tbl_columns tbl !! i = Some col ->
       exists child,
         arr_children (array result) !! i = Some child
         /\ arr_length child = col_size col
         /\ if bool_decide (dt_id (col_type col) = EMPTY)
            then arr_null_count child = arr_length child
                 /\ (na_status (ArrayInitFromType NANOARROW_TYPE_NA) = NANOARROW_OK ->
                     arr_storage_type child = Some NANOARROW_TYPE_NA)
            else arr_null_count child = col_null_count col.
Proof.
  intros Hrun.
  apply to_arrow_device_Ok in Hrun as (tmp' & d1 & slot0 & Hloop & _ & _ & -> & _).
  apply to_arrow_device_columns_spec in Hloop
    as ((_ & Hlength & Hnulls & _) & _ & _ & Hcols).
  simpl. split; [exact Hlength | split; [exact Hnulls |]].
  intros i col Hcol. destruct (Hcols i col Hcol) as (c0 & child & _ & Hchild & Hnode).
  exists child. split; [exact Hchild |].
  unfold column_node in Hnode. case_bool_decide as Hid.
  - subst child. simpl. repeat split.
    intros Hna. unfold ArrowArrayInitFromType. now rewrite Hna.
  - destruct Hnode as (dj & t & data & pre & _ & -> & _). split; reflexivity.
Qed.

(** C6. A successful [to_arrow_device] records one event, on the stream it
    was given, and that record is the last thing it does to the device:
    everything else it did, the attachment of the column buffers included,
    precedes it and records nothing.  The returned wrapper carries the event
    as its sync handle, the current device id and the CUDA device type; slot
    0 of the top-level node, whose data pointer is reset before the
    deallocator is installed, owns the event through that deallocator, and
    releasing the slot destroys the event. *)
Theorem sync_event_recorded_once_after_buffers (tbl : table) (stream mr : Z)
    (d : device) (result : ArrowDeviceArray) (tbl' : table) (d' : device) :
  to_arrow_device na_status cuda_status max_precision bools_to_mask_words uninitialized
    tbl stream mr d = (Ok result, tbl', d') ->
  let event_slot := Build_ArrowBuffer 0
                     (ArrowBufferDeallocator event_finalize
                        (owned_event (sync_event result))) in
  (exists effs,
     d_trace d' = d_trace d ++ effs ++ [event_record (sync_event result) stream]
     /\ forall e s, event_record e s ∉ effs)
  /\ device_id result = d_current_device d
  /\ device_type result = ARROW_DEVICE_CUDA
  /\ arr_buffers (array result) !! 0%nat = Some event_slot
  /\ forall d0 : device,
       ArrowBufferReset event_slot d0 =
         (Ok ArrowBufferInit,
          Build_device (d_trace d0 ++ [event_destroy (sync_event result)])
            (d_next_address d0) (d_next_event d0) (d_current_device d0)).
Proof.
  intros Hrun.
  apply to_arrow_device_Ok in Hrun
    as (tmp' & d1 & slot0 & Hloop & _ & Hslot0 & -> & Htrace).
  apply to_arrow_device_columns_spec in Hloop
    as (_ & _ & (effs & Hd1 & Hmemory & Hevent & Hdevice) & _).
  simpl. split; [| split; [exact Hdevice | split; [reflexivity | split]]].
  - exists (effs ++ if bool_decide (cuda_status EventCreate = cudaSuccess)
                    then [event_create (d_next_event d1)] else []).
    split.
    + rewrite Htrace, Hd1, <- !app_assoc. reflexivity.
    + intros e s Hin. apply elem_of_app in Hin as [Hin | Hin].
      * now apply memory_effects_record_nothing in Hin.
      * destruct (bool_decide _); [| inversion Hin].
        apply list_elem_of_singleton in Hin. discriminate Hin.
  - rewrite list_lookup_insert_eq by (apply lookup_lt_Some in Hslot0; exact Hslot0).
    reflexivity.
  - intros d0. reflexivity.
Qed.

(** The slots of a converted column of a representation-layout compatible
    primitive type: slot 1 holds the address of the data buffer of the
    column and slot 0 that of its null mask, and the table is left without
    columns.  The deallocator that owns a buffer is only in the slot when
    the buffer has no address ([attached_slot_null],
    [attached_slot_not_null]). *)
Lemma primitive_buffer_slots (tbl : table) (stream mr : Z)
    (d : device) (result : ArrowDeviceArray) (tbl' : table) (d' : device)
    (i : nat) (col : column) :
  to_arrow_device na_status cuda_status max_precision bools_to_mask_words uninitialized
    tbl stream mr d = (Ok result, tbl', d') ->
  tbl_columns tbl !! i = Some col ->
  is_rep_layout_compatible_primitive (dt_id (col_type col)) = true ->
  exists child,
    arr_children (array result) !! i = Some child
    /\ arr_buffers child !! 1%nat = Some (attached_slot (col_data col))
    /\ arr_buffers child !! 0%nat = Some (attached_slot (released_null_mask col))
    /\ tbl_columns tbl' = [].
Proof.
  intros Hrun Hcol Hprim.
  apply to_arrow_device_Ok in Hrun as (tmp' & d1 & slot0 & Hloop & -> & _ & -> & _).
  apply to_arrow_device_columns_spec in Hloop as (_ & _ & _ & Hcols).
  destruct (Hcols i col Hcol) as (c0 & child & _ & Hchild & Hnode).
  exists child. simpl. split; [exact Hchild |].
  unfold column_node in Hnode.
  rewrite bool_decide_eq_false_2 in Hnode
    by (intros Hid; rewrite Hid in Hprim; discriminate Hprim).
  destruct Hnode as (dj & t & data & pre & Hconv & -> & _).
  assert (Hsame : data = col_data col).
  { unfold conversion_of in Hconv.
    destruct (dt_id (col_type col)); try discriminate Hprim; apply Hconv. }
  subst data. simpl. repeat split.
Qed.

(** A kernel that stays within a buffer of a size that is not negative has
    not wrapped around: the size of the column times the width ratio fits
    in 32 bits. *)
Lemma widen_in_bounds_fits (T : DeviceType) (size : Z) :
  T = int32_t \/ T = int64_t ->
  0 <= size ->
  0 <= wrap32 (size * BIT_WIDTH_RATIO T) ->
  widen_in_bounds (BIT_WIDTH_RATIO T) size (wrap32 (size * BIT_WIDTH_RATIO T)) = true ->
  size * BIT_WIDTH_RATIO T <= INT32_MAX.
Proof.
  intros HT Hsize Hn Hbounds.
  destruct (Z_le_gt_dec (size * BIT_WIDTH_RATIO T) INT32_MAX) as [Hle | Hgt]; [exact Hle |].
  exfalso. set (k := 2 ^ 31 / BIT_WIDTH_RATIO T).
  assert (Hk : k * BIT_WIDTH_RATIO T = 2 ^ 31 /\ 0 <= k).
  { unfold k. destruct HT as [-> | ->]; simpl; split; reflexivity || discriminate. }
  destruct Hk as [Hk Hk0].
  assert (Hwrap : wrap32 (2 ^ 31) = - 2 ^ 31) by reflexivity.
  assert (Hratio : 0 < BIT_WIDTH_RATIO T) by (destruct HT as [-> | ->]; reflexivity).
  unfold INT32_MAX in Hgt.
  destruct (Z_lt_le_dec k size) as [Hlt | Hge].
  - unfold widen_in_bounds in Hbounds.
    rewrite forallb_forall in Hbounds. specialize (Hbounds k).
    rewrite Hk, Hwrap in Hbounds.
    assert (Hin : In k (seqZ 0 size)).
    { apply list_elem_of_In, elem_of_seqZ. lia. }
    apply Hbounds in Hin. apply andb_true_iff in Hin as [Hin _].
    apply bool_decide_eq_true in Hin. lia.
  - assert (Heq : size * BIT_WIDTH_RATIO T = 2 ^ 31) by nia.
    rewrite Heq, Hwrap in Hn. lia.
Qed.









End ArrayBuilderFacts.

(** ** The array builder on the sample tables *)



Lemma array_nodes_carry_lengths_and_null_counts_witness :
  exists result tbl' d',
    sample_to_arrow_device sample_table = (Ok result, tbl', d')
    /\ arr_length (array result) = tbl_num_rows sample_table
    /\ arr_null_count (array result) = 0
    /\ forall (i : nat) (col : column),
         tbl_columns sample_table !! i = Some col ->
         exists child,
           arr_children (array result) !! i = Some child
           /\ arr_length child = col_size col
           /\ if bool_decide (dt_id (col_type col) = EMPTY)
              then arr_null_count child = arr_length child
                   /\ (na_all_ok (ArrayInitFromType NANOARROW_TYPE_NA) = NANOARROW_OK ->
                       arr_storage_type child = Some NANOARROW_TYPE_NA)
              else arr_null_count child = col_null_count col.
Proof.
  eexists _, _, _. split; [vm_compute; reflexivity |].
  eapply (array_nodes_carry_lengths_and_null_counts na_all_ok cuda_all_ok
            sample_max_precision (fun _ => []) (fun _ => 77) sample_table 5 6
            sample_device).
  vm_compute. reflexivity.
Defined.

Lemma sync_event_recorded_once_after_buffers_witness :
  exists result tbl' d',
    sample_to_arrow_device sample_table = (Ok result, tbl', d')
    /\ (exists effs,
          d_trace d' = d_trace sample_device ++ effs ++ [event_record (sync_event result) 5]
          /\ forall e s, event_record e s ∉ effs)
    /\ device_id result = 7
    /\ device_type result = ARROW_DEVICE_CUDA
    /\ arr_buffers (array result) !! 0%nat =
         Some (Build_ArrowBuffer 0
                 (ArrowBufferDeallocator event_finalize (owned_event (sync_event result)))).
Proof.
  eexists _, _, _. split; [vm_compute; reflexivity |].
  destruct (sync_event_recorded_once_after_buffers na_all_ok cuda_all_ok
              sample_max_precision (fun _ => []) (fun _ => 77) sample_table 5 6
              sample_device _ _ _ ltac:(vm_compute; reflexivity))
    as (Htrace & Hid & Htype & Hslot & _).
  split; [exact Htrace | split; [exact Hid | split; [exact Htype | exact Hslot]]].
Defined.

(** C5. On a table whose first column is an [INT32] column with a data
    buffer at address 100 and a null mask at address 200, slot 1 and slot 0
    of the node of the column hold these addresses, without copy, but not
    the deallocator that owns the buffer: [set_buffer] stores the address
    in the slot before it calls [ArrowBufferSetAllocator], which refuses a
    slot that holds data, and does not look at the status.  Releasing such a
    slot does not free the buffer: the address goes to the default
    allocator. *)
Theorem primitive_buffers_lose_their_deallocator :
  exists result tbl' d' child,
    sample_to_arrow_device sample_table = (Ok result, tbl', d')
    /\ tbl_columns sample_table !! 0%nat = Some sample_int32_column
    /\ arr_children (array result) !! 0%nat = Some child
    /\ arr_buffers child !! 1%nat =
         Some (Build_ArrowBuffer 100 ArrowBufferAllocatorDefault)
    /\ arr_buffers child !! 0%nat =
         Some (Build_ArrowBuffer 200 ArrowBufferAllocatorDefault)
    /\ ArrowBufferReset (Build_ArrowBuffer 100 ArrowBufferAllocatorDefault) d' =
         (Throw (undefined_behaviour "free of a device address"), d').
Proof.
  eexists _, _, _, _. split; [vm_compute; reflexivity |].
  repeat split.
Qed.



(** ** More on the type mapper and the schema builder *)

Local Close Scope Z_scope.

(** X1. [id_to_arrow_type] never maps two type ids to the same Arrow type. *)
Theorem id_to_arrow_type_injective (id1 id2 : type_id) (t : ArrowType) :
  id_to_arrow_type id1 = Ok t -> id_to_arrow_type id2 = Ok t -> id1 = id2.
Proof.
  destruct id1; simpl; intros H1; try discriminate H1;
    injection H1 as <-; destruct id2; simpl; intros H2;
    try discriminate H2; reflexivity.
Qed.

Section SchemaFormats.
Variable na_status : na_call -> Z.
Variable max_precision : DeviceType -> Z.

Lemma leaf_format (input : column_view) (metadata : column_metadata)
    (out : ArrowSchema) (a : nat) (out' : ArrowSchema) (a' : nat) :
  is_nested_kind (dt_id (cv_type input)) = false ->
  is_fixed_point (dt_id (cv_type input)) = false ->
  dispatch_to_arrow_type na_status max_precision input (dt_id (cv_type input))
    metadata out a = (Ok (NANOARROW_OK, out'), a') ->
  schema_format_of (dt_id (cv_type input)) = Some (sch_format out').
Proof.
  destruct input as [[tid sc] sz nc nl ch]. simpl.
  destruct tid; intros Hn Hf Hrun; try discriminate Hn; try discriminate Hf;
    try discriminate Hrun;
    cbv [dispatch_to_arrow_type_rep_layout_compatible ArrowSchemaSetTypeDateTime
         ArrowSchemaSetType id_to_arrow_type lift_outcome bind ret
         on_initialized throw] in Hrun;
    (destruct (sch_initialized _); [| discriminate Hrun]);
    match type of Hrun with
    | context [is_ok ?s] => destruct (is_ok s) eqn:Hok
    end;
    injection Hrun as Hst <- <-;
    try reflexivity; rewrite Hst in Hok; discriminate Hok.
Qed.

(** X2. Two columns that are neither nested nor fixed-point and whose
    operators succeed get the same format only when they have the same type
    id: the time unit of a timestamp or duration and the width and sign of
    an integer are never lost. *)
Theorem leaf_formats_distinguish_type_ids (input1 input2 : column_view)
    (metadata1 metadata2 : column_metadata) (out1 out2 : ArrowSchema) (a1 a2 : nat)
    (out1' out2' : ArrowSchema) (a1' a2' : nat) :
  is_nested_kind (dt_id (cv_type input1)) = false ->
  is_fixed_point (dt_id (cv_type input1)) = false ->
  is_nested_kind (dt_id (cv_type input2)) = false ->
  is_fixed_point (dt_id (cv_type input2)) = false ->
  dispatch_to_arrow_type na_status max_precision input1 (dt_id (cv_type input1))
    metadata1 out1 a1 = (Ok (NANOARROW_OK, out1'), a1') ->
  dispatch_to_arrow_type na_status max_precision input2 (dt_id (cv_type input2))
    metadata2 out2 a2 = (Ok (NANOARROW_OK, out2'), a2') ->
  sch_format out1' = sch_format out2' ->
  dt_id (cv_type input1) = dt_id (cv_type input2).
Proof.
  intros Hn1 Hf1 Hn2 Hf2 Hrun1 Hrun2 Hsame.
  pose proof (leaf_format _ _ _ _ _ _ Hn1 Hf1 Hrun1) as F1.
  pose proof (leaf_format _ _ _ _ _ _ Hn2 Hf2 Hrun2) as F2.
  assert (Hfmt : schema_format_of (dt_id (cv_type input1)) =
                 schema_format_of (dt_id (cv_type input2))) by congruence.
  clear Hrun1 Hrun2 Hsame F2.
  destruct (dt_id (cv_type input1)); try discriminate Hn1; try discriminate Hf1;
    try discriminate F1;
    destruct (dt_id (cv_type input2)); try discriminate Hn2; try discriminate Hf2;
    try discriminate Hfmt; reflexivity.
Qed.
End SchemaFormats.

Section SchemaFrames.
Variable na_status : na_call -> Z.
Variable max_precision : DeviceType -> Z.


Lemma set_children_idem cs cs' s : set_children cs (set_children cs' s) = set_children cs s.
Proof. reflexivity. Qed.

Lemma set_child_as_children i c s : set_child i c s = set_children (<[i := c]> (sch_children s)) s.
Proof. reflexivity. Qed.

(** The loop of the struct operator changes the children of [out] and
    nothing else. *)
Lemma struct_children_frame d metadata cols :
  forall i out a status out' a',
    struct_children na_status d metadata cols i out a = (Ok (status, out'), a') ->
    out' = set_children (sch_children out') out.
Proof.
  induction cols as [|col cols IH]; intros i out a status out' a' Hrun.
  - simpl in Hrun. injection Hrun as <- <- <-. now destruct out.
  - simpl in Hrun. apply bind_SetName_Ok in Hrun.
    simpl in Hrun.
    destruct (negb (is_ok (na_status (SchemaSetName (c_str (name metadata))))));
      [injection Hrun as <- <- <-; reflexivity |].
    case_bool_decide.
    + apply bind_SetType_NA_Ok in Hrun. simpl in Hrun.
      destruct (negb (is_ok (na_status (SchemaSetType NANOARROW_TYPE_NA))));
        [injection Hrun as <- <- <-; reflexivity |].
      apply IH in Hrun. rewrite Hrun. reflexivity.
    + apply bind_Ok_inv in Hrun as ([st child] & a1 & _ & Hrun).
      destruct (negb (is_ok st)); [injection Hrun as <- <- <-; reflexivity |].
      apply IH in Hrun. rewrite Hrun. reflexivity.
Qed.

Lemma to_arrow_schema_columns_frame cols metadata :
  forall i result a result' a',
    to_arrow_schema_columns na_status max_precision cols metadata i result a =
      (Ok result', a') ->
    result' = set_children (sch_children result') result.
Proof.
  induction cols as [|col cols IH]; intros i result a result' a' Hrun.
  - simpl in Hrun. injection Hrun as <- <-. now destruct result.
  - simpl in Hrun. apply bind_SetName_Ok in Hrun.
    simpl in Hrun. case_bool_decide.
    + apply bind_SetType_NA_Ok in Hrun.
      apply IH in Hrun. rewrite Hrun. reflexivity.
    + apply bind_Ok_inv in Hrun as ([st child] & a1 & _ & Hrun).
      apply bind_Ok_inv in Hrun as (u & a2 & _ & Hrun).
      apply IH in Hrun. rewrite Hrun. reflexivity.
Qed.

(** X4. A schema that [to_arrow_schema] returns is an unnamed struct node
    without a dictionary and with one child per column; it is only returned
    when there is one metadata entry per column. *)
Theorem to_arrow_schema_root (input : table_view) (metadata : list column_metadata)
    (a : nat) (result : ArrowSchema) (a' : nat) :
  to_arrow_schema na_status max_precision input metadata a = (Ok result, a') ->
  length metadata = num_columns input
  /\ sch_format result = format_type NANOARROW_TYPE_STRUCT
  /\ sch_name result = None
  /\ sch_dictionary result = None
  /\ length (sch_children result) = num_columns input.
Proof.
  intros Hrun. unfold to_arrow_schema in Hrun.
  apply bind_Ok_inv in Hrun as (u & a1 & Hexp & Hrun).
  apply CUDF_EXPECTS_Ok_inv in Hexp as [Hlen ->].
  apply bool_decide_eq_true in Hlen.
  apply bind_Ok_inv in Hrun as ([status root] & a2 & Hroot & Hrun).
  destruct (negb (is_ok status)) eqn:Hstatus; [discriminate Hrun |].
  pose proof (ArrowSchemaSetTypeStruct_Ok_inv _ _ _ _ _ _ _ Hroot Hstatus) as Hchildren.
  unfold ArrowSchemaSetTypeStruct in Hroot.
  destruct (is_ok (na_status (SchemaSetTypeStruct (num_columns input)))) eqn:Hok.
  2:{ injection Hroot as <- _ _. now rewrite Hok in Hstatus. }
  cbv [bind allocate_schema_nodes modify ret] in Hroot. injection Hroot as _ <- _.
  pose proof (to_arrow_schema_columns_frame _ _ _ _ _ _ _ Hrun) as Hframe.
  apply to_arrow_schema_columns_spec in Hrun as (Hlength & _).
  rewrite Hframe. simpl. rewrite Hlength. simpl. rewrite length_replicate. auto.
Qed.

Lemma leaf_dispatch_frame (input : column_view) (id : type_id)
    (metadata : column_metadata) (out : ArrowSchema) (a : nat) (status : Z)
    (out' : ArrowSchema) (a' : nat) :
  is_nested_kind (dt_id (cv_type input)) = false ->
  dispatch_to_arrow_type na_status max_precision input id metadata out a = (Ok (status, out'), a') ->
  out' = set_format (sch_format out') out /\ a' = a.
Proof.
  destruct input as [[tid sc] sz nc nl ch]. simpl.
  destruct tid; intros Hn Hrun; try discriminate Hn; try discriminate Hrun.
  all: try (progress unfold decimals_to_arrow, ArrowSchemaSetTypeDecimal in Hrun;
            apply on_initialized_Ok_inv in Hrun as [_ Hrun];
            destruct (is_ok _); injection Hrun as <- <- <-; now destruct out).
  all: try (progress unfold dispatch_to_arrow_type_rep_layout_compatible in Hrun;
            destruct id).
  all: cbv [ArrowSchemaSetTypeDateTime ArrowSchemaSetType id_to_arrow_type
            lift_outcome bind ret on_initialized throw] in Hrun; try discriminate Hrun;
    (destruct (sch_initialized _); [| discriminate Hrun]);
    match type of Hrun with
    | context [is_ok ?s] => destruct (is_ok s)
    end; injection Hrun as <- <- <-; now destruct out.
Qed.

(** X3. The operator of a column that is not nested allocates no schema
    node and changes nothing of its node but the format, whatever status it
    returns. *)
Theorem leaf_columns_only_set_the_format (input : column_view) (id : type_id)
    (metadata : column_metadata) (out : ArrowSchema) (a : nat) (status : Z)
    (out' : ArrowSchema) (a' : nat) :
  is_nested_kind (dt_id (cv_type input)) = false ->
  dispatch_to_arrow_type na_status max_precision input id metadata out a = (Ok (status, out'), a') ->
  out' = set_format (sch_format out') out /\ a' = a.
Proof. apply leaf_dispatch_frame. Qed.

(** An operator sets the flags of its node only in the list operator. *)
Lemma dispatch_to_arrow_type_flags (input : column_view) (id : type_id)
    (metadata : column_metadata) (out : ArrowSchema) (a : nat)
    (out' : ArrowSchema) (a' : nat) :
  dispatch_to_arrow_type na_status max_precision input id metadata out a = (Ok (NANOARROW_OK, out'), a') ->
  sch_flags out' =
    match dt_id (cv_type input), cv_children input with
    | LIST, child :: _ =>
        if bool_decide (dt_id (cv_type child) = EMPTY) then sch_flags out
        else if cv_nullable child then ARROW_FLAG_NULLABLE else 0%Z
    | _, _ => sch_flags out
    end.
Proof.
  intros Hrun.
  destruct (is_nested_kind (dt_id (cv_type input))) eqn:Hn.
  2:{ apply leaf_dispatch_frame in Hrun as [-> _]; [| exact Hn].
      destruct (dt_id (cv_type input)); try discriminate Hn; reflexivity. }
  destruct input as [[tid sc] sz nc nl ch]. simpl in *.
  destruct tid; try discriminate Hn.
  - (* DICTIONARY32 *)
    destruct ch as [|indices [|dict_keys ch]]; simpl in Hrun; try discriminate Hrun.
    apply bind_Ok_inv in Hrun as ([st1 out1] & a1 & Hdict & Hrun).
    assert (H1 : sch_flags out1 = sch_flags out).
    { unfold ArrowSchemaAllocateDictionary in Hdict.
      apply on_initialized_Ok_inv in Hdict as [_ Hdict]. destruct (is_ok _);
        cbv [bind allocate_schema_nodes modify ret] in Hdict;
        injection Hdict as <- <- <-; reflexivity. }
    destruct (negb (is_ok st1)); [injection Hrun as _ <- _; exact H1 |].
    apply bind_Ok_inv in Hrun as (t & a2 & _ & Hrun).
    apply bind_Ok_inv in Hrun as ([st2 out2] & a3 & Htype & Hrun).
    assert (H2 : sch_flags out2 = sch_flags out1).
    { unfold ArrowSchemaSetType in Htype.
      apply on_initialized_Ok_inv in Htype as [_ Htype]. destruct (is_ok _); [destruct t |];
        cbv [bind allocate_schema_nodes modify ret] in Htype;
        injection Htype as <- <- <-; reflexivity. }
    destruct (negb (is_ok st2)); [injection Hrun as _ <- _; congruence |].
    apply bind_Ok_inv in Hrun as ([st3 d] & a4 & _ & Hrun).
    injection Hrun as _ <- _. simpl. congruence.
  - (* LIST *)
    apply bind_Ok_inv in Hrun as ([st1 out1] & a1 & Htype & Hrun).
    assert (H1 : sch_flags out1 = sch_flags out).
    { unfold ArrowSchemaSetType in Htype.
      apply on_initialized_Ok_inv in Htype as [_ Htype]. destruct (is_ok _);
        cbv [bind allocate_schema_nodes modify ret] in Htype;
        injection Htype as <- <- <-; reflexivity. }
    destruct (negb (is_ok st1)) eqn:Hst1; [now apply ret_status_Ok_inv in Hrun |].
    destruct ch as [|child ch]; simpl in Hrun; [discriminate Hrun |].
    case_bool_decide.
    + apply bind_Ok_inv in Hrun as ([st2 c] & a2 & _ & Hrun).
      injection Hrun as _ <- _. exact H1.
    + apply bind_Ok_inv in Hrun as ([st2 c] & a2 & _ & Hrun).
      injection Hrun as _ <- _. reflexivity.
  - (* STRUCT *)
    apply bind_Ok_inv in Hrun as (u & a1 & _ & Hrun).
    apply bind_Ok_inv in Hrun as ([st1 out1] & a2 & Hstruct & Hrun).
    assert (H1 : sch_flags out1 = sch_flags out).
    { unfold ArrowSchemaSetTypeStruct in Hstruct.
      apply on_initialized_Ok_inv in Hstruct as [_ Hstruct]. destruct (is_ok _);
        cbv [bind allocate_schema_nodes modify ret] in Hstruct;
        injection Hstruct as <- <- <-; reflexivity. }
    destruct (negb (is_ok st1)); [injection Hrun as _ <- _; now destruct ch |].
    apply struct_children_frame in Hrun. rewrite Hrun. simpl. now destruct ch.
Qed.
End SchemaFrames.

Section SchemaTables.
Variable na_status : na_call -> Z.
Variable max_precision : DeviceType -> Z.

(** The loop of [to_arrow_schema]: the child of a column that is not
    [EMPTY] is what the operator of the column returned, with success, on
    the prepared child. *)
Lemma to_arrow_schema_columns_dispatch (cols : list column_view)
    (metadata : list column_metadata) :
  forall (i : nat) (result : ArrowSchema) (a : nat) (result' : ArrowSchema) (a' : nat),
    to_arrow_schema_columns na_status max_precision cols metadata i result a =
      (Ok result', a') ->
    forall j col,
      cols !! j = Some col -> dt_id (cv_type col) <> EMPTY ->
      (i + j < length (sch_children result))%nat ->
      exists a1 c a2,
        dispatch_to_arrow_type na_status max_precision col (dt_id (cv_type col))
          (metadata !!! (i + j)%nat)
          (prepared_child na_status (name (metadata !!! (i + j)%nat)) (cv_nullable col)
             (child_at (i + j) result)) a1 = (Ok (NANOARROW_OK, c), a2)
        /\ sch_children result' !! (i + j)%nat = Some c.
Proof.
  induction cols as [|col cols IH]; intros i result a result' a' Hrun j c Hj Hid Hlt;
    [discriminate Hj |].
  pose proof (to_arrow_schema_columns_spec na_status max_precision _ _ _ _ _ _ _ Hrun)
    as (_ & Hkeep0 & _).
  simpl in Hrun. apply bind_SetName_Ok in Hrun.
  simpl in Hrun.
  destruct j as [|j].
  - injection Hj as ->. rewrite Nat.add_0_r in *.
    rewrite bool_decide_eq_false_2 in Hrun by exact Hid.
    apply bind_Ok_inv in Hrun as ([status child] & a1 & Hdispatch & Hrun).
    apply bind_Ok_inv in Hrun as (u & a2 & Hexp & Hrun).
    apply CUDF_EXPECTS_Ok_inv in Hexp as [Hstatus ->].
    apply is_ok_true in Hstatus as ->.
    exists a, child, a1. split; [exact Hdispatch |].
    apply to_arrow_schema_columns_spec in Hrun as (_ & Hkeep & _).
    rewrite Hkeep by lia. rewrite set_child_children. apply list_lookup_insert_eq. lia.
  - simpl in Hj. replace (i + S j)%nat with (S i + j)%nat in * by lia.
    assert (Hrest : exists child a1,
               to_arrow_schema_columns na_status max_precision cols metadata (S i)
                 (set_child i child result) a1 = (Ok result', a')).
    { case_bool_decide.
      - apply bind_SetType_NA_Ok in Hrun. eauto.
      - apply bind_Ok_inv in Hrun as ([status child] & a1 & _ & Hrun).
        apply bind_Ok_inv in Hrun as (u & a2 & Hexp & Hrun).
        apply CUDF_EXPECTS_Ok_inv in Hexp as [_ ->]. eauto. }
    destruct Hrest as (child & a1 & Hrest).
    destruct (IH _ _ _ _ _ Hrest j c Hj Hid) as (b1 & c' & b2 & Hdispatch & Hchild).
    { rewrite set_child_children, length_insert. exact Hlt. }
    rewrite child_at_set_child_ne in Hdispatch by lia. eauto.
Qed.

Lemma to_arrow_schema_Ok_inv (input : table_view) (metadata : list column_metadata)
    (a : nat) (result : ArrowSchema) (a' : nat) :
  to_arrow_schema na_status max_precision input metadata a = (Ok result, a') ->
  exists root a1,
    sch_children root = replicate (num_columns input) ArrowSchemaInit
    /\ to_arrow_schema_columns na_status max_precision (tv_columns input) metadata 0
         root a1 = (Ok result, a').
Proof.
  intros Hrun. unfold to_arrow_schema in Hrun.
  apply bind_Ok_inv in Hrun as (u & a1 & Hexp & Hrun).
  apply CUDF_EXPECTS_Ok_inv in Hexp as [_ ->].
  apply bind_Ok_inv in Hrun as ([status root] & a2 & Hroot & Hrun).
  destruct (negb (is_ok status)) eqn:Hstatus; [discriminate Hrun |].
  apply ArrowSchemaSetTypeStruct_Ok_inv in Hroot; [| exact Hstatus]. eauto.
Qed.

(** What [to_arrow_schema] leaves at the child of every column. *)
Lemma to_arrow_schema_child (input : table_view) (metadata : list column_metadata)
    (a : nat) (result : ArrowSchema) (a' : nat) (i : nat) (col : column_view) :
  to_arrow_schema na_status max_precision input metadata a = (Ok result, a') ->
  tv_columns input !! i = Some col ->
  exists c,
    sch_children result !! i = Some c
    /\ if bool_decide (dt_id (cv_type col) = EMPTY)
       then c = null_leaf na_status (name (metadata !!! i)) (cv_nullable col) ArrowSchemaInit
       else exists a1 a2,
           dispatch_to_arrow_type na_status max_precision col (dt_id (cv_type col))
             (metadata !!! i)
             (prepared_child na_status (name (metadata !!! i)) (cv_nullable col) ArrowSchemaInit)
             a1 = (Ok (NANOARROW_OK, c), a2).
Proof.
  intros Hrun Hcol. apply to_arrow_schema_Ok_inv in Hrun as (root & a1 & Hroot & Hloop).
  pose proof (lookup_lt_Some _ _ _ Hcol) as Hlt.
  assert (Hchild0 : child_at i root = ArrowSchemaInit).
  { unfold child_at. rewrite Hroot. now apply lookup_total_replicate_2. }
  case_bool_decide as Hid.
  - apply to_arrow_schema_columns_spec in Hloop as (_ & _ & Hleaf).
    specialize (Hleaf i col Hcol Hid). rewrite Hroot, length_replicate in Hleaf.
    simpl in Hleaf. rewrite Hchild0 in Hleaf. eauto.
  - destruct (to_arrow_schema_columns_dispatch _ _ _ _ _ _ _ Hloop i col Hcol Hid)
      as (b1 & c & b2 & Hdispatch & Hchild).
    { rewrite Hroot, length_replicate. exact Hlt. }
    simpl in Hdispatch, Hchild. rewrite Hchild0 in Hdispatch. eauto.
Qed.

(** X5. The schema node of the i-th column of the table carries the name of
    the i-th metadata entry as a C string, that is up to its first NUL
    character, when nanoarrow accepts the name. *)
Theorem top_level_columns_take_their_metadata_name (input : table_view)
    (metadata : list column_metadata) (a : nat) (result : ArrowSchema) (a' : nat)
    (i : nat) (col : column_view) (m : column_metadata) :
  to_arrow_schema na_status max_precision input metadata a = (Ok result, a') ->
  tv_columns input !! i = Some col ->
  metadata !! i = Some m ->
  na_status (SchemaSetName (c_str (name m))) = NANOARROW_OK ->
  exists c, sch_children result !! i = Some c /\ sch_name c = Some (c_str (name m)).
Proof.
  intros Hrun Hcol Hm Hok.
  destruct (to_arrow_schema_child _ _ _ _ _ _ _ Hrun Hcol) as (c & Hc & Hnode).
  apply list_lookup_total_correct in Hm. rewrite Hm in Hnode.
  exists c. split; [exact Hc |].
  apply is_ok_true in Hok.
  case_bool_decide.
  - subst c. unfold null_leaf. rewrite Hok.
    destruct (is_ok (na_status (SchemaSetType NANOARROW_TYPE_NA))); reflexivity.
  - destruct Hnode as (a1 & a2 & Hdispatch).
    apply dispatch_to_arrow_type_name in Hdispatch. rewrite Hdispatch.
    unfold prepared_child. now rewrite Hok.
Qed.

(** X6. The nullable flag of the schema node of a column follows the
    nullability of the column, except for a list column with a first child
    that is not [EMPTY]: the list operator overwrites the flag of the list
    node with the nullability of that child. *)
Theorem top_level_flags_follow_nullability_source (input : table_view)
    (metadata : list column_metadata) (a : nat) (result : ArrowSchema) (a' : nat)
    (i : nat) (col : column_view) :
  to_arrow_schema na_status max_precision input metadata a = (Ok result, a') ->
  tv_columns input !! i = Some col ->
  exists c,
    sch_children result !! i = Some c
    /\ sch_flags c = if nullability_source col then ARROW_FLAG_NULLABLE else 0%Z.
Proof.
  intros Hrun Hcol.
  destruct (to_arrow_schema_child _ _ _ _ _ _ _ Hrun Hcol) as (c & Hc & Hnode).
  exists c. split; [exact Hc |].
  case_bool_decide as Hid.
  - subst c. destruct (null_leaf_children na_status (name (metadata !!! i))
                         (cv_nullable col) ArrowSchemaInit) as (_ & _ & ->).
    unfold nullability_source. now rewrite Hid.
  - destruct Hnode as (a1 & a2 & Hdispatch).
    apply dispatch_to_arrow_type_flags in Hdispatch. rewrite Hdispatch.
    unfold nullability_source.
    destruct (dt_id (cv_type col)); try reflexivity.
    destruct (cv_children col) as [|child ch]; [reflexivity |].
    case_bool_decide; reflexivity.
Qed.

(** X7. [to_arrow_schema] returns no schema for a table with a
    [DURATION_DAYS] column, or with a struct column whose metadata has a
    number of children different from the column's. *)
Theorem to_arrow_schema_rejects_bad_columns (input : table_view)
    (metadata : list column_metadata) (a : nat) (i : nat) (col : column_view)
    (m : column_metadata) :
  tv_columns input !! i = Some col ->
  metadata !! i = Some m ->
  dt_id (cv_type col) = DURATION_DAYS
  \/ (dt_id (cv_type col) = STRUCT /\ length (children_meta m) <> num_children col) ->
  exists e a', to_arrow_schema na_status max_precision input metadata a = (Throw e, a').
Proof.
  intros Hcol Hm Hbad.
  destruct (to_arrow_schema na_status max_precision input metadata a)
    as [[result|e] a'] eqn:Hrun; [| eauto].
  exfalso.
  destruct (to_arrow_schema_child _ _ _ _ _ _ _ Hrun Hcol) as (c & _ & Hnode).
  apply list_lookup_total_correct in Hm. rewrite Hm in Hnode.
  rewrite bool_decide_eq_false_2 in Hnode
    by (destruct Hbad as [-> | [-> _]]; discriminate).
  destruct Hnode as (a1 & a2 & Hdispatch).
  destruct Hbad as [Hid | [Hid Hlen]].
  - destruct col as [[tid sc] sz nc nl ch]. simpl in *. subst tid.
    discriminate Hdispatch.
  - rewrite dispatch_to_arrow_type_struct in Hdispatch by exact Hid.
    apply bind_Ok_inv in Hdispatch as (u & b & Hexp & _).
    apply CUDF_EXPECTS_Ok_inv in Hexp as [Hlen' _].
    apply bool_decide_eq_true in Hlen'. contradiction.
Qed.


End SchemaTables.

Section NestedSchemas.
Variable na_status : na_call -> Z.
Variable max_precision : DeviceType -> Z.

(** X9. The schema node of a struct column is a struct with one child per
    field, built only when the metadata has one child per field; every
    field node carries the name of the struct's own metadata as a C string,
    that is up to its first NUL character, and the node of an [EMPTY] field
    is a null leaf. *)
Theorem struct_schema_fields (input : column_view) (id : type_id)
    (metadata : column_metadata) (out : ArrowSchema) (a : nat)
    (out' : ArrowSchema) (a' : nat) :
  dt_id (cv_type input) = STRUCT ->
  dispatch_to_arrow_type na_status max_precision input id metadata out a =
    (Ok (NANOARROW_OK, out'), a') ->
  sch_format out' = format_type NANOARROW_TYPE_STRUCT
  /\ length (children_meta metadata) = num_children input
  /\ length (sch_children out') = num_children input
  /\ forall i col,
       cv_children input !! i = Some col ->
       exists c,
         sch_children out' !! i = Some c
         /\ sch_name c = Some (c_str (name metadata))
         /\ (dt_id (cv_type col) = EMPTY ->
             sch_format c = format_type NANOARROW_TYPE_NA /\ sch_children c = []).
Proof.
  intros Hstruct Hrun.
  pose proof Hrun as Hrun0.
  rewrite dispatch_to_arrow_type_struct in Hrun by exact Hstruct.
  apply bind_Ok_inv in Hrun as (u & b1 & Hexp & Hrun).
  apply CUDF_EXPECTS_Ok_inv in Hexp as [Hmeta ->].
  apply bool_decide_eq_true in Hmeta.
  apply bind_Ok_inv in Hrun as ([status root] & b2 & Hroot & Hrun).
  destruct (negb (is_ok status)) eqn:Hstatus; [now apply ret_status_Ok_inv in Hrun |].
  pose proof (ArrowSchemaSetTypeStruct_Ok_inv _ _ _ _ _ _ _ Hroot Hstatus) as Hchildren.
  assert (Hformat : sch_format root = format_type NANOARROW_TYPE_STRUCT).
  { unfold ArrowSchemaSetTypeStruct in Hroot.
    apply on_initialized_Ok_inv in Hroot as [_ Hroot].
    destruct (is_ok (na_status (SchemaSetTypeStruct (num_children input)))) eqn:Hok.
    - cbv [bind allocate_schema_nodes modify ret] in Hroot. now injection Hroot as _ <- _.
    - injection Hroot as <- _ _. now rewrite Hok in Hstatus. }
  pose proof (struct_children_frame _ _ _ _ _ _ _ _ _ _ Hrun) as Hframe.
  pose proof (struct_children_spec _ _ _ _ _ _ _ _ _ Hrun) as (Hlength & _ & Hleaf).
  split; [rewrite Hframe; exact Hformat | split; [exact Hmeta | split]].
  - rewrite Hlength, Hchildren. apply length_replicate.
  - intros i col Hcol.
    pose proof (struct_field_names _ _ _ _ _ _ _ _ _ _ _ Hstruct Hrun0 Hcol) as Hname.
    destruct (sch_children out' !! i) as [c|] eqn:Hc; [| discriminate Hname].
    exists c. split; [reflexivity | split; [now injection Hname |]].
    intros Hempty. specialize (Hleaf i col Hcol Hempty).
    rewrite Hchildren, length_replicate in Hleaf. simpl in Hleaf.
    destruct (Hleaf (lookup_lt_Some _ _ _ Hcol)) as [Hna Hnode].
    rewrite Hc in Hnode. injection Hnode as ->.
    unfold child_at. rewrite Hchildren.
    rewrite lookup_total_replicate_2 by (now apply lookup_lt_Some in Hcol).
    destruct (null_leaf_of_init na_status (name metadata) (cv_nullable col) Hna)
      as (Hf & Hc' & _). auto.
Qed.

(** X10. The schema node of a list column is a list with exactly one child,
    named "item"; that child is a null node when the first child column is
    [EMPTY] and has the format of the first child column when that is a
    plain column. *)
Theorem list_schema_child (input : column_view) (id : type_id)
    (metadata : column_metadata) (out : ArrowSchema) (a : nat)
    (out' : ArrowSchema) (a' : nat) (child : column_view) (rest : list column_view) :
  dt_id (cv_type input) = LIST ->
  cv_children input = child :: rest ->
  dispatch_to_arrow_type na_status max_precision input id metadata out a =
    (Ok (NANOARROW_OK, out'), a') ->
  sch_format out' = format_type NANOARROW_TYPE_LIST
  /\ exists c,
       sch_children out' = [c]
       /\ sch_name c = Some "item"
       /\ (dt_id (cv_type child) = EMPTY -> sch_format c = format_type NANOARROW_TYPE_NA)
       /\ (is_nested_kind (dt_id (cv_type child)) = false ->
           is_fixed_point (dt_id (cv_type child)) = false ->
           dt_id (cv_type child) <> EMPTY ->
           schema_format_of (dt_id (cv_type child)) = Some (sch_format c)).
Proof.
  intros Hlist Hchildren Hrun.
  pose proof (list_child_name _ _ _ _ _ _ _ _ _ Hlist Hrun) as Hnames.
  destruct input as [[tid sc] sz nc nl ch]. simpl in *. subst tid ch.
  apply bind_Ok_inv in Hrun as ([st1 out1] & a1 & Htype & Hrun).
  destruct (negb (is_ok st1)) eqn:Hst1; [now apply ret_status_Ok_inv in Hrun |].
  assert (Hout1 : sch_format out1 = format_type NANOARROW_TYPE_LIST).
  { unfold ArrowSchemaSetType in Htype.
    apply on_initialized_Ok_inv in Htype as [_ Htype].
    destruct (is_ok (na_status (SchemaSetType NANOARROW_TYPE_LIST))) eqn:Hok.
    - cbv [bind allocate_schema_nodes modify ret] in Htype. now injection Htype as _ <- _.
    - injection Htype as <- _ _. now rewrite Hok in Hst1. }
  destruct (sch_children out') as [|c [|c' cs]] eqn:Hcs; try discriminate Hnames.
  injection Hnames as Hname.
  case_bool_decide as Hempty.
  - apply bind_Ok_inv in Hrun as ([st2 c2] & a2 & Hna & Hrun).
    injection Hrun as -> <- _. rewrite set_child_children in Hcs.
    split; [exact Hout1 |]. exists c. split; [reflexivity | split; [exact Hname |]].
    split; [| intros _ _ Hne; contradiction]. intros _.
    apply (ArrowSchemaSetType_NA_Ok_inv na_status) in Hna as (_ & Hst & -> & _).
    symmetry in Hst. apply is_ok_true in Hst. rewrite Hst in Hcs.
    destruct (sch_children out1) as [|x xs]; [discriminate Hcs |].
    simpl in Hcs. now injection Hcs as <- _.
  - apply bind_Ok_inv in Hrun as ([st2 c2] & a2 & Hdispatch & Hrun).
    injection Hrun as -> <- _. rewrite set_child_children in Hcs.
    split; [exact Hout1 |]. exists c. split; [reflexivity | split; [exact Hname |]].
    split; [intros Hid; contradiction |]. intros Hn Hf _.
    simpl in Hcs.
    destruct (sch_children out1) as [|x xs]; [discriminate Hcs |].
    simpl in Hcs. injection Hcs as <- _.
    now apply (leaf_format na_status max_precision _ _ _ _ _ _ Hn Hf Hdispatch).
Qed.

(** The operator of a column that is not nested does not look at the
    metadata. *)
Lemma leaf_dispatch_ignores_metadata (input : column_view) (id : type_id)
    (metadata1 metadata2 : column_metadata) (out : ArrowSchema) :
  is_nested_kind (dt_id (cv_type input)) = false ->
  dispatch_to_arrow_type na_status max_precision input id metadata1 out =
  dispatch_to_arrow_type na_status max_precision input id metadata2 out.
Proof.
  destruct input as [[tid sc] sz nc nl ch]. simpl.
  destruct tid; intros Hn; try discriminate Hn; reflexivity.
Qed.

(** X11. For a list column whose first child is not nested, the list
    operator returns the same result whatever the metadata. *)
Theorem list_of_leaves_ignores_metadata (input : column_view) (id : type_id)
    (metadata1 metadata2 : column_metadata) (out : ArrowSchema) (a : nat)
    (child : column_view) (rest : list column_view) :
  dt_id (cv_type input) = LIST ->
  cv_children input = child :: rest ->
  is_nested_kind (dt_id (cv_type child)) = false ->
  dispatch_to_arrow_type na_status max_precision input id metadata1 out a =
  dispatch_to_arrow_type na_status max_precision input id metadata2 out a.
Proof.
  destruct input as [[tid sc] sz nc nl ch]. simpl. intros -> -> Hn.
  unfold bind. destruct (ArrowSchemaSetType na_status out NANOARROW_TYPE_LIST a)
    as [[[st out1]|e] a1]; [| reflexivity].
  destruct (negb (is_ok st)); [reflexivity |].
  case_bool_decide; [reflexivity |].
  now rewrite (leaf_dispatch_ignores_metadata child _
                 (match children_meta metadata1 with
                  | [] => Build_column_metadata "element" []
                  | m :: _ => m
                  end)
                 (match children_meta metadata2 with
                  | [] => Build_column_metadata "element" []
                  | m :: _ => m
                  end)).
Qed.
End NestedSchemas.

(** ** More on the widening kernel *)

Local Open Scope Z_scope.

Lemma slot_words_widen (ratio : nat) (size : nat) (inp out : list Z)
    (in_idx : nat) (v : Z) :
  (0 < ratio)%nat ->
  Z.of_nat size * Z.of_nat ratio <= INT32_MAX ->
  (size * ratio <= length out)%nat ->
  (in_idx < size)%nat ->
  inp !! in_idx = Some v ->
  slot_words ratio in_idx (widen (Z.of_nat ratio) (Z.of_nat size) inp out) =
    v :: replicate (ratio - 1) (if v <? 0 then -1 else 0).
Proof.
  intros Hratio Hmax Hlen Hidx Hv. apply list_lookup_total_correct in Hv.
  assert (Hbound : (in_idx * ratio + ratio <= size * ratio)%nat) by nia.
  unfold slot_words. apply list_eq. intros k.
  destruct (decide (k < ratio)%nat) as [Hk | Hk].
  - rewrite lookup_take_lt by exact Hk. rewrite lookup_drop.
    rewrite widen_lookup by assumption.
    rewrite bool_decide_eq_true_2 by lia.
    assert (Hdiv : ((in_idx * ratio + k) `div` ratio = in_idx)%nat).
    { symmetry. apply (Nat.div_unique _ _ _ k); lia. }
    assert (Hmod : ((in_idx * ratio + k) `mod` ratio = k)%nat).
    { symmetry. apply (Nat.mod_unique _ _ in_idx); lia. }
    rewrite Hdiv, Hmod, Hv. destruct k as [|k].
    + now rewrite bool_decide_eq_true_2.
    + rewrite bool_decide_eq_false_2 by lia. simpl.
      symmetry. apply lookup_replicate_2. lia.
  - rewrite lookup_take_ge by lia. symmetry. apply lookup_ge_None.
    simpl. rewrite length_replicate. lia.
Qed.

(** X12. The words the kernel leaves in the 128-bit slot of an element,
    read lowest word first as a two's complement number, are the value of
    the element. *)
Theorem widened_slot_reads_as_the_value (T : DeviceType) (size : nat)
    (inp out : list Z) (in_idx : nat) (v : Z) :
  T = int32_t \/ T = int64_t ->
  Z.of_nat size * BIT_WIDTH_RATIO T <= INT32_MAX ->
  (size * Z.to_nat (BIT_WIDTH_RATIO T) <= length out)%nat ->
  (in_idx < size)%nat ->
  inp !! in_idx = Some v ->
  - 2 ^ (word_bits T - 1) <= v < 2 ^ (word_bits T - 1) ->
  signed128
    (little_endian (word_bits T)
       (slot_words (Z.to_nat (BIT_WIDTH_RATIO T)) in_idx
          (widen (BIT_WIDTH_RATIO T) (Z.of_nat size) inp out))) = v.
Proof.
  intros HT Hmax Hlen Hidx Hv Hrange.
  destruct HT as [-> | ->]; simpl in *.
  1: change (Z.to_nat 4) with 4%nat in *; change (widen 4) with (widen (Z.of_nat 4%nat)).
  2: change (Z.to_nat 2) with 2%nat in *; change (widen 2) with (widen (Z.of_nat 2%nat)).
  all: rewrite (slot_words_widen _ _ _ _ _ v) by (assumption || lia);
    simpl; unfold signed128.
  - change (2 ^ (32 - 1)) with 2147483648 in Hrange.
    change (2 ^ 32) with 4294967296.
    change (2 ^ 127) with 170141183460469231731687303715884105728.
    change (2 ^ 128) with 340282366920938463463374607431768211456.
    destruct (Z.ltb_spec v 0).
    + replace (v mod 4294967296) with (v + 4294967296)
        by (apply (Z.mod_unique _ _ (-1)); lia).
      change ((-1) mod 4294967296) with 4294967295.
      match goal with |- (if ?u <? ?b then _ else _) = _ =>
        destruct (Z.ltb_spec u b) end; lia.
    + rewrite (Z.mod_small v) by lia. change (0 mod 4294967296) with 0.
      match goal with |- (if ?u <? ?b then _ else _) = _ =>
        destruct (Z.ltb_spec u b) end; lia.
  - change (2 ^ (64 - 1)) with 9223372036854775808 in Hrange.
    change (2 ^ 64) with 18446744073709551616.
    change (2 ^ 127) with 170141183460469231731687303715884105728.
    change (2 ^ 128) with 340282366920938463463374607431768211456.
    destruct (Z.ltb_spec v 0).
    + replace (v mod 18446744073709551616) with (v + 18446744073709551616)
        by (apply (Z.mod_unique _ _ (-1)); lia).
      change ((-1) mod 18446744073709551616) with 18446744073709551615.
      match goal with |- (if ?u <? ?b then _ else _) = _ =>
        destruct (Z.ltb_spec u b) end; lia.
    + rewrite (Z.mod_small v) by lia. change (0 mod 18446744073709551616) with 0.
      match goal with |- (if ?u <? ?b then _ else _) = _ =>
        destruct (Z.ltb_spec u b) end; lia.
Qed.

(** The kernel writes every word of the buffer it is given. *)
Lemma widen_overwrites (ratio size : nat) (inp out1 out2 : list Z) :
  (0 < ratio)%nat ->
  Z.of_nat size * Z.of_nat ratio <= INT32_MAX ->
  length out1 = (size * ratio)%nat ->
  length out2 = (size * ratio)%nat ->
  widen (Z.of_nat ratio) (Z.of_nat size) inp out1 =
    widen (Z.of_nat ratio) (Z.of_nat size) inp out2.
Proof.
  intros Hratio Hmax H1 H2. apply list_eq. intros p.
  rewrite !widen_lookup by (try assumption; lia).
  case_bool_decide as Hp; [reflexivity |].
  rewrite !(proj2 (lookup_ge_None _ _)) by lia. reflexivity.
Qed.

(** ** More on the array builder *)

Section UninitializedMemory.
Variable na_status : na_call -> Z.
Variable cuda_status : cuda_call -> Z.
Variable max_precision : DeviceType -> Z.
Variable bools_to_mask_words : list Z -> list Z.

Lemma widen_ignores_initial_contents (T : DeviceType) (size : Z) (inp : list Z)
    (u1 u2 : Z -> Z) :
  0 <= size -> size * BIT_WIDTH_RATIO T <= INT32_MAX ->
  widen (BIT_WIDTH_RATIO T) size inp (u1 <$> seqZ 0 (wrap32 (size * BIT_WIDTH_RATIO T))) =
  widen (BIT_WIDTH_RATIO T) size inp (u2 <$> seqZ 0 (wrap32 (size * BIT_WIDTH_RATIO T))).
Proof.
  intros Hsize Hmax.
  assert (Hratio : exists r : nat, BIT_WIDTH_RATIO T = Z.of_nat r /\ (0 < r <= 4)%nat).
  { destruct T; [exists 4%nat | exists 2%nat | exists 1%nat]; simpl; lia. }
  destruct Hratio as (r & Hr' & Hr). rewrite Hr' in *.
  rewrite wrap32_small by (unfold INT32_MAX in *; nia).
  set (n := Z.to_nat size).
  assert (Hn : size = Z.of_nat n) by (unfold n; lia).
  rewrite Hn. apply widen_overwrites.
  - lia.
  - nia.
  - rewrite length_fmap, length_seqZ. nia.
  - rewrite length_fmap, length_seqZ. nia.
Qed.

Lemma allocate_not_positive (u1 u2 : Z -> Z) (n : Z) :
  n <= 0 -> allocate u1 n = allocate u2 n.
Proof.
  intros Hn. unfold allocate. case_bool_decide; [reflexivity |].
  case_bool_decide; [reflexivity | lia].
Qed.

Lemma allocate_positive (u : Z -> Z) (n : Z) (d : device) :
  0 < n ->
  allocate u n d =
    (Ok (Build_device_buffer (Z.pos (d_next_address d)) (u <$> seqZ 0 n)),
     Build_device (d_trace d ++ [device_allocate (Z.pos (d_next_address d)) n])
       (d_next_address d + Z.to_pos n) (d_next_event d) (d_current_device d)).
Proof.
  intros Hn. unfold allocate. now rewrite !bool_decide_eq_false_2 by lia.
Qed.

(** The operator of a decimal32 or decimal64 column does not depend on what
    freshly allocated memory holds: the kernel writes every word of the
    buffer, or the operator fails. *)
Lemma unsupported_decimals_to_arrow_ignores_uninitialized (u1 u2 : Z -> Z)
    (T : DeviceType) (col : column) (precision stream mr : Z) (out : ArrowArray)
    (d : device) :
  T = int32_t \/ T = int64_t ->
  0 <= col_size col ->
  unsupported_decimals_to_arrow na_status u1 T col precision stream mr out d =
  unsupported_decimals_to_arrow na_status u2 T col precision stream mr out d.
Proof.
  intros HT Hsize. unfold unsupported_decimals_to_arrow.
  destruct (ArrowArrayInitFromType na_status ArrowArray_uninitialized
              NANOARROW_TYPE_DECIMAL128) as [status tmp].
  destruct (negb (is_ok status)); [reflexivity |]. cbv zeta.
  destruct (Z_lt_le_dec 0 (wrap32 (col_size col * BIT_WIDTH_RATIO T))) as [Hpos | Hle].
  2:{ now rewrite (allocate_not_positive u1 u2) by exact Hle. }
  rewrite !(bind_Ok _ _ _ _ _ (allocate_positive _ _ _ Hpos)).
  destruct (widen_in_bounds _ _ _) eqn:Hbounds; [| reflexivity].
  rewrite !bind_ret_l. cbn [db_data db_words].
  rewrite (widen_ignores_initial_contents T _ _ u1 u2); [reflexivity | exact Hsize |].
  apply widen_in_bounds_fits; [exact HT | exact Hsize | lia | exact Hbounds].
Qed.

(** An operator does not depend on what freshly allocated memory holds. *)
Lemma dispatch_to_arrow_device_ignores_uninitialized (u1 u2 : Z -> Z)
    (col : column) (id : type_id) (stream mr : Z) (out : ArrowArray) (d : device) :
  0 <= col_size col ->
  dispatch_to_arrow_device na_status max_precision bools_to_mask_words u1
    col id stream mr out d =
  dispatch_to_arrow_device na_status max_precision bools_to_mask_words u2
    col id stream mr out d.
Proof.
  intros Hsize. unfold dispatch_to_arrow_device.
  destruct (dt_id (col_type col)); try reflexivity.
  - (* BOOL8 *)
    unfold dispatch_to_arrow_device_bool.
    destruct (ArrowArrayInitFromType na_status ArrowArray_uninitialized
                NANOARROW_TYPE_BOOL) as [status tmp].
    destruct (negb (is_ok status)); [reflexivity |].
    unfold bools_to_mask. rewrite !bind_assoc.
    destruct (Z_lt_le_dec 0 (Z.of_nat (length (bools_to_mask_words
                                                 (db_words (col_data col))))))
      as [Hpos | Hle].
    + now rewrite !(bind_Ok _ _ _ _ _ (allocate_positive _ _ _ Hpos)).
    + now rewrite (allocate_not_positive u1 u2) by exact Hle.
  - apply unsupported_decimals_to_arrow_ignores_uninitialized; auto.
  - apply unsupported_decimals_to_arrow_ignores_uninitialized; auto.
Qed.

Lemma to_arrow_device_columns_ignores_uninitialized (u1 u2 : Z -> Z)
    (cols : list column) (stream mr : Z) :
  Forall (fun col => 0 <= col_size col) cols ->
  forall (i : nat) (tmp : ArrowArray) (d : device),
    to_arrow_device_columns na_status max_precision bools_to_mask_words u1
      cols stream mr i tmp d =
    to_arrow_device_columns na_status max_precision bools_to_mask_words u2
      cols stream mr i tmp d.
Proof.
  induction 1 as [|col cols Hcol _ IH]; intros i tmp d; [reflexivity |].
  simpl. destruct (arr_children tmp !! i); [| reflexivity].
  case_bool_decide; [apply IH |].
  unfold bind. rewrite (dispatch_to_arrow_device_ignores_uninitialized u1 u2) by exact Hcol.
  destruct (dispatch_to_arrow_device _ _ _ u2 _ _ _ _ _ _) as [[[[st c'] child]|e] d1];
    [| reflexivity].
  destruct (CUDF_EXPECTS _ _ d1) as [[u|e] d2]; [apply IH | reflexivity].
Qed.

(** X13. On a table whose columns have sizes that are not negative, what
    [to_arrow_device] returns, and what it does to the table and to the
    device, does not depend on the contents of freshly allocated memory:
    the kernel writes every word of the buffer of a widened column, or the
    call fails. *)
Theorem to_arrow_device_ignores_uninitialized_memory (u1 u2 : Z -> Z)
    (tbl : table) (stream mr : Z) (d : device) :
  Forall (fun col => 0 <= col_size col) (tbl_columns tbl) ->
  to_arrow_device na_status cuda_status max_precision bools_to_mask_words u1
    tbl stream mr d =
  to_arrow_device na_status cuda_status max_precision bools_to_mask_words u2
    tbl stream mr d.
Proof.
  intros Hsizes. unfold to_arrow_device. simpl. unfold bind at 1 3.
  now rewrite (to_arrow_device_columns_ignores_uninitialized u1 u2) by exact Hsizes.
Qed.
End UninitializedMemory.

Section Allocations.
Variable na_status : na_call -> Z.
Variable cuda_status : cuda_call -> Z.
Variable max_precision : DeviceType -> Z.
Variable bools_to_mask_words : list Z -> list Z.
Variable uninitialized : Z -> Z.





(** X16. When nanoarrow rejects the initialisation of the array, the
    operator returns that status before it releases the column: the column,
    the output node and the device are as they were. *)
Theorem rejected_initialisation_keeps_the_column (col : column) (id : type_id)
    (stream mr : Z) (out : ArrowArray) (d : device) (t : ArrowType) :
  operator_storage_type col id = Some t ->
  na_status (ArrayInitFromType t) <> NANOARROW_OK ->
  dispatch_to_arrow_device na_status max_precision bools_to_mask_words uninitialized
    col id stream mr out d = (Ok (na_status (ArrayInitFromType t), col, out), d).
Proof.
  intros Ht Hreject.
  assert (Hok : is_ok (na_status (ArrayInitFromType t)) = false).
  { apply not_true_is_false. intros Hok. now apply is_ok_true in Hok. }
  unfold operator_storage_type in Ht. unfold dispatch_to_arrow_device.
  destruct (dt_id (col_type col)); try discriminate Ht.
  all: try (injection Ht as Ht; subst t;
            cbv [unsupported_decimals_to_arrow dispatch_to_arrow_device_decimal128
                 dispatch_to_arrow_device_bool ArrowArrayInitFromType];
            rewrite Hok; simpl; rewrite Hok; reflexivity).
  all: unfold dispatch_to_arrow_device_rep_layout_compatible;
    destruct (storage_type_of id) as [t'|e]; try discriminate Ht;
    injection Ht as Ht; subst t'; cbv [lift_outcome bind ArrowArrayInitFromType];
    rewrite Hok; simpl; rewrite Hok; reflexivity.
Qed.
End Allocations.

Section DeviceFailures.
Variable na_status : na_call -> Z.
Variable cuda_status : cuda_call -> Z.
Variable max_precision : DeviceType -> Z.
Variable bools_to_mask_words : list Z -> list Z.
Variable uninitialized : Z -> Z.













(** The loop fails when the operator of one of its columns fails on every
    node and device. *)
Lemma to_arrow_device_columns_rejects (cols : list column) (stream mr : Z) :
  forall (i : nat) (tmp : ArrowArray) (d : device),
    (exists col, col ∈ cols /\ dt_id (col_type col) <> EMPTY /\
       forall out d0, exists e d1,
         dispatch_to_arrow_device na_status max_precision bools_to_mask_words
           uninitialized col (dt_id (col_type col)) stream mr out d0 = (Throw e, d1)) ->
    exists e d',
      to_arrow_device_columns na_status max_precision bools_to_mask_words uninitialized
        cols stream mr i tmp d = (Throw e, d').
Proof.
  induction cols as [|col cols IH]; intros i tmp d (bad & Hin & Hid & Hbad).
  - inversion Hin.
  - simpl. destruct (arr_children tmp !! i) as [c0|]; [| eauto].
    case_bool_decide as Hempty.
    + apply IH. apply elem_of_cons in Hin as [-> | Hin]; [contradiction | eauto].
    + destruct (dispatch_to_arrow_device na_status max_precision bools_to_mask_words
                  uninitialized col (dt_id (col_type col)) stream mr c0 d)
        as [[[[status col'] child]|e] d1] eqn:Hdispatch.
      2:{ exists e, d1. now apply bind_Throw. }
      rewrite (bind_Ok _ _ _ _ _ Hdispatch).
      destruct (is_ok status) eqn:Hstatus.
      2:{ eexists _, _. apply bind_Throw. unfold CUDF_EXPECTS. reflexivity. }
      erewrite bind_Ok by (unfold CUDF_EXPECTS; reflexivity).
      apply IH. apply elem_of_cons in Hin as [-> | Hin]; [| eauto].
      destruct (Hbad c0 d) as (e & d2 & Hthrow). congruence.
Qed.

(** X18. A [DURATION_DAYS] column has no Arrow storage type: its operator
    fails before it touches the column or the device, and [to_arrow_device]
    fails on every table that contains such a column. *)
Theorem duration_days_columns_are_rejected (tbl : table) (stream mr : Z)
    (d : device) (col : column) :
  col ∈ tbl_columns tbl ->
  dt_id (col_type col) = DURATION_DAYS ->
  (forall out d0,
     dispatch_to_arrow_device na_status max_precision bools_to_mask_words uninitialized
       col DURATION_DAYS stream mr out d0 =
       (Throw (logic_error "Unsupported type_id conversion to arrow type"), d0))
  /\ exists e d',
       to_arrow_device na_status cuda_status max_precision bools_to_mask_words
         uninitialized tbl stream mr d = (Throw e, Build_table 0 [], d').
Proof.
  intros Hin Hid.
  assert (Hthrow : forall out d0,
             dispatch_to_arrow_device na_status max_precision bools_to_mask_words
               uninitialized col DURATION_DAYS stream mr out d0 =
             (Throw (logic_error "Unsupported type_id conversion to arrow type"), d0)).
  { intros out d0. unfold dispatch_to_arrow_device. rewrite Hid. reflexivity. }
  split; [exact Hthrow |].
  destruct (to_arrow_device_columns_rejects (tbl_columns tbl) stream mr 0
              (root_node na_status tbl) d) as (e & d' & Hrun).
  { exists col. split; [exact Hin | split; [rewrite Hid; discriminate |]].
    intros out d0. rewrite Hid. eauto. }
  exists e, d'. unfold to_arrow_device. fold (root_node na_status tbl). simpl.
  now rewrite (bind_Throw _ _ _ _ _ Hrun).
Qed.
End DeviceFailures.


(** ** The added properties on the sample inputs *)

Lemma id_to_arrow_type_injective_witness : TIMESTAMP_DAYS = TIMESTAMP_DAYS.
Proof.
  apply (id_to_arrow_type_injective TIMESTAMP_DAYS TIMESTAMP_DAYS NANOARROW_TYPE_DATE32);
    reflexivity.
Defined.

Lemma leaf_formats_distinguish_type_ids_witness :
  dt_id (cv_type (sample_leaf INT32)) = dt_id (cv_type (sample_leaf INT32)).
Proof.
  eapply (leaf_formats_distinguish_type_ids na_all_ok sample_max_precision
            (sample_leaf INT32) (sample_leaf INT32)
            (Build_column_metadata "a" []) (Build_column_metadata "b" [])
            ArrowSchemaInit ArrowSchemaInit 0%nat 0%nat);
    try reflexivity; vm_compute; reflexivity.
Defined.

Lemma leaf_columns_only_set_the_format_witness :
  exists status out' a',
    dispatch_to_arrow_type na_all_ok sample_max_precision
      (sample_leaf TIMESTAMP_MILLISECONDS) TIMESTAMP_MILLISECONDS
      (Build_column_metadata "t" []) ArrowSchemaInit 4%nat = (Ok (status, out'), a')
    /\ out' = set_format (sch_format out') ArrowSchemaInit /\ a' = 4%nat.
Proof.
  pose proof (leaf_columns_only_set_the_format na_all_ok sample_max_precision
                (sample_leaf TIMESTAMP_MILLISECONDS) TIMESTAMP_MILLISECONDS
                (Build_column_metadata "t" []) ArrowSchemaInit 4%nat _ _ _ eq_refl
                ltac:(vm_compute; reflexivity)) as Hleaf.
  eexists _, _, _. split; [vm_compute; reflexivity | exact Hleaf].
Defined.

Lemma to_arrow_schema_root_witness :
  exists result a',
    to_arrow_schema na_all_ok sample_max_precision
      (Build_table_view [sample_struct]) [sample_struct_metadata] 0%nat = (Ok result, a')
    /\ length [sample_struct_metadata] = num_columns (Build_table_view [sample_struct])
    /\ sch_format result = format_type NANOARROW_TYPE_STRUCT
    /\ sch_name result = None
    /\ sch_dictionary result = None
    /\ length (sch_children result) = num_columns (Build_table_view [sample_struct]).
Proof.
  pose proof (to_arrow_schema_root na_all_ok sample_max_precision
                (Build_table_view [sample_struct]) [sample_struct_metadata] 0%nat _ _
                ltac:(vm_compute; reflexivity)) as Hroot.
  eexists _, _. split; [vm_compute; reflexivity | exact Hroot].
Defined.

Lemma top_level_columns_take_their_metadata_name_witness :
  exists result a' c,
    to_arrow_schema na_all_ok sample_max_precision
      (Build_table_view [sample_leaf INT32; sample_empty])
      [Build_column_metadata "i" []; sample_empty_metadata] 0%nat = (Ok result, a')
    /\ sch_children result !! 1%nat = Some c /\ sch_name c = Some "e".
Proof.
  destruct (top_level_columns_take_their_metadata_name na_all_ok sample_max_precision
              (Build_table_view [sample_leaf INT32; sample_empty])
              [Build_column_metadata "i" []; sample_empty_metadata] 0%nat _ _
              1%nat sample_empty sample_empty_metadata
              ltac:(vm_compute; reflexivity) eq_refl eq_refl eq_refl) as (c & Hc & Hname).
  eexists _, _, c. split; [vm_compute; reflexivity | split; [exact Hc | exact Hname]].
Defined.

Lemma top_level_flags_follow_nullability_source_witness :
  exists result a' c,
    to_arrow_schema na_all_ok sample_max_precision
      (Build_table_view [sample_nullable_list]) [Build_column_metadata "l" []] 0%nat =
      (Ok result, a')
    /\ sch_children result !! 0%nat = Some c /\ sch_flags c = ARROW_FLAG_NULLABLE.
Proof.
  destruct (top_level_flags_follow_nullability_source na_all_ok sample_max_precision
              (Build_table_view [sample_nullable_list]) [Build_column_metadata "l" []]
              0%nat _ _ 0%nat sample_nullable_list
              ltac:(vm_compute; reflexivity) eq_refl) as (c & Hc & Hflags).
  eexists _, _, c. split; [vm_compute; reflexivity | split; [exact Hc | exact Hflags]].
Defined.

Lemma to_arrow_schema_rejects_bad_columns_witness :
  exists e a',
    to_arrow_schema na_all_ok sample_max_precision
      (Build_table_view [sample_leaf INT32; sample_leaf DURATION_DAYS])
      [Build_column_metadata "i" []; Build_column_metadata "d" []] 0%nat = (Throw e, a').
Proof.
  apply (to_arrow_schema_rejects_bad_columns na_all_ok sample_max_precision
           (Build_table_view [sample_leaf INT32; sample_leaf DURATION_DAYS])
           [Build_column_metadata "i" []; Build_column_metadata "d" []] 0%nat 1%nat
           (sample_leaf DURATION_DAYS) (Build_column_metadata "d" []));
    [reflexivity | reflexivity | left; reflexivity].
Defined.


Lemma struct_schema_fields_witness :
  exists out' a',
    dispatch_to_arrow_type na_all_ok sample_max_precision sample_struct_with_empty
      STRUCT sample_struct_metadata ArrowSchemaInit 0%nat = (Ok (NANOARROW_OK, out'), a')
    /\ sch_format out' = format_type NANOARROW_TYPE_STRUCT
    /\ length (sch_children out') = num_children sample_struct_with_empty.
Proof.
  destruct (struct_schema_fields na_all_ok sample_max_precision sample_struct_with_empty
              STRUCT sample_struct_metadata ArrowSchemaInit 0%nat _ _ eq_refl
              ltac:(vm_compute; reflexivity)) as (Hformat & _ & Hlength & _).
  eexists _, _. split; [vm_compute; reflexivity | split; [exact Hformat | exact Hlength]].
Defined.

Lemma list_schema_child_witness :
  exists out' a' c,
    dispatch_to_arrow_type na_all_ok sample_max_precision sample_list LIST
      (Build_column_metadata "l" [Build_column_metadata "x" []]) ArrowSchemaInit 0%nat =
      (Ok (NANOARROW_OK, out'), a')
    /\ sch_format out' = format_type NANOARROW_TYPE_LIST
    /\ sch_children out' = [c]
    /\ sch_name c = Some "item".
Proof.
  destruct (list_schema_child na_all_ok sample_max_precision sample_list LIST
              (Build_column_metadata "l" [Build_column_metadata "x" []])
              ArrowSchemaInit 0%nat _ _ (sample_leaf INT32) [] eq_refl eq_refl
              ltac:(vm_compute; reflexivity)) as (Hformat & c & Hc & Hname & _).
  eexists _, _, c. split; [vm_compute; reflexivity |].
  split; [exact Hformat | split; [exact Hc | exact Hname]].
Defined.

Lemma list_of_leaves_ignores_metadata_witness :
  dispatch_to_arrow_type na_all_ok sample_max_precision sample_list LIST
    (Build_column_metadata "l" [Build_column_metadata "x" []]) ArrowSchemaInit 0%nat =
  dispatch_to_arrow_type na_all_ok sample_max_precision sample_list LIST
    (Build_column_metadata "l" []) ArrowSchemaInit 0%nat.
Proof.
  apply (list_of_leaves_ignores_metadata na_all_ok sample_max_precision sample_list LIST
           _ _ ArrowSchemaInit 0%nat (sample_leaf INT32) []); reflexivity.
Defined.

Lemma widened_slot_reads_as_the_value_witness :
  signed128
    (little_endian (word_bits int32_t)
       (slot_words (Z.to_nat (BIT_WIDTH_RATIO int32_t)) 1
          (widen (BIT_WIDTH_RATIO int32_t) (Z.of_nat 3) [1; -2; 3] (replicate 12 77)))) =
  -2.
Proof.
  apply (widened_slot_reads_as_the_value int32_t 3 [1; -2; 3] (replicate 12 77) 1 (-2)).
  - now left.
  - vm_compute. discriminate.
  - simpl. lia.
  - lia.
  - reflexivity.
  - simpl. lia.
Defined.

Lemma to_arrow_device_ignores_uninitialized_memory_witness :
  to_arrow_device na_all_ok cuda_all_ok sample_max_precision (fun _ => [])
    (fun _ => 77) sample_table 5 6 sample_device =
  to_arrow_device na_all_ok cuda_all_ok sample_max_precision (fun _ => [])
    (fun _ => 0) sample_table 5 6 sample_device.
Proof.
  apply (to_arrow_device_ignores_uninitialized_memory na_all_ok cuda_all_ok
           sample_max_precision (fun _ => []) (fun _ => 77) (fun _ => 0)
           sample_table 5 6 sample_device).
  repeat constructor; simpl; vm_compute; discriminate.
Defined.



Lemma rejected_initialisation_keeps_the_column_witness :
  dispatch_to_arrow_device na_rejects_arrays sample_max_precision (fun _ => [])
    (fun _ => 77) sample_int32_column INT32 5 6 ArrowArray_uninitialized sample_device =
  (Ok (na_rejects_arrays (ArrayInitFromType NANOARROW_TYPE_INT32), sample_int32_column,
       ArrowArray_uninitialized), sample_device).
Proof.
  apply (rejected_initialisation_keeps_the_column na_rejects_arrays sample_max_precision
           (fun _ => []) (fun _ => 77) sample_int32_column INT32 5 6
           ArrowArray_uninitialized sample_device NANOARROW_TYPE_INT32).
  - reflexivity.
  - vm_compute. discriminate.
Defined.


Lemma duration_days_columns_are_rejected_witness :
  exists e d',
    to_arrow_device na_all_ok cuda_all_ok sample_max_precision (fun _ => [])
      (fun _ => 77) (Build_table 3 [sample_int32_column; sample_duration_days_column])
      5 6 sample_device = (Throw e, Build_table 0 [], d').
Proof.
  apply (duration_days_columns_are_rejected na_all_ok cuda_all_ok sample_max_precision
           (fun _ => []) (fun _ => 77)
           (Build_table 3 [sample_int32_column; sample_duration_days_column])
           5 6 sample_device sample_duration_days_column).
  - apply list_elem_of_further, list_elem_of_here.
  - reflexivity.
Defined.
